(** * LinkedIn outreach automation ([main.py]): model and verified properties

    The development embeds [_build_message], [_random_delay],
    [_run_automation] and the handler [run] of [main.py].

    - The browser (Playwright) is an external collaborator: a class of
      fallible operations over an abstract world, so that a theorem holds
      for every behaviour of the browser.
    - A Python exception is a value of [exn]; a computation maps the state
      of the run to a new state and either an exception or a result.  The
      exceptions are those that [except Exception] catches.
    - The dict [results] is a field of the state: a record made before an
      exception is raised stays.
    - Strings are sequences of code points below 256 ([ascii]).
    - A sleep lasts a rational number of seconds: [random.random()] is an
      arbitrary sequence of rationals, [random.uniform(a, b)] is
      [a + (b - a) * draw] without the rounding of floats, and
      [asyncio.sleep] returns.  [_random_delay] is the call on bounds that
      floats hold; [int_random_delay] is the call on the integer bounds of
      the request, which raises [OverflowError] when a bound is beyond the
      range of floats.  [process_profile], [for_profiles], [for_keywords]
      and [_run_automation] are the run of a request whose bounds convert;
      their [checked_] variants are the run of any request, and the two
      agree on the requests whose bounds convert.
    - The entry and the exit of [async with async_playwright()] are not
      events of the model. *)

From Stdlib Require Import String Ascii List ZArith QArith Lia Lqa Bool.
From Stdlib Require Import Permutation.
Import ListNotations.
Local Close Scope Q_scope.
Local Open Scope string_scope.

(* ================================================================== *)
(** * Python string operations used by [main.py] *)

Module PyStr.

(** [str.isspace] on one code point below 256: TAB..CR, FS..US, space,
    NEL (0x85) and NBSP (0xA0). *)
Definition is_space (c : ascii) : bool :=
  let n := nat_of_ascii c in
  (((9 <=? n) && (n <=? 13)) || ((28 <=? n) && (n <=? 32))
   || (n =? 133) || (n =? 160))%nat.

(** [s.lstrip()], [s.rstrip()], [s.strip()] *)
Fixpoint lstrip (s : string) : string :=
  match s with
  | EmptyString => EmptyString
  | String c s' => if is_space c then lstrip s' else s
  end.

Fixpoint rstrip (s : string) : string :=
  match s with
  | EmptyString => EmptyString
  | String c s' =>
      match rstrip s' with
      | EmptyString => if is_space c then EmptyString else String c EmptyString
      | r => String c r
      end
  end.

Definition strip (s : string) : string := rstrip (lstrip s).

(** The maximal run of non-space characters at the head of [s]. *)
Fixpoint take_word (s : string) : string :=
  match s with
  | EmptyString => EmptyString
  | String c s' => if is_space c then EmptyString else String c (take_word s')
  end.

(** [s.split()]: the whitespace-delimited tokens of [s]; [in_word] tells
    that the scan is inside a token already emitted. *)
Fixpoint split_ws_from (in_word : bool) (s : string) : list string :=
  match s with
  | EmptyString => []
  | String c s' =>
      if is_space c then split_ws_from false s'
      else if in_word then split_ws_from true s'
      else take_word s :: split_ws_from true s'
  end.

Definition split_ws (s : string) : list string := split_ws_from false s.

(** [s.split(sep)] for a one-character separator. *)
Fixpoint split_char (sep : ascii) (s : string) : list string :=
  match s with
  | EmptyString => [EmptyString]
  | String c s' =>
      if Ascii.eqb c sep then EmptyString :: split_char sep s'
      else match split_char sep s' with
           | w :: ws => String c w :: ws
           | [] => [String c EmptyString]
           end
  end.

(** [sub in s] *)
Fixpoint contains (sub s : string) : bool :=
  prefix sub s ||
  match s with
  | EmptyString => false
  | String _ s' => contains sub s'
  end.

(** [s.replace(old, new)]: leftmost, non-overlapping occurrences of [old].
    [skip] counts the characters of an occurrence still to be dropped. *)
Fixpoint replace_from (old new : string) (skip : nat) (s : string) : string :=
  match s with
  | EmptyString => EmptyString
  | String c s' =>
      match skip with
      | S k => replace_from old new k s'
      | O =>
          if prefix old s
          then new ++ replace_from old new (String.length old - 1) s'
          else String c (replace_from old new 0 s')
      end
  end.

(** With an empty [old], Python inserts [new] before every character and at
    the end. *)
Fixpoint intersperse (new s : string) : string :=
  match s with
  | EmptyString => new
  | String c s' => new ++ String c (intersperse new s')
  end.

Definition replace (old new s : string) : string :=
  match old with
  | EmptyString => intersperse new s
  | _ => replace_from old new 0 s
  end.

(** Truthiness of a string: [bool(s)] *)
Definition truthy (s : string) : bool :=
  match s with EmptyString => false | _ => true end.

End PyStr.

(* ================================================================== *)
(** * Data model *)

(** Exceptions ([except Exception] catches every one of them). *)
Inductive exn : Type :=
| DriverError (msg : string)   (* raised by a browser operation *)
| IndexError                   (* [l[0]] on an empty list *)
| LoginFailed                  (* [Exception("Login falhou. ...")] *)
| OverflowError.               (* an integer beyond the range of floats *)

(** [str(e)] *)
Definition str_of_exn (e : exn) : string :=
  match e with
  | DriverError msg => msg
  | IndexError => "list index out of range"
  | LoginFailed => "Login falhou. Verifique credenciais ou CAPTCHA."
  | OverflowError => "int too large to convert to float"
  end.

(** [l[0]] *)
Definition index0 {A : Type} (l : list A) : exn + A :=
  match l with
  | [] => inl IndexError
  | x :: _ => inr x
  end.

(** [class RunRequest] *)
Record RunRequest : Type := {
  email : string;
  password : string;
  keywords : list string;
  max_messages : Z;
  delay_min : Z;
  delay_max : Z;
  dry_run : bool;
  message_template : string
}.

(** The dict [{"name": .., "title": .., "url": ..}] built during extraction. *)
Record Profile : Type := {
  name : string;
  title : string;
  url : string
}.

(** Entries of [results["would_send"]], [results["skipped"]] and
    [results["errors"]]; [results["sent"]] holds the profile itself. *)
Record WouldSend : Type := {
  ws_profile : Profile;
  message_preview : string
}.

Record Skipped : Type := {
  sk_profile : Profile;
  reason : string
}.

Record Errored : Type := {
  er_profile : Profile;
  error : string
}.

(** The dict [results]. *)
Record Results : Type := {
  sent : list Profile;
  would_send : list WouldSend;
  skipped : list Skipped;
  errors : list Errored;
  totalSent : Z
}.

Definition empty_results : Results :=
  {| sent := []; would_send := []; skipped := []; errors := [];
     totalSent := 0 |}.

Record Summary : Type := {
  mode : string;
  sum_totalSent : Z;
  totalSkipped : nat;
  totalErrors : nat
}.

(** [class RunResponse] *)
Record RunResponse : Type := {
  success : bool;
  resp_dry_run : bool;
  summary : Summary;
  resp_would_send : list WouldSend;
  resp_sent : list Profile;
  resp_skipped : list Skipped;
  resp_errors : list Errored
}.

(** How the body of the [try] of one profile leaves: by [continue], or by
    reaching its end (an exception is the [inl] of the computation). *)
Inductive flow : Type := Continue | FallThrough.

(* ================================================================== *)
(** * The browser interface and the run state *)

(** The operations of Playwright that [main.py] calls, over a world [W]
    and element handles [H].  Each may raise; [page.url] is a property. *)
Class Driver (W H : Type) : Type := {
  chromium_launch : W -> W * (exn + unit);
  browser_new_context : W -> W * (exn + unit);
  context_new_page : W -> W * (exn + unit);
  page_goto : string -> W -> W * (exn + unit);
  page_fill : string -> string -> W -> W * (exn + unit);
  page_click : string -> W -> W * (exn + unit);
  page_wait_for_load_state : W -> W * (exn + unit);
  page_url : W -> string;
  page_query_selector : string -> W -> W * (exn + option H);
  page_query_selector_all : string -> W -> W * (exn + list H);
  handle_query_selector : H -> string -> W -> W * (exn + option H);
  handle_inner_text : H -> W -> W * (exn + string);
  handle_get_attribute : H -> string -> W -> W * (exn + option string);
  handle_click : H -> W -> W * (exn + unit);
  handle_fill : H -> string -> W -> W * (exn + unit);
  handle_press : H -> string -> W -> W * (exn + unit);
  browser_close : W -> W * (exn + unit)
}.

(** What a run does, in order.  [EvEnter] and [EvCount] are observations of
    the run itself: a profile passed the quota test of the profile loop, and
    [totalSent] was assigned the value [n]. *)
Inductive event (H : Type) : Type :=
| EvLaunch
| EvNewContext
| EvNewPage
| EvGoto (u : string)
| EvPageFill (sel text : string)
| EvPageClick (sel : string)
| EvWaitLoad
| EvQuery (sel : string)
| EvQueryAll (sel : string)
| EvHandleQuery (h : H) (sel : string)
| EvInnerText (h : H)
| EvGetAttribute (h : H) (attr : string)
| EvHandleClick (h : H)
| EvHandleFill (h : H) (text : string)
| EvHandlePress (h : H) (key : string)
| EvClose
| EvSleep (lo hi d : Q)
| EvEnter (p : Profile)
| EvCount (n : Z).

Arguments EvLaunch {H}.
Arguments EvNewContext {H}.
Arguments EvNewPage {H}.
Arguments EvGoto {H} u.
Arguments EvPageFill {H} sel text.
Arguments EvPageClick {H} sel.
Arguments EvWaitLoad {H}.
Arguments EvQuery {H} sel.
Arguments EvQueryAll {H} sel.
Arguments EvHandleQuery {H} h sel.
Arguments EvInnerText {H} h.
Arguments EvGetAttribute {H} h attr.
Arguments EvHandleClick {H} h.
Arguments EvHandleFill {H} h text.
Arguments EvHandlePress {H} h key.
Arguments EvClose {H}.
Arguments EvSleep {H} lo hi d.
Arguments EvEnter {H} p.
Arguments EvCount {H} n.

(** The state of a run: the browser, the number of random draws made, the
    events so far (oldest first) and the dict [results]. *)
Record state (W H : Type) : Type := {
  world : W;
  draws : nat;
  trace : list (event H);
  results : Results
}.

Arguments world {W H} s.
Arguments draws {W H} s.
Arguments trace {W H} s.
Arguments results {W H} s.
Arguments Build_state {W H} world draws trace results.

(** A computation: state in, state and exception-or-value out. *)
Definition M (W H A : Type) : Type := state W H -> state W H * (exn + A).

Definition ret {W H A : Type} (a : A) : M W H A := fun s => (s, inr a).

Definition raise {W H A : Type} (e : exn) : M W H A := fun s => (s, inl e).

Definition bind {W H A B : Type} (c : M W H A) (f : A -> M W H B) : M W H B :=
  fun s =>
    match c s with
    | (s', inl e) => (s', inl e)
    | (s', inr a) => f a s'
    end.

(** [try: c  except Exception as e: handler(e)]; the state reached when
    the exception was raised is kept. *)
Definition try_except {W H A : Type} (c : M W H A) (handler : exn -> M W H A)
  : M W H A :=
  fun s =>
    match c s with
    | (s', inl e) => handler e s'
    | (s', inr a) => (s', inr a)
    end.

(** A pure expression that may raise. *)
Definition lift {W H A : Type} (r : exn + A) : M W H A := fun s => (s, r).

Declare Scope run_scope.
Delimit Scope run_scope with run.
Notation "x <- c1 ;; c2" := (bind c1 (fun x => c2))
  (at level 100, c1 at next level, right associativity) : run_scope.
Notation "c1 ;; c2" := (bind c1 (fun _ => c2))
  (at level 100, right associativity) : run_scope.
Local Open Scope run_scope.

(* ================================================================== *)
(** * [_build_message] *)

Definition _build_message (template name title : string) : exn + string :=
  match index0 (PyStr.split_ws name) with
  | inl e => inl e
  | inr first_name =>
      inr (PyStr.replace "{cargo}"
             (if PyStr.truthy title then title else "profissional")
             (PyStr.replace "{nome}" first_name template))
  end.

(* ================================================================== *)
(** * [_run_automation] *)

(** The double quote, for selectors that contain one. *)
Definition dq : string := String "034"%char EmptyString.

Definition login_url : string := "https://www.linkedin.com/login".

Definition submit_selector : string := "[type=" ++ dq ++ "submit" ++ dq ++ "]".

Definition search_url (keyword : string) : string :=
  "https://www.linkedin.com/search/results/people/"
  ++ "?keywords=" ++ PyStr.replace " " "%20" keyword
  ++ "&origin=GLOBAL_SEARCH_HEADER".

Definition result_selector : string := ".reusable-search__result-container".
Definition name_selector : string := ".entity-result__title-text a".
Definition title_selector : string := ".entity-result__primary-subtitle".

Definition btn_selectors : list string :=
  [ "button:has-text(" ++ dq ++ "Mensagem" ++ dq ++ ")";
    "button:has-text(" ++ dq ++ "Message" ++ dq ++ ")";
    ".pvs-profile-actions button[aria-label*=" ++ dq ++ "essage" ++ dq ++ "]" ].

Definition msg_box_selector : string := ".msg-form__contenteditable".
Definition textbox_selector : string := "[role=" ++ dq ++ "textbox" ++ dq ++ "]".
Definition send_selector : string := ".msg-form__send-button".
Definition submit_enviar_selector : string :=
  "button[type=" ++ dq ++ "submit" ++ dq ++ "]:has-text(" ++ dq ++ "Enviar"
  ++ dq ++ ")".

Definition reason_no_button : string :=
  "Botao mensagem nao encontrado (nao e conexao)".
Definition reason_no_textbox : string := "Campo de texto nao encontrado".

Definition add_sent (p : Profile) (r : Results) : Results :=
  {| sent := sent r ++ [p]; would_send := would_send r; skipped := skipped r;
     errors := errors r; totalSent := totalSent r |}.

Definition add_would_send (w : WouldSend) (r : Results) : Results :=
  {| sent := sent r; would_send := would_send r ++ [w]; skipped := skipped r;
     errors := errors r; totalSent := totalSent r |}.

Definition add_skipped (k : Skipped) (r : Results) : Results :=
  {| sent := sent r; would_send := would_send r; skipped := skipped r ++ [k];
     errors := errors r; totalSent := totalSent r |}.

Definition add_error (e : Errored) (r : Results) : Results :=
  {| sent := sent r; would_send := would_send r; skipped := skipped r;
     errors := errors r ++ [e]; totalSent := totalSent r |}.

Definition incr_total (r : Results) : Results :=
  {| sent := sent r; would_send := would_send r; skipped := skipped r;
     errors := errors r; totalSent := totalSent r + 1 |}.

(** [random.uniform(a, b)], that is [a + (b - a) * random.random()], for
    the draw [u]: the exact value, which floats round. *)
Definition uniform (a b u : Q) : Q := (a + (b - a) * u)%Q.

Section Automation.

Context {W H : Type} {drv : Driver W H}.

(** [random.random()]: the [n]-th draw of the run. *)
Variable random_random : nat -> Q.

(** A call of a browser operation: the event is recorded, the world moves. *)
Definition call {A : Type} (ev : event H) (op : W -> W * (exn + A)) : M W H A :=
  fun s =>
    (Build_state (fst (op (world s))) (draws s) (trace s ++ [ev]) (results s),
     snd (op (world s))).

Definition observe (ev : event H) : M W H unit :=
  fun s =>
    (Build_state (world s) (draws s) (trace s ++ [ev]) (results s), inr tt).

Definition get_url : M W H string := fun s => (s, inr (page_url (world s))).

Definition get_results : M W H Results := fun s => (s, inr (results s)).

Definition modify_results (f : Results -> Results) : M W H unit :=
  fun s => (Build_state (world s) (draws s) (trace s) (f (results s)), inr tt).

(** [results["totalSent"] += 1] *)
Definition incr_totalSent : M W H unit :=
  modify_results incr_total ;;
  r <- get_results ;;
  observe (EvCount (totalSent r)).

(** [await asyncio.sleep(random.uniform(min_s, max_s))] on two bounds that
    floats hold, as the constants of lines 106, 125, 158, 189, 200 and 211
    are: one draw is made and the sleep returns.  On the integers of the
    request (lines 153 and 218) the call is [int_random_delay]. *)
Definition _random_delay (min_s max_s : Q) : M W H unit :=
  fun s =>
    (Build_state (world s) (S (draws s))
       (trace s ++ [EvSleep min_s max_s
                      (uniform min_s max_s (random_random (draws s)))])
       (results s),
     inr tt).

(** The body of [for handle in handles]: [None] when the entry is left by
    [continue] or yields no profile. *)
Definition extract_entry (handle : H) : M W H (option Profile) :=
  try_except
    (name_el <- call (EvHandleQuery handle name_selector)
                  (handle_query_selector handle name_selector) ;;
     title_el <- call (EvHandleQuery handle title_selector)
                   (handle_query_selector handle title_selector) ;;
     link_el <- call (EvHandleQuery handle name_selector)
                  (handle_query_selector handle name_selector) ;;
     match name_el, link_el with
     | Some name_el, Some link_el =>
         raw_name <- call (EvInnerText name_el) (handle_inner_text name_el) ;;
         line <- lift (index0 (PyStr.split_char "010"%char
                                 (PyStr.strip raw_name))) ;;
         let name := PyStr.strip line in
         title <- match title_el with
                  | Some title_el =>
                      t <- call (EvInnerText title_el)
                             (handle_inner_text title_el) ;;
                      ret (PyStr.strip t)
                  | None => ret EmptyString
                  end ;;
         href <- call (EvGetAttribute link_el "href")
                   (handle_get_attribute link_el "href") ;;
         match href with
         | Some href =>
             if PyStr.truthy href && PyStr.contains "/in/" href
             then
               u <- lift (index0 (PyStr.split_char "?"%char href)) ;;
               ret (Some {| name := name; title := title; url := u |})
             else ret None
         | None => ret None
         end
     | _, _ => ret None
     end)
    (fun _ => ret None).

(** [for handle in handles], threading the list [profiles]. *)
Fixpoint extract_profiles (handles : list H) (profiles : list Profile)
  : M W H (list Profile) :=
  match handles with
  | [] => ret profiles
  | handle :: rest =>
      o <- extract_entry handle ;;
      extract_profiles rest
        (match o with Some p => profiles ++ [p] | None => profiles end)
  end.

(** [for sel in btn_selectors: msg_btn = ...; if msg_btn: break] *)
Fixpoint find_msg_btn (sels : list string) (msg_btn : option H)
  : M W H (option H) :=
  match sels with
  | [] => ret msg_btn
  | sel :: rest =>
      found <- call (EvQuery sel) (page_query_selector sel) ;;
      match found with
      | Some _ => ret found
      | None => find_msg_btn rest found
      end
  end.

(** The body of the [try] of one profile (lines 156-213). *)
Definition attempt (cfg : RunRequest) (profile : Profile) : M W H flow :=
  call (EvGoto (url profile)) (page_goto (url profile)) ;;
  call EvWaitLoad page_wait_for_load_state ;;
  _random_delay 2 3 ;;
  msg_btn <- find_msg_btn btn_selectors None ;;
  match msg_btn with
  | None =>
      modify_results
        (add_skipped {| sk_profile := profile; reason := reason_no_button |}) ;;
      ret Continue
  | Some msg_btn =>
      preview <- lift (_build_message (message_template cfg)
                         (name profile) (title profile)) ;;
      if dry_run cfg then
        modify_results
          (add_would_send {| ws_profile := profile;
                             message_preview := preview |}) ;;
        incr_totalSent ;;
        ret Continue
      else
        call (EvHandleClick msg_btn) (handle_click msg_btn) ;;
        _random_delay 1 2 ;;
        msg_box <- call (EvQuery msg_box_selector)
                     (page_query_selector msg_box_selector) ;;
        msg_box <- match msg_box with
                   | Some _ => ret msg_box
                   | None => call (EvQuery textbox_selector)
                               (page_query_selector textbox_selector)
                   end ;;
        match msg_box with
        | None =>
            modify_results
              (add_skipped {| sk_profile := profile;
                              reason := reason_no_textbox |}) ;;
            ret Continue
        | Some msg_box =>
            call (EvHandleClick msg_box) (handle_click msg_box) ;;
            call (EvHandleFill msg_box preview) (handle_fill msg_box preview) ;;
            _random_delay 0.8 1.5 ;;
            send_btn <- call (EvQuery send_selector)
                          (page_query_selector send_selector) ;;
            send_btn <- match send_btn with
                        | Some _ => ret send_btn
                        | None => call (EvQuery submit_enviar_selector)
                                    (page_query_selector submit_enviar_selector)
                        end ;;
            match send_btn with
            | Some send_btn =>
                call (EvHandleClick send_btn) (handle_click send_btn)
            | None =>
                call (EvHandlePress msg_box "Control+Enter")
                  (handle_press msg_box "Control+Enter")
            end ;;
            _random_delay 1 2 ;;
            modify_results (add_sent profile) ;;
            incr_totalSent ;;
            ret FallThrough
        end
  end.

(** One iteration of [for profile in profiles] once the quota test has
    passed (lines 153-218): the gate delay, the guarded attempt, and the
    trailing delay, which a [continue] jumps over.  The two delays are
    those of a request whose bounds convert to floats; for any request the
    iteration is [checked_process_profile]. *)
Definition process_profile (cfg : RunRequest) (profile : Profile) : M W H unit :=
  observe (EvEnter profile) ;;
  _random_delay (inject_Z (delay_min cfg)) (inject_Z (delay_max cfg)) ;;
  how <- try_except (attempt cfg profile)
           (fun e =>
              modify_results
                (add_error {| er_profile := profile;
                              error := str_of_exn e |}) ;;
              ret FallThrough) ;;
  match how with
  | Continue => ret tt
  | FallThrough =>
      _random_delay (inject_Z (delay_min cfg + 2)) (inject_Z (delay_max cfg + 3))
  end.

(** [for profile in profiles] (lines 149-218) *)
Fixpoint for_profiles (cfg : RunRequest) (profiles : list Profile) : M W H unit :=
  match profiles with
  | [] => ret tt
  | profile :: rest =>
      r <- get_results ;;
      if (totalSent r >=? max_messages cfg)%Z then ret tt
      else process_profile cfg profile ;; for_profiles cfg rest
  end.

(** [for keyword in cfg.keywords] (lines 114-218) *)
Fixpoint for_keywords (cfg : RunRequest) (kws : list string) : M W H unit :=
  match kws with
  | [] => ret tt
  | keyword :: rest =>
      r <- get_results ;;
      if (totalSent r >=? max_messages cfg)%Z then ret tt
      else
        call (EvGoto (search_url keyword)) (page_goto (search_url keyword)) ;;
        call EvWaitLoad page_wait_for_load_state ;;
        _random_delay 2 3 ;;
        handles <- call (EvQueryAll result_selector)
                     (page_query_selector_all result_selector) ;;
        profiles <- extract_profiles handles [] ;;
        for_profiles cfg profiles ;;
        for_keywords cfg rest
  end.

(** Lines 80-106: the browser is started and the login form submitted. *)
Definition login (cfg : RunRequest) : M W H unit :=
  call EvLaunch chromium_launch ;;
  call EvNewContext browser_new_context ;;
  call EvNewPage context_new_page ;;
  call (EvGoto login_url) (page_goto login_url) ;;
  call (EvPageFill "#username" (email cfg)) (page_fill "#username" (email cfg)) ;;
  call (EvPageFill "#password" (password cfg))
    (page_fill "#password" (password cfg)) ;;
  call (EvPageClick submit_selector) (page_click submit_selector) ;;
  call EvWaitLoad page_wait_for_load_state ;;
  _random_delay 2 4.

(** [logged_in] of line 108 *)
Definition logged_in (u : string) : bool :=
  PyStr.contains "feed" u || PyStr.contains "mynetwork" u.

Definition response (cfg : RunRequest) (r : Results) : RunResponse :=
  {| success := true;
     resp_dry_run := dry_run cfg;
     summary :=
       {| mode := if dry_run cfg then "dry_run (simulacao)"
                  else "real (mensagens enviadas)";
          sum_totalSent := totalSent r;
          totalSkipped := length (skipped r);
          totalErrors := length (errors r) |};
     resp_would_send := would_send r;
     resp_sent := sent r;
     resp_skipped := skipped r;
     resp_errors := errors r |}.

Definition _run_automation (cfg : RunRequest) : M W H RunResponse :=
  modify_results (fun _ => empty_results) ;;
  login cfg ;;
  u <- get_url ;;
  (if negb (logged_in u)
   then call EvClose browser_close ;; raise LoginFailed
   else ret tt) ;;
  for_keywords cfg (keywords cfg) ;;
  call EvClose browser_close ;;
  r <- get_results ;;
  ret (response cfg r).

End Automation.

(** A run starts with no event and no draw made. *)
Definition initial_state {W H : Type} (w : W) : state W H :=
  Build_state w 0 [] empty_results.

(* ================================================================== *)
(** * A scripted browser, for concrete runs *)

Module Fake.

(** One entry of a result listing: the text of its name link ([None]: no
    such element), of its subtitle, the [href] of the link, and whether
    reading the name text raises. *)
Record entry : Type := {
  e_name : option string;
  e_title : option string;
  e_href : option string;
  e_text_fault : bool
}.

(** A site: where the login form leads, the listing every search shows,
    the profile pages that carry a message button, whether the composer has
    a text box and a send button, and the addresses whose loading fails. *)
Record site : Type := {
  landing : string;
  listing : list entry;
  buttons : list string;
  textbox : bool;
  send_button : bool;
  broken : list string
}.

Inductive handle : Type :=
| HEntry (i : nat)
| HName (i : nat)
| HTitle (i : nat)
| HButton
| HBox
| HSend.

(** The world is the address shown. *)
Definition world : Type := string.

Definition mem (u : string) (l : list string) : bool :=
  existsb (String.eqb u) l.

Definition ok {A : Type} (w : world) (a : A) : world * (exn + A) := (w, inr a).

Definition nth_entry (st : site) (i : nat) : option entry :=
  nth_error (listing st) i.

Definition goto (st : site) (u : string) (w : world) : world * (exn + unit) :=
  if mem u (broken st) then (w, inl (DriverError "net::ERR_FAILED"))
  else ok u tt.

Definition click (st : site) (sel : string) (w : world)
  : world * (exn + unit) :=
  if String.eqb sel submit_selector then ok (landing st) tt else ok w tt.

Definition query (st : site) (sel : string) (w : world)
  : world * (exn + option handle) :=
  if String.eqb sel (hd EmptyString btn_selectors) then
    ok w (if mem w (buttons st) then Some HButton else None)
  else if String.eqb sel msg_box_selector then
    ok w (if textbox st then Some HBox else None)
  else if String.eqb sel send_selector then
    ok w (if send_button st then Some HSend else None)
  else ok w None.

Definition query_all (st : site) (sel : string) (w : world)
  : world * (exn + list handle) :=
  if String.eqb sel result_selector
  then ok w (map HEntry (seq 0 (length (listing st))))
  else ok w [].

Definition sub_query (st : site) (h : handle) (sel : string) (w : world)
  : world * (exn + option handle) :=
  match h with
  | HEntry i =>
      match nth_entry st i with
      | Some e =>
          if String.eqb sel name_selector then
            ok w (match e_name e with Some _ => Some (HName i) | None => None end)
          else if String.eqb sel title_selector then
            ok w (match e_title e with Some _ => Some (HTitle i) | None => None end)
          else ok w None
      | None => ok w None
      end
  | _ => ok w None
  end.

Definition inner_text (st : site) (h : handle) (w : world)
  : world * (exn + string) :=
  match h with
  | HName i =>
      match nth_entry st i with
      | Some e =>
          if e_text_fault e then (w, inl (DriverError "element detached"))
          else ok w (match e_name e with Some t => t | None => EmptyString end)
      | None => (w, inl (DriverError "element detached"))
      end
  | HTitle i =>
      match nth_entry st i with
      | Some e => ok w (match e_title e with Some t => t | None => EmptyString end)
      | None => (w, inl (DriverError "element detached"))
      end
  | _ => ok w EmptyString
  end.

Definition get_attribute (st : site) (h : handle) (attr : string) (w : world)
  : world * (exn + option string) :=
  match h with
  | HName i =>
      match nth_entry st i with
      | Some e => ok w (if String.eqb attr "href" then e_href e else None)
      | None => ok w None
      end
  | _ => ok w None
  end.

Definition driver (st : site) : Driver world handle :=
  {| chromium_launch := fun w => ok w tt;
     browser_new_context := fun w => ok w tt;
     context_new_page := fun w => ok w tt;
     page_goto := goto st;
     page_fill := fun _ _ w => ok w tt;
     page_click := click st;
     page_wait_for_load_state := fun w => ok w tt;
     page_url := fun w => w;
     page_query_selector := query st;
     page_query_selector_all := query_all st;
     handle_query_selector := sub_query st;
     handle_inner_text := inner_text st;
     handle_get_attribute := get_attribute st;
     handle_click := fun _ w => ok w tt;
     handle_fill := fun _ _ w => ok w tt;
     handle_press := fun _ _ w => ok w tt;
     browser_close := fun w => ok w tt |}.

(** Every draw of [random.random()] is [0], or is [1/2]. *)
Definition draw_zero : nat -> Q := fun _ => 0%Q.
Definition draw_half : nat -> Q := fun _ => (1 # 2)%Q.

Definition person (n t h : string) : entry :=
  {| e_name := Some n; e_title := Some t; e_href := Some h;
     e_text_fault := false |}.

(** The request of the defaults of [RunRequest], with two keywords. *)
Definition default_template : string :=
  "Ola {nome}, tudo bem?" ++ String "010"%char (String "010"%char
  ("Vi seu perfil e fiquei interessado no seu trabalho como {cargo}."
   ++ String "010"%char
   ("Gostaria de trocar uma ideia sobre [seu motivo aqui]."
    ++ String "010"%char (String "010"%char "Podemos conversar?")))).

Definition request (quota : Z) (dry : bool) : RunRequest :=
  {| email := "me@example.org"; password := "secret";
     keywords := ["product manager senior"; "data engineer"];
     max_messages := quota; delay_min := 3; delay_max := 7;
     dry_run := dry; message_template := default_template |}.

Definition run (st : site) (draw : nat -> Q) (cfg : RunRequest)
  : state world handle * (exn + RunResponse) :=
  _run_automation (drv := driver st) draw cfg
    (initial_state "about:blank").

(** People and sites of the examples. *)
Definition maria : entry :=
  person "Maria Clara Souza" "Engenheira de Dados"
    "https://www.linkedin.com/in/maria?trk=search".

Definition joao : entry :=
  person "Joao Silva" EmptyString "https://www.linkedin.com/in/joao".

(** A result whose name link shows no text. *)
Definition nameless : entry :=
  person EmptyString "Dev" "https://www.linkedin.com/in/anon".

(** A result whose name text cannot be read. *)
Definition detached : entry :=
  {| e_name := Some "Ana Lima"; e_title := Some "Dev";
     e_href := Some "https://www.linkedin.com/in/ana";
     e_text_fault := true |}.

Definition maria_profile : Profile :=
  {| name := "Maria Clara Souza"; title := "Engenheira de Dados";
     url := "https://www.linkedin.com/in/maria" |}.

Definition joao_profile : Profile :=
  {| name := "Joao Silva"; title := EmptyString;
     url := "https://www.linkedin.com/in/joao" |}.

Definition nameless_profile : Profile :=
  {| name := EmptyString; title := "Dev";
     url := "https://www.linkedin.com/in/anon" |}.

Definition feed : string := "https://www.linkedin.com/feed/".

(** Both people are connections. *)
Definition site_connected : site :=
  {| landing := feed; listing := [maria; joao];
     buttons := [url maria_profile; url joao_profile];
     textbox := true; send_button := true; broken := [] |}.

(** The only result has no name text, and is a connection. *)
Definition site_nameless : site :=
  {| landing := feed; listing := [nameless];
     buttons := [url nameless_profile];
     textbox := true; send_button := true; broken := [] |}.

(** Nobody is a connection, and the page of Joao does not load. *)
Definition site_strangers : site :=
  {| landing := feed; listing := [maria; joao];
     buttons := []; textbox := true; send_button := true;
     broken := [url joao_profile] |}.

(** The login ends on a challenge page. *)
Definition site_challenge : site :=
  {| landing := "https://www.linkedin.com/checkpoint/challenge";
     listing := [maria]; buttons := [url maria_profile];
     textbox := true; send_button := true; broken := [] |}.

(** The name text of the only result cannot be read. *)
Definition site_detached : site :=
  {| landing := feed; listing := [detached]; buttons := [];
     textbox := true; send_button := true; broken := [] |}.

End Fake.

(* ================================================================== *)
(** * The request handler [run] and the defaults of [RunRequest] *)

(** [os.getenv("API_KEY", "troque-esta-chave")]: the value of the variable
    of the environment, or the default when there is none. *)
Definition API_KEY (env : option string) : string :=
  match env with
  | Some key => key
  | None => "troque-esta-chave"
  end.

(** What the handler answers: the response of the automation, or
    [HTTPException(status_code, detail)]. *)
Inductive http_result : Type :=
| Response (result : RunResponse)
| HTTPException (status_code : Z) (detail : string).

(** [async def run(body, x_api_key)] (lines 53-61) *)
Definition run {W H : Type} {drv : Driver W H} (random_random : nat -> Q)
  (env : option string) (body : RunRequest) (x_api_key : string)
  : state W H -> state W H * http_result :=
  fun s =>
    if negb (String.eqb x_api_key (API_KEY env))
    then (s, HTTPException 401 "API Key invalida")
    else
      match _run_automation random_random body s with
      | (s', inr result) => (s', Response result)
      | (s', inl e) => (s', HTTPException 500 (str_of_exn e))
      end.

(** The default of [message_template] (lines 27-32). *)
Definition default_message_template : string :=
  "Ola {nome}, tudo bem?" ++ String "010"%char (String "010"%char
  ("Vi seu perfil e fiquei interessado no seu trabalho como {cargo}."
   ++ String "010"%char
   ("Gostaria de trocar uma ideia sobre [seu motivo aqui]."
    ++ String "010"%char (String "010"%char "Podemos conversar?")))).

(** A [RunRequest] built from the two required fields. *)
Definition default_request (email password : string) : RunRequest :=
  {| email := email; password := password;
     keywords := ["product manager senior"];
     max_messages := 10; delay_min := 3; delay_max := 7;
     dry_run := false; message_template := default_message_template |}.

(* ================================================================== *)
(** * The integer bounds of the request *)

(** Python converts an integer to a float when it rounds to a finite
    double, that is when its absolute value is below [2^1024 - 2^970];
    beyond, the conversion raises [OverflowError]. *)
Definition float_limit : Z := 2 ^ 1024 - 2 ^ 970.

Definition converts (n : Z) : bool := (Z.abs n <? float_limit)%Z.

(** [random.uniform(a, b)] evaluates [a + (b - a) * random()]: the
    integers [b - a] and [a] are converted.  The delay of line 153 raises
    nothing, the delay of line 218 raises nothing, and neither does. *)
Definition gate_delay_converts (cfg : RunRequest) : bool :=
  converts (delay_max cfg - delay_min cfg) && converts (delay_min cfg).

Definition trailing_delay_converts (cfg : RunRequest) : bool :=
  converts ((delay_max cfg + 3) - (delay_min cfg + 2))
  && converts (delay_min cfg + 2).

Definition delays_convert (cfg : RunRequest) : bool :=
  gate_delay_converts cfg && trailing_delay_converts cfg.

Section CheckedRun.

Context {W H : Type} {drv : Driver W H}.
Variable random_random : nat -> Q.

(** [_random_delay(a, b)] on two integers: [random.uniform] draws, then
    evaluates [a + (b - a) * draw], which converts [b - a] and then [a] to
    floats; when one of them does not convert, the draw is made and
    [OverflowError] is raised before any sleep. *)
Definition int_random_delay (a b : Z) : M W H unit :=
  fun s =>
    if converts (b - a) && converts a
    then _random_delay random_random (inject_Z a) (inject_Z b) s
    else (Build_state (world s) (S (draws s)) (trace s) (results s),
          inl OverflowError).

(** One iteration of [for profile in profiles] once the quota test has
    passed (lines 153-218), the two delays being outside the [try]. *)
Definition checked_process_profile (cfg : RunRequest) (profile : Profile)
  : M W H unit :=
  observe (EvEnter profile) ;;
  int_random_delay (delay_min cfg) (delay_max cfg) ;;
  how <- try_except (attempt random_random cfg profile)
           (fun e =>
              modify_results
                (add_error {| er_profile := profile;
                              error := str_of_exn e |}) ;;
              ret FallThrough) ;;
  match how with
  | Continue => ret tt
  | FallThrough => int_random_delay (delay_min cfg + 2) (delay_max cfg + 3)
  end.

(** [for profile in profiles] (lines 149-218) *)
Fixpoint checked_for_profiles (cfg : RunRequest) (profiles : list Profile)
  : M W H unit :=
  match profiles with
  | [] => ret tt
  | profile :: rest =>
      r <- get_results ;;
      if (totalSent r >=? max_messages cfg)%Z then ret tt
      else checked_process_profile cfg profile ;;
           checked_for_profiles cfg rest
  end.

(** [for keyword in cfg.keywords] (lines 114-218) *)
Fixpoint checked_for_keywords (cfg : RunRequest) (kws : list string)
  : M W H unit :=
  match kws with
  | [] => ret tt
  | keyword :: rest =>
      r <- get_results ;;
      if (totalSent r >=? max_messages cfg)%Z then ret tt
      else
        call (EvGoto (search_url keyword)) (page_goto (search_url keyword)) ;;
        call EvWaitLoad page_wait_for_load_state ;;
        _random_delay random_random 2 3 ;;
        handles <- call (EvQueryAll result_selector)
                     (page_query_selector_all result_selector) ;;
        profiles <- extract_profiles handles [] ;;
        checked_for_profiles cfg profiles ;;
        checked_for_keywords cfg rest
  end.

(** [_run_automation] (lines 77-235) *)
Definition checked_run_automation (cfg : RunRequest) : M W H RunResponse :=
  modify_results (fun _ => empty_results) ;;
  login random_random cfg ;;
  u <- get_url ;;
  (if negb (logged_in u)
   then call EvClose browser_close ;; raise LoginFailed
   else ret tt) ;;
  checked_for_keywords cfg (keywords cfg) ;;
  call EvClose browser_close ;;
  r <- get_results ;;
  ret (response cfg r).

End CheckedRun.

(* ================================================================== *)
(** * Notions the properties are stated with *)

Local Open Scope list_scope.

(** Every character of [s] passes the test [P]. *)
Fixpoint all_chars (P : ascii -> bool) (s : string) : bool :=
  match s with
  | EmptyString => true
  | String c s' => P c && all_chars P s'
  end.

Definition is_word_char (c : ascii) : bool := negb (PyStr.is_space c).

(** [s] is empty or begins with a whitespace character. *)
Definition ends_word (s : string) : bool :=
  match s with
  | EmptyString => true
  | String c _ => PyStr.is_space c
  end.

(** [tok] is the first whitespace-delimited token of [s]: only whitespace
    precedes it, it is a non-empty run of non-whitespace characters, and
    whitespace or the end of [s] follows it. *)
Definition first_token_of (s tok : string) : Prop :=
  exists pre post,
    s = (pre ++ tok ++ post)%string /\
    all_chars PyStr.is_space pre = true /\
    tok <> EmptyString /\
    all_chars is_word_char tok = true /\
    ends_word post = true.

(** The characters of [s] before the first [sep] (all of [s] when there is
    none): the first line for a line feed, the address without its query
    string for a question mark. *)
Fixpoint before (sep : ascii) (s : string) : string :=
  match s with
  | EmptyString => EmptyString
  | String c s' => if Ascii.eqb c sep then EmptyString else String c (before sep s')
  end.

(** A message template seen as literal text and placeholders. *)
Module Template.
Local Open Scope string_scope.

Inductive segment : Type :=
| Lit (text : string)
| Nome
| Cargo.

Fixpoint render (segs : list segment) : string :=
  match segs with
  | [] => EmptyString
  | Lit text :: rest => text ++ render rest
  | Nome :: rest => "{nome}" ++ render rest
  | Cargo :: rest => "{cargo}" ++ render rest
  end.

(** Both placeholders substituted at once. *)
Fixpoint fill (first cargo : string) (segs : list segment) : string :=
  match segs with
  | [] => EmptyString
  | Lit text :: rest => text ++ fill first cargo rest
  | Nome :: rest => first ++ fill first cargo rest
  | Cargo :: rest => cargo ++ fill first cargo rest
  end.

Definition not_open_brace (c : ascii) : bool := negb (Ascii.eqb c "{"%char).

Definition no_brace (s : string) : bool := all_chars not_open_brace s.

(** The literal parts hold no opening brace. *)
Definition plain (seg : segment) : bool :=
  match seg with
  | Lit text => no_brace text
  | _ => true
  end.

End Template.

(** What [{cargo}] stands for. *)
Definition cargo_text (title : string) : string :=
  match title with
  | EmptyString => "profissional"
  | _ => title
  end.

(** The state and the outcome a computation [c] reaches from [s] satisfy
    [Q]. *)
Definition wp {W H A : Type} (c : M W H A)
  (Q : state W H -> exn + A -> Prop) (s : state W H) : Prop :=
  Q (fst (c s)) (snd (c s)).

(** What the processing of one profile adds to [results]: one entry, in
    one list; the counter moves with [would_send] and [sent] only. *)
Inductive outcome (cfg : RunRequest) (p : Profile) (r r' : Results) : Prop :=
| OutWouldSend (m : string) :
    dry_run cfg = true ->
    _build_message (message_template cfg) (name p) (title p) = inr m ->
    r' = incr_total
           (add_would_send {| ws_profile := p; message_preview := m |} r) ->
    outcome cfg p r r'
| OutSent :
    dry_run cfg = false ->
    r' = incr_total (add_sent p r) -> outcome cfg p r r'
| OutSkipped (why : string) :
    why = reason_no_button \/ why = reason_no_textbox ->
    r' = add_skipped {| sk_profile := p; reason := why |} r ->
    outcome cfg p r r'
| OutErrored (e : exn) :
    r' = add_error {| er_profile := p; error := str_of_exn e |} r ->
    outcome cfg p r r'.

(** The state in which the guarded body of a profile starts: the profile
    has entered and the gate delay has been slept. *)
Definition gated {W H : Type} (rnd : nat -> Q) (cfg : RunRequest)
  (p : Profile) (s : state W H) : state W H :=
  fst (_random_delay rnd (inject_Z (delay_min cfg)) (inject_Z (delay_max cfg))
         (fst (observe (EvEnter p) s))).

(** [results["errors"].append(...)] on a state. *)
Definition record_error {W H : Type} (p : Profile) (e : exn) (s : state W H)
  : state W H :=
  Build_state (world s) (draws s) (trace s)
    (add_error {| er_profile := p; error := str_of_exn e |} (results s)).

(** The profiles recorded in the four lists, and their number. *)
Definition recorded (r : Results) : list Profile :=
  map ws_profile (would_send r) ++ sent r
  ++ map sk_profile (skipped r) ++ map er_profile (errors r).

Definition recorded_count (r : Results) : nat :=
  length (would_send r) + length (sent r)
  + length (skipped r) + length (errors r).

(** The profiles that entered the outreach state machine, in order. *)
Fixpoint entered {H : Type} (t : list (event H)) : list Profile :=
  match t with
  | [] => []
  | EvEnter p :: rest => p :: entered rest
  | _ :: rest => entered rest
  end.

(** [s'] continues [s] with events that all satisfy [ok]. *)
Definition extends {W H : Type} (ok : event H -> Prop) (s s' : state W H)
  : Prop :=
  exists evs, trace s' = trace s ++ evs /\ Forall ok evs.

Section EventClasses.

Context {H : Type}.
Variable rnd : nat -> Q.
Variable cfg : RunRequest.

(** [d] is [random.uniform(lo, hi)] for some draw of the run. *)
Definition drawn (lo hi d : Q) : Prop :=
  exists k, d = uniform lo hi (rnd k).

(** The bounds written in [main.py] as constants. *)
Inductive fixed_bounds : Q -> Q -> Prop :=
| bounds_after_login : fixed_bounds 2 4
| bounds_after_navigation : fixed_bounds 2 3
| bounds_after_click : fixed_bounds 1 2
| bounds_after_fill : fixed_bounds 0.8 1.5.

(** The bounds taken from the request: before a profile, and after one. *)
Definition gate_bounds (lo hi : Q) : Prop :=
  lo = inject_Z (delay_min cfg) /\ hi = inject_Z (delay_max cfg).

Definition trailing_bounds (lo hi : Q) : Prop :=
  lo = inject_Z (delay_min cfg + 2) /\ hi = inject_Z (delay_max cfg + 3).

(** Events of the login phase and of the release of the browser. *)
Definition login_event (ev : event H) : Prop :=
  match ev with
  | EvLaunch | EvNewContext | EvNewPage | EvWaitLoad | EvClose => True
  | EvGoto u => u = login_url
  | EvPageFill _ _ | EvPageClick _ => True
  | EvSleep lo hi d => fixed_bounds lo hi /\ drawn lo hi d
  | _ => False
  end.

(** Events of a search, of the extraction of its entries, and of the
    release of the browser. *)
Definition search_event (ev : event H) : Prop :=
  match ev with
  | EvGoto _ | EvWaitLoad | EvQueryAll _ | EvClose => True
  | EvHandleQuery _ _ | EvInnerText _ | EvGetAttribute _ _ => True
  | EvSleep lo hi d => fixed_bounds lo hi /\ drawn lo hi d
  | _ => False
  end.

(** Events of the guarded body of the profile [p], the counter being [n0]
    at entry: its sleeps have constant bounds. *)
Definition attempt_event (p : Profile) (n0 : Z) (ev : event H) : Prop :=
  match ev with
  | EvGoto u => u = url p
  | EvWaitLoad | EvQuery _ => True
  | EvSleep lo hi d => fixed_bounds lo hi /\ drawn lo hi d
  | EvHandleClick _ | EvHandleFill _ _ | EvHandlePress _ _ =>
      dry_run cfg = false
  | EvCount n => n = (n0 + 1)%Z
  | _ => False
  end.

(** Events of the processing of the profile [p] once it has entered, the
    counter being [n0] at entry. *)
Definition profile_event (p : Profile) (n0 : Z) (ev : event H) : Prop :=
  match ev with
  | EvGoto u => u = url p
  | EvWaitLoad | EvQuery _ => True
  | EvSleep lo hi d =>
      (fixed_bounds lo hi \/ gate_bounds lo hi \/ trailing_bounds lo hi)
      /\ drawn lo hi d
  | EvHandleClick _ | EvHandleFill _ _ | EvHandlePress _ _ =>
      dry_run cfg = false
  | EvCount n => n = (n0 + 1)%Z
  | _ => False
  end.

End EventClasses.

Section RunProperties.

Context {W H : Type} {drv : Driver W H}.
Variable rnd : nat -> Q.
Variable cfg : RunRequest.



(** Every sleep has bounds of one of the three kinds, and lasts what
    [random.uniform] gave for them. *)
Definition sleep_fine (ev : event H) : Prop :=
  match ev with
  | EvSleep lo hi d =>
      (fixed_bounds lo hi \/ gate_bounds cfg lo hi \/ trailing_bounds cfg lo hi)
      /\ drawn rnd lo hi d
  | _ => True
  end.

(** No click, fill or key press on an element of a page. *)
Definition no_interaction (ev : event H) : Prop :=
  match ev with
  | EvHandleClick _ | EvHandleFill _ _ | EvHandlePress _ _ => False
  | _ => True
  end.

(** The two modes: a dry run sends nothing and touches no element; a real
    run records nothing in [would_send]. *)
Definition mode_inv (s : state W H) : Prop :=
  (dry_run cfg = true ->
   sent (results s) = [] /\ Forall no_interaction (trace s)) /\
  (dry_run cfg = false -> would_send (results s) = []).

(** The state a run starts its login from, and the state after the browser
    was released. *)
Definition reset (s : state W H) : state W H :=
  Build_state (world s) (draws s) (trace s) empty_results.

Definition closed (s : state W H) : state W H :=
  Build_state (fst (browser_close (world s))) (draws s)
    (trace s ++ [EvClose]) (results s).

(** The events of a login that went through, for the draw [u]. *)
Definition login_trace (u : Q) : list (event H) :=
  [ EvLaunch; EvNewContext; EvNewPage; EvGoto login_url;
    EvPageFill "#username" (email cfg); EvPageFill "#password" (password cfg);
    EvPageClick submit_selector; EvWaitLoad; EvSleep 2 4 (uniform 2 4 u) ].

(** What the browser answers when an entry of a listing is read without a
    fault: the three elements looked up, the texts and the address. *)
Record entry_view : Type := {
  v_name_el : option H;
  v_title_el : option H;
  v_link_el : option H;
  v_raw_name : string;
  v_raw_title : string;
  v_href : option string
}.

(** Reading the entry [h] in the world [w] raises nothing and answers [v]. *)
Definition reads (h : H) (w : W) (v : entry_view) : Prop :=
  exists w1 w2 w3,
    handle_query_selector h name_selector w = (w1, inr (v_name_el v)) /\
    handle_query_selector h title_selector w1 = (w2, inr (v_title_el v)) /\
    handle_query_selector h name_selector w2 = (w3, inr (v_link_el v)) /\
    match v_name_el v, v_link_el v with
    | Some name_el, Some link_el =>
        exists w4 w5 w6,
          handle_inner_text name_el w3 = (w4, inr (v_raw_name v)) /\
          match v_title_el v with
          | Some title_el =>
              handle_inner_text title_el w4 = (w5, inr (v_raw_title v))
          | None => w5 = w4
          end /\
          handle_get_attribute link_el "href" w5 = (w6, inr (v_href v))
    | _, _ => True
    end.

(** The profile of an entry read as [v], whose address is [href]. *)
Definition view_profile (v : entry_view) (href : string) : Profile :=
  {| name := PyStr.strip (before "010"%char (PyStr.strip (v_raw_name v)));
     title := match v_title_el v with
              | Some _ => PyStr.strip (v_raw_title v)
              | None => EmptyString
              end;
     url := before "?"%char href |}.

End RunProperties.

(** A selector of [sels], tried in order from the world [w], finds the
    element [b] and leaves the world [w']; the selectors before it found
    nothing. *)
Fixpoint finds {W H : Type} {drv : Driver W H} (sels : list string) (w : W)
  (b : H) (w' : W) : Prop :=
  match sels with
  | [] => False
  | sel :: rest =>
      page_query_selector sel w = (w', inr (Some b)) \/
      exists w1, page_query_selector sel w = (w1, inr None) /\
                 finds rest w1 b w'
  end.

(** The sleeps of a trace whose bounds are [lo] and [hi]. *)
Fixpoint sleeps_between {H : Type} (lo hi : Q) (t : list (event H)) : list Q :=
  match t with
  | [] => []
  | EvSleep a b d :: rest =>
      if Qeq_bool a lo && Qeq_bool b hi
      then d :: sleeps_between lo hi rest
      else sleeps_between lo hi rest
  | _ :: rest => sleeps_between lo hi rest
  end.

(* ================================================================== *)
(** * Further notions: clean profiles, selectors in order, interactions *)

(** [s] does not begin with a whitespace character. *)
Definition head_clean (s : string) : bool :=
  match s with
  | EmptyString => true
  | String c _ => negb (PyStr.is_space c)
  end.

(** [s] does not end with a whitespace character. *)
Fixpoint last_clean (s : string) : bool :=
  match s with
  | EmptyString => true
  | String c EmptyString => negb (PyStr.is_space c)
  | String _ s' => last_clean s'
  end.

Definition trimmed (s : string) : bool := head_clean s && last_clean s.

Definition is_not (c : ascii) (x : ascii) : bool := negb (Ascii.eqb x c).

(** A profile as the extraction leaves it: no question mark in the
    address, a name on one line, and no whitespace around the name and the
    title. *)
Definition clean_profile (p : Profile) : Prop :=
  all_chars (is_not "?"%char) (url p) = true /\
  all_chars (is_not "010"%char) (name p) = true /\
  trimmed (name p) = true /\
  trimmed (title p) = true.

(** The number of space characters of [s]. *)
Fixpoint spaces (s : string) : nat :=
  match s with
  | EmptyString => 0
  | String c s' => (if Ascii.eqb c " "%char then 1 else 0) + spaces s'
  end.

(** Every selector of [sels], tried in order from the world [w], finds
    nothing; the world is then [w']. *)
Fixpoint misses {W H : Type} {drv : Driver W H} (sels : list string)
  (w w' : W) : Prop :=
  match sels with
  | [] => w' = w
  | sel :: rest =>
      exists w1, page_query_selector sel w = (w1, inr None) /\
                 misses rest w1 w'
  end.

(** The clicks, fills and key presses on elements, in order. *)
Fixpoint interactions {H : Type} (t : list (event H)) : list (event H) :=
  match t with
  | [] => []
  | EvHandleClick h :: rest => EvHandleClick h :: interactions rest
  | EvHandleFill h text :: rest => EvHandleFill h text :: interactions rest
  | EvHandlePress h key :: rest => EvHandlePress h key :: interactions rest
  | _ :: rest => interactions rest
  end.


(** More scripted browsers and requests, for concrete runs. *)
Module Scripted.

(** Profile pages whose message button is found by the second selector
    only (the English label). *)
Definition english_query (sel : string) (w : Fake.world)
  : Fake.world * (exn + option Fake.handle) :=
  if String.eqb sel (nth 1 btn_selectors EmptyString)
  then (w, inr (Some Fake.HButton))
  else (w, inr None).

Definition english_driver (st : Fake.site) : Driver Fake.world Fake.handle :=
  {| chromium_launch := fun w => Fake.ok w tt;
     browser_new_context := fun w => Fake.ok w tt;
     context_new_page := fun w => Fake.ok w tt;
     page_goto := Fake.goto st;
     page_fill := fun _ _ w => Fake.ok w tt;
     page_click := Fake.click st;
     page_wait_for_load_state := fun w => Fake.ok w tt;
     page_url := fun w => w;
     page_query_selector := english_query;
     page_query_selector_all := Fake.query_all st;
     handle_query_selector := Fake.sub_query st;
     handle_inner_text := Fake.inner_text st;
     handle_get_attribute := Fake.get_attribute st;
     handle_click := fun _ w => Fake.ok w tt;
     handle_fill := fun _ _ w => Fake.ok w tt;
     handle_press := fun _ _ w => Fake.ok w tt;
     browser_close := fun w => Fake.ok w tt |}.

(** The first search of the default request does not load. *)
Definition site_search_down : Fake.site :=
  {| Fake.landing := Fake.feed; Fake.listing := [Fake.maria];
     Fake.buttons := [url Fake.maria_profile];
     Fake.textbox := true; Fake.send_button := true;
     Fake.broken := [search_url "product manager senior"] |}.

(** A request whose bounds are given in the wrong order. *)
Definition swapped_request : RunRequest :=
  {| email := "me@example.org"; password := "secret";
     keywords := ["product manager senior"];
     max_messages := 10; delay_min := 7; delay_max := 3;
     dry_run := true; message_template := default_message_template |}.

End Scripted.

(* ================================================================== *)
(** * Further notions: the place of a sleep, the actions on the page,
      runs that a delay ends *)

(** The bounds a sleep is asked with, by the two events before it
    ([before1] is the last one).  Right after a profile entered, they are
    those of the request; after the load that follows the click on the
    login form, 2 and 4; after the load that follows a navigation, 2 and 3;
    after a click or a key press on an element, 1 and 2; after the fill of
    an element, 0.8 and 1.5.  The trailing bounds of the request come after
    the last event of the guarded body of a profile: the count of a send,
    or the operation at which, or after which, the body failed.  No sleep
    comes anywhere else. *)
Definition site_bounds {H : Type} (cfg : RunRequest)
  (before2 before1 : option (event H)) (lo hi : Q) : Prop :=
  match before1 with
  | Some (EvEnter _) => gate_bounds cfg lo hi
  | Some EvWaitLoad =>
      match before2 with
      | Some (EvPageClick _) => lo = 2%Q /\ hi = 4%Q
      | Some (EvGoto _) => (lo = 2%Q /\ hi = 3%Q) \/ trailing_bounds cfg lo hi
      | _ => False
      end
  | Some (EvHandleClick _) | Some (EvHandlePress _ _) =>
      (lo = 1%Q /\ hi = 2%Q) \/ trailing_bounds cfg lo hi
  | Some (EvHandleFill _ _) =>
      (lo = 0.8%Q /\ hi = 1.5%Q) \/ trailing_bounds cfg lo hi
  | Some (EvGoto _) | Some (EvQuery _) | Some (EvCount _) =>
      trailing_bounds cfg lo hi
  | _ => False
  end.

(** Every sleep of [t] has the bounds of its place, [before2] and
    [before1] being the two events before [t]. *)
Fixpoint paced {H : Type} (cfg : RunRequest)
  (before2 before1 : option (event H)) (t : list (event H)) : Prop :=
  match t with
  | [] => True
  | ev :: rest =>
      match ev with
      | EvSleep lo hi _ => site_bounds cfg before2 before1 lo hi
      | _ => True
      end /\ paced cfg before1 (Some ev) rest
  end.

(** The two events before what follows [t], [b] being the two before
    [t]. *)
Definition context_after {H : Type}
  (b : option (event H) * option (event H)) (t : list (event H))
  : option (event H) * option (event H) :=
  fold_left (fun c ev => (snd c, Some ev)) t b.

(** The sleeps of [t] have the bounds of their places whatever came
    before [t]. *)
Definition self_paced {H : Type} (cfg : RunRequest) (t : list (event H))
  : Prop :=
  forall before2 before1, paced cfg before2 before1 t.

(** [s'] continues [s] with such events. *)
Definition keeps_pace {W H : Type} (cfg : RunRequest) (s s' : state W H)
  : Prop :=
  exists evs, trace s' = trace s ++ evs /\ self_paced cfg evs.

Definition no_sleep {H : Type} (ev : event H) : Prop :=
  match ev with
  | EvSleep _ _ _ => False
  | _ => True
  end.

(** The fills and clicks made on the page itself, in order. *)
Fixpoint page_actions {H : Type} (t : list (event H)) : list (event H) :=
  match t with
  | [] => []
  | EvPageFill sel text :: rest => EvPageFill sel text :: page_actions rest
  | EvPageClick sel :: rest => EvPageClick sel :: page_actions rest
  | _ :: rest => page_actions rest
  end.

Definition no_page_action {H : Type} (ev : event H) : Prop :=
  match ev with
  | EvPageFill _ _ | EvPageClick _ => False
  | _ => True
  end.

(** The login form of lines 102-104: the two fields are filled, the form
    is submitted. *)
Definition login_form {H : Type} (cfg : RunRequest) : list (event H) :=
  [ EvPageFill "#username" (email cfg); EvPageFill "#password" (password cfg);
    EvPageClick submit_selector ].

(** How a run keeps a property [Inv] of its state: it holds, or the
    delay of line 153 raised on bounds that do not convert and left the
    state in [Short]. *)
Definition kept {W H A : Type} (cfg : RunRequest)
  (Inv Short : state W H -> Prop) (s : state W H) (r : exn + A) : Prop :=
  Inv s \/
  (r = inl OverflowError /\ gate_delay_converts cfg = false /\ Short s).

(** Requests whose delay bounds are beyond the range of floats, a listing
    that shows one address twice, and the run of any request on a scripted
    browser. *)
Module Edge.

(** Two results lead to the page of Maria, and the second shows no name;
    everybody is a connection. *)
Definition site_same_address : Fake.site :=
  {| Fake.landing := Fake.feed;
     Fake.listing :=
       [ Fake.maria;
         Fake.person EmptyString "Dev"
           "https://www.linkedin.com/in/maria?trk=people" ];
     Fake.buttons := [url Fake.maria_profile];
     Fake.textbox := true; Fake.send_button := true; Fake.broken := [] |}.

(** Both bounds are beyond the range: the delay of line 153 raises. *)
Definition huge_request : RunRequest :=
  {| email := "me@example.org"; password := "secret";
     keywords := ["product manager senior"];
     max_messages := 10; delay_min := 2 ^ 1024; delay_max := 2 ^ 1024 + 4;
     dry_run := false; message_template := default_message_template |}.

(** The bounds of line 153 convert, and the difference of the bounds of
    line 218 does not: the delay of line 218 raises. *)
Definition wide_request : RunRequest :=
  {| email := "me@example.org"; password := "secret";
     keywords := ["product manager senior"];
     max_messages := 10; delay_min := 0; delay_max := float_limit - 1;
     dry_run := false; message_template := default_message_template |}.

Definition checked_run (st : Fake.site) (draw : nat -> Q) (cfg : RunRequest)
  : state Fake.world Fake.handle * (exn + RunResponse) :=
  checked_run_automation (drv := Fake.driver st) draw cfg
    (initial_state "about:blank").

End Edge.

(* ================================================================== *)
(** * Facts on the string operations *)

Module PyStrFacts.
Import PyStr.
Local Open Scope string_scope.

Lemma append_empty_r (s : string) : s ++ EmptyString = s.
Proof. induction s as [|c s IH]; simpl; [reflexivity | now rewrite IH]. Qed.

Lemma append_assoc (a b c : string) : (a ++ b) ++ c = a ++ (b ++ c).
Proof. induction a as [|x a IH]; simpl; [reflexivity | now rewrite IH]. Qed.

Lemma prefix_refl_app (p s : string) : prefix p (p ++ s) = true.
Proof.
  induction p as [|c p IH]; simpl.
  - destruct s; reflexivity.
  - destruct (ascii_dec c c) as [_|n]; [exact IH | now elim n].
Qed.

Lemma prefix_head_neq (c d : ascii) (p s : string) :
  c <> d -> prefix (String c p) (String d s) = false.
Proof. intros n. simpl. destruct (ascii_dec c d); [contradiction | reflexivity]. Qed.

(** Dropping the rest of an occurrence. *)
Lemma replace_from_skip (old new t s : string) :
  replace_from old new (String.length t) (t ++ s) = replace_from old new 0 s.
Proof.
  induction t as [|c t IH]; simpl.
  - destruct s; reflexivity.
  - exact IH.
Qed.

(** An occurrence at the head is replaced, and the scan resumes after it. *)
Lemma replace_from_occurrence (c : ascii) (old new s : string) :
  replace_from (String c old) new 0 (String c old ++ s)
  = new ++ replace_from (String c old) new 0 s.
Proof.
  change (String c old ++ s) with (String c (old ++ s)).
  cbn [replace_from].
  change (String c (old ++ s)) with (String c old ++ s).
  rewrite prefix_refl_app.
  replace (String.length (String c old) - 1) with (String.length old)
    by (cbn [String.length]; lia).
  now rewrite replace_from_skip.
Qed.

(** Text without the first character of [old] is copied. *)
Lemma replace_from_copy (c : ascii) (old new t s : string) :
  all_chars (fun x => negb (Ascii.eqb x c)) t = true ->
  replace_from (String c old) new 0 (t ++ s)
  = t ++ replace_from (String c old) new 0 s.
Proof.
  induction t as [|x t IH]; intros Ht.
  - reflexivity.
  - simpl in Ht. apply andb_true_iff in Ht as [Hx Ht].
    apply negb_true_iff in Hx. apply Ascii.eqb_neq in Hx.
    change (String x t ++ s) with (String x (t ++ s)).
    cbn [replace_from].
    rewrite prefix_head_neq by (intro E; apply Hx; now symmetry).
    now rewrite IH.
Qed.

Lemma split_char_nonempty (sep : ascii) (s : string) : split_char sep s <> [].
Proof.
  induction s as [|c s IH]; simpl; [discriminate|].
  destruct (Ascii.eqb c sep); [discriminate|].
  destruct (split_char sep s); discriminate.
Qed.

(** [s.split(sep)[0]] never raises: it is the text before the first [sep]. *)
Lemma split_char_first (sep : ascii) (s : string) :
  index0 (split_char sep s) = inr (before sep s).
Proof.
  induction s as [|c s IH]; simpl; [reflexivity|].
  destruct (Ascii.eqb c sep); [reflexivity|].
  destruct (split_char sep s) as [|w ws] eqn:E; simpl in *.
  - discriminate.
  - now inversion IH.
Qed.

Lemma before_no_sep (sep : ascii) (s : string) :
  all_chars (fun x => negb (Ascii.eqb x sep)) (before sep s) = true.
Proof.
  induction s as [|c s IH]; simpl; [reflexivity|].
  destruct (Ascii.eqb c sep) eqn:E; simpl; [reflexivity|].
  now rewrite E, IH.
Qed.

Lemma before_prefix (sep : ascii) (s : string) :
  exists rest, s = before sep s ++ rest /\
               (rest = EmptyString \/ exists r, rest = String sep r).
Proof.
  induction s as [|c s (rest & E & Hr)]; simpl.
  - exists EmptyString; auto.
  - destruct (Ascii.eqb c sep) eqn:Ec.
    + apply Ascii.eqb_eq in Ec; subst c.
      exists (String sep s); split; [reflexivity | right; eauto].
    + exists rest; split; [simpl; now rewrite <- E | exact Hr].
Qed.

(** ** The first token *)

Lemma take_word_split (s : string) :
  exists post, s = take_word s ++ post /\ ends_word post = true /\
               all_chars is_word_char (take_word s) = true.
Proof.
  induction s as [|c s (post & E & Hp & Hw)]; simpl.
  - exists EmptyString; auto.
  - destruct (is_space c) eqn:Ec.
    + exists (String c s); simpl; auto.
    + exists post; simpl. unfold is_word_char at 1. rewrite Ec; simpl.
      repeat split; [now rewrite <- E | exact Hp | exact Hw].
Qed.

Lemma take_word_word (tok post : string) :
  all_chars is_word_char tok = true -> ends_word post = true ->
  take_word (tok ++ post) = tok.
Proof.
  induction tok as [|c tok IH]; simpl; intros Ht Hp.
  - destruct post as [|d post]; simpl in *; [reflexivity | now rewrite Hp].
  - apply andb_true_iff in Ht as [Hc Ht].
    unfold is_word_char in Hc. apply negb_true_iff in Hc. rewrite Hc.
    now rewrite IH.
Qed.

(** [name.split()[0]] is the first token of [name], when there is one. *)
Lemma first_token_split (s tok : string) :
  index0 (split_ws s) = inr tok <-> first_token_of s tok.
Proof.
  unfold split_ws. split.
  - induction s as [|c s IH]; simpl; [discriminate|].
    destruct (is_space c) eqn:Ec.
    + intros Hs. destruct (IH Hs) as (pre & post & E & Hpre & Hne & Hw & Hp).
      exists (String c pre), post. simpl. rewrite Ec, <- E. auto.
    + simpl. intros Hs. inversion Hs; subst tok; clear Hs.
      destruct (take_word_split s) as (post & E & Hp & Hw).
      exists EmptyString, post. simpl.
      unfold is_word_char at 1. rewrite Ec; simpl.
      repeat split; [now rewrite <- E | discriminate | exact Hw | exact Hp].
  - intros (pre & post & E & Hpre & Hne & Hw & Hp). subst s.
    induction pre as [|c pre IH]; simpl in *.
    + destruct tok as [|c tok]; [contradiction|]. simpl in *.
      apply andb_true_iff in Hw as [Hc Hw].
      unfold is_word_char in Hc. apply negb_true_iff in Hc. rewrite Hc.
      simpl. now rewrite take_word_word.
    + apply andb_true_iff in Hpre as [Hc Hpre]. rewrite Hc. auto.
Qed.

(** A name without a token: [name.split()] is empty. *)
Lemma split_ws_blank (s : string) :
  all_chars is_space s = true -> split_ws s = [].
Proof.
  unfold split_ws. induction s as [|c s IH]; simpl; [reflexivity|].
  intros Hs. apply andb_true_iff in Hs as [Hc Hs]. rewrite Hc. auto.
Qed.

End PyStrFacts.

(* ================================================================== *)
(** * Message composition *)

Module BuildMessage.
Import PyStr PyStrFacts Template.
Local Open Scope string_scope.

Lemma truthy_cargo (title : string) :
  (if truthy title then title else "profissional") = cargo_text title.
Proof. destruct title; reflexivity. Qed.

Lemma cargo_text_nonempty (title : string) : cargo_text title <> EmptyString.
Proof. destruct title; discriminate. Qed.

Lemma cargo_text_title (title : string) :
  title <> EmptyString -> cargo_text title = title.
Proof. destruct title; [intros n; now elim n | reflexivity]. Qed.

(** A name with a first token: both replacements are made, in this order. *)
Lemma build_message_token (template name title first : string) :
  first_token_of name first ->
  _build_message template name title
  = inr (replace "{cargo}" (cargo_text title)
           (replace "{nome}" first template)).
Proof.
  intros Hf. apply first_token_split in Hf.
  unfold _build_message. rewrite Hf. now rewrite truthy_cargo.
Qed.

(** A name without a token: [name.split()[0]] raises. *)
Lemma build_message_blank (template name title : string) :
  all_chars is_space name = true ->
  _build_message template name title = inl IndexError.
Proof.
  intros Hb. unfold _build_message. now rewrite (split_ws_blank name Hb).
Qed.

(** Replacing [{nome}] in a template made of brace-free text and
    placeholders touches the [Nome] placeholders only. *)
Lemma replace_nome_render (first : string) (segs : list segment) :
  forallb plain segs = true ->
  replace "{nome}" first (render segs) = fill first "{cargo}" segs.
Proof.
  unfold replace. induction segs as [|seg segs IH]; intros Hp.
  - reflexivity.
  - simpl in Hp. apply andb_true_iff in Hp as [Hseg Hp].
    destruct seg as [text| |]; cbn [render fill].
    + rewrite replace_from_copy by exact Hseg. now rewrite IH.
    + rewrite replace_from_occurrence. now rewrite IH.
    + rewrite <- IH by exact Hp. reflexivity.
Qed.

(** Replacing [{cargo}] afterwards touches the [Cargo] placeholders only,
    when the first name holds no opening brace. *)
Lemma replace_cargo_fill (first cargo : string) (segs : list segment) :
  forallb plain segs = true -> no_brace first = true ->
  replace "{cargo}" cargo (fill first "{cargo}" segs) = fill first cargo segs.
Proof.
  unfold replace. intros Hp Hf. induction segs as [|seg segs IH].
  - reflexivity.
  - simpl in Hp. apply andb_true_iff in Hp as [Hseg Hp].
    destruct seg as [text| |]; cbn [fill].
    + rewrite replace_from_copy by exact Hseg. now rewrite IH.
    + rewrite replace_from_copy by exact Hf. now rewrite IH.
    + rewrite replace_from_occurrence. now rewrite IH.
Qed.

Lemma maria_first_token : first_token_of "Maria Clara Souza" "Maria".
Proof. apply first_token_split. reflexivity. Qed.

End BuildMessage.

(* ================================================================== *)
(** * Reasoning on computations *)

Section Reasoning.

Context {W H : Type} {drv : Driver W H}.
Variable rnd : nat -> Q.

Lemma wp_run {A : Type} (c : M W H A) (Q : state W H -> exn + A -> Prop)
  (s s' : state W H) (r : exn + A) :
  wp c Q s -> c s = (s', r) -> Q s' r.
Proof. unfold wp. intros HQ E. now rewrite E in HQ. Qed.

Lemma wp_weaken {A : Type} (c : M W H A)
  (Q Q' : state W H -> exn + A -> Prop) (s : state W H) :
  wp c Q s -> (forall s' r, Q s' r -> Q' s' r) -> wp c Q' s.
Proof. unfold wp. auto. Qed.

Lemma wp_ret {A : Type} (a : A) (Q : state W H -> exn + A -> Prop) s :
  Q s (inr a) -> wp (ret a) Q s.
Proof. exact (fun q => q). Qed.

Lemma wp_raise {A : Type} (e : exn) (Q : state W H -> exn + A -> Prop) s :
  Q s (inl e) -> wp (raise e) Q s.
Proof. exact (fun q => q). Qed.

Lemma wp_lift {A : Type} (r : exn + A) (Q : state W H -> exn + A -> Prop) s :
  Q s r -> wp (lift r) Q s.
Proof. exact (fun q => q). Qed.

Lemma wp_bind {A B : Type} (c : M W H A) (f : A -> M W H B)
  (Q : state W H -> exn + B -> Prop) s :
  wp c (fun s' r => match r with
                    | inl e => Q s' (inl e)
                    | inr a => wp (f a) Q s'
                    end) s ->
  wp (bind c f) Q s.
Proof.
  unfold wp, bind. destruct (c s) as [s' [e|a]]; simpl; auto.
Qed.

Lemma wp_try {A : Type} (c : M W H A) (handler : exn -> M W H A)
  (Q : state W H -> exn + A -> Prop) s :
  wp c (fun s' r => match r with
                    | inl e => wp (handler e) Q s'
                    | inr a => Q s' (inr a)
                    end) s ->
  wp (try_except c handler) Q s.
Proof.
  unfold wp, try_except. destruct (c s) as [s' [e|a]]; simpl; auto.
Qed.

(** Whatever the browser answers. *)
Lemma wp_call {A : Type} (ev : event H) (op : W -> W * (exn + A))
  (Q : state W H -> exn + A -> Prop) s :
  (forall w' r,
      Q (Build_state w' (draws s) (trace s ++ [ev]) (results s)) r) ->
  wp (call ev op) Q s.
Proof. intros HQ. apply HQ. Qed.

Lemma wp_observe (ev : event H) (Q : state W H -> exn + unit -> Prop) s :
  Q (Build_state (world s) (draws s) (trace s ++ [ev]) (results s)) (inr tt) ->
  wp (observe ev) Q s.
Proof. exact (fun q => q). Qed.

Lemma wp_get_url (Q : state W H -> exn + string -> Prop) s :
  Q s (inr (page_url (world s))) -> wp get_url Q s.
Proof. exact (fun q => q). Qed.

Lemma wp_get_results (Q : state W H -> exn + Results -> Prop) s :
  Q s (inr (results s)) -> wp get_results Q s.
Proof. exact (fun q => q). Qed.

Lemma wp_modify (f : Results -> Results)
  (Q : state W H -> exn + unit -> Prop) s :
  Q (Build_state (world s) (draws s) (trace s) (f (results s))) (inr tt) ->
  wp (modify_results f) Q s.
Proof. exact (fun q => q). Qed.

Lemma wp_incr (Q : state W H -> exn + unit -> Prop) s :
  Q (Build_state (world s) (draws s)
       (trace s ++ [EvCount (totalSent (results s) + 1)])
       (incr_total (results s))) (inr tt) ->
  wp incr_totalSent Q s.
Proof. exact (fun q => q). Qed.

Lemma wp_delay (lo hi : Q) (Q : state W H -> exn + unit -> Prop) s :
  Q (Build_state (world s) (S (draws s))
       (trace s ++ [EvSleep lo hi (uniform lo hi (rnd (draws s)))])
       (results s)) (inr tt) ->
  wp (_random_delay rnd lo hi) Q s.
Proof. exact (fun q => q). Qed.

End Reasoning.

(** One step of a walk through a computation. *)
Ltac wp_step :=
  lazymatch goal with
  | |- wp (bind _ _) _ _ => apply wp_bind
  | |- wp (ret _) _ _ => apply wp_ret
  | |- wp (raise _) _ _ => apply wp_raise
  | |- wp (lift ?r) _ _ => apply wp_lift; destruct r eqn:?
  | |- wp (try_except _ _) _ _ => apply wp_try
  | |- wp (call _ _) _ _ => apply wp_call; intros ? [?|?]
  | |- wp (observe _) _ _ => apply wp_observe
  | |- wp get_url _ _ => apply wp_get_url
  | |- wp get_results _ _ => apply wp_get_results
  | |- wp (modify_results _) _ _ => apply wp_modify
  | |- wp incr_totalSent _ _ => apply wp_incr
  | |- wp (_random_delay _ _ _) _ _ => apply wp_delay
  | |- wp (match ?x with Some _ => _ | None => _ end) _ _ => destruct x
  | |- wp (match ?x with Continue => _ | FallThrough => _ end) _ _ =>
      destruct x
  | |- wp (if ?b then _ else _) _ _ => destruct b eqn:?
  end; cbn [world draws trace results].

Ltac wp_walk := repeat wp_step.

(* ================================================================== *)
(** * One profile *)

Section OneProfile.

Context {W H : Type} {drv : Driver W H}.
Variable rnd : nat -> Q.
Variable cfg : RunRequest.

(** The guarded body: an exception leaves [results] as they were, a
    [continue] follows one record in [would_send] or [skipped], and the end
    of the body is reached after one record in [sent]. *)
Lemma attempt_results (p : Profile) (s : state W H) :
  wp (attempt rnd cfg p)
    (fun s' r =>
       match r with
       | inl _ => results s' = results s
       | inr Continue =>
           (exists m,
               dry_run cfg = true /\
               _build_message (message_template cfg) (name p) (title p)
               = inr m /\
               results s' =
               incr_total (add_would_send
                             {| ws_profile := p; message_preview := m |}
                             (results s)))
           \/ (exists why,
                  (why = reason_no_button \/ why = reason_no_textbox) /\
                  results s' =
                  add_skipped {| sk_profile := p; reason := why |} (results s))
       | inr FallThrough =>
           dry_run cfg = false /\
           results s' = incr_total (add_sent p (results s))
       end) s.
Proof.
  unfold attempt, btn_selectors. cbn [find_msg_btn].
  wp_walk; cbn [results]; eauto 7.
Qed.

Lemma process_profile_unfold (p : Profile) (s : state W H) :
  process_profile rnd cfg p s =
  match attempt rnd cfg p (gated rnd cfg p s) with
  | (s1, inl e) =>
      _random_delay rnd (inject_Z (delay_min cfg + 2))
        (inject_Z (delay_max cfg + 3)) (record_error p e s1)
  | (s1, inr Continue) => (s1, inr tt)
  | (s1, inr FallThrough) =>
      _random_delay rnd (inject_Z (delay_min cfg + 2))
        (inject_Z (delay_max cfg + 3)) s1
  end.
Proof.
  unfold process_profile, gated, bind, try_except, observe, _random_delay,
    modify_results, ret.
  cbn [fst snd].
  destruct (attempt rnd cfg p _) as [s1 [e|[|]]]; reflexivity.
Qed.

(** One profile never raises, and adds exactly one record. *)
Lemma process_profile_outcome (p : Profile) (s : state W H) :
  snd (process_profile rnd cfg p s) = inr tt /\
  outcome cfg p (results s) (results (fst (process_profile rnd cfg p s))).
Proof.
  rewrite process_profile_unfold.
  pose proof (attempt_results p (gated rnd cfg p s)) as Ha. unfold wp in Ha.
  destruct (attempt rnd cfg p (gated rnd cfg p s)) as [s1 [e|[|]]];
    cbn [fst snd] in *; change (results (gated rnd cfg p s)) with (results s) in Ha.
  - split; [reflexivity|]. cbn [_random_delay record_error fst results].
    rewrite Ha. now apply OutErrored with e.
  - split; [reflexivity|].
    destruct Ha as [(m & Hd & Hm & E)|(why & Hw & E)].
    + now apply OutWouldSend with m.
    + now apply OutSkipped with why.
  - destruct Ha as [Hd E]. split; [reflexivity|].
    cbn [_random_delay fst results]. now apply OutSent.
Qed.

(** [for profile in profiles] never raises. *)
Lemma for_profiles_returns (ps : list Profile) (s : state W H) :
  snd (for_profiles rnd cfg ps s) = inr tt.
Proof.
  revert s. induction ps as [|p ps IH]; intros s; [reflexivity|].
  cbn [for_profiles]. unfold bind at 1, get_results.
  destruct (totalSent (results s) >=? max_messages cfg)%Z; [reflexivity|].
  unfold bind.
  destruct (process_profile_outcome p s) as [Hr _].
  destruct (process_profile rnd cfg p s) as [s1 r]. cbn [snd] in Hr. subst r.
  apply IH.
Qed.

End OneProfile.

(* ================================================================== *)
(** * The events of each phase *)

Section Traces.

Context {W H : Type} {drv : Driver W H}.
Variable rnd : nat -> Q.
Variable cfg : RunRequest.

Lemma extends_refl (ok : event H -> Prop) (s : state W H) : extends ok s s.
Proof. exists []. split; [now rewrite app_nil_r | constructor]. Qed.

Lemma extends_trans (ok : event H -> Prop) (s1 s2 s3 : state W H) :
  extends ok s1 s2 -> extends ok s2 s3 -> extends ok s1 s3.
Proof.
  intros (e1 & E1 & F1) (e2 & E2 & F2). exists (e1 ++ e2). split.
  - now rewrite E2, E1, app_assoc.
  - apply Forall_app; auto.
Qed.

Lemma extends_weaken (ok ok' : event H -> Prop) (s s' : state W H) :
  (forall ev, ok ev -> ok' ev) -> extends ok s s' -> extends ok' s s'.
Proof.
  intros Hi (evs & E & F). exists evs. split; [exact E|].
  eapply Forall_impl; eauto.
Qed.

Lemma drawn_now (lo hi : Q) (k : nat) : drawn rnd lo hi (uniform lo hi (rnd k)).
Proof. now exists k. Qed.

End Traces.

Create HintDb run.
#[local] Hint Resolve drawn_now : run.
#[local] Hint Constructors fixed_bounds : run.

(** The leaf of a walk: the trace of the state reached is the initial one
    followed by the events met. *)
Ltac ext_leaf :=
  unfold extends; cbn [trace results]; rewrite <- ?app_assoc;
  eexists; split;
  [ first [ reflexivity | symmetry; apply app_nil_r ]
  | cbn [app];
    repeat (first [ apply Forall_nil | apply Forall_cons ]);
    cbn; auto with run ].

Section Phases.

Context {W H : Type} {drv : Driver W H}.
Variable rnd : nat -> Q.
Variable cfg : RunRequest.

Lemma login_events (s : state W H) :
  wp (login rnd cfg)
    (fun s' _ => results s' = results s /\ extends (login_event rnd) s s') s.
Proof.
  unfold login. wp_walk; (split; [reflexivity | ext_leaf]).
Qed.

(** An entry never raises, records nothing, and only reads the page. *)
Lemma extract_entry_events (h : H) (s : state W H) :
  wp (extract_entry h)
    (fun s' r => results s' = results s /\ extends (search_event rnd) s s'
                 /\ exists o, r = inr o) s.
Proof.
  unfold extract_entry.
  wp_walk; (split; [reflexivity | split; [ext_leaf | eauto]]).
Qed.

Lemma extract_profiles_events (hs : list H) (acc : list Profile)
  (s : state W H) :
  wp (extract_profiles hs acc)
    (fun s' r => results s' = results s /\ extends (search_event rnd) s s'
                 /\ exists ps, r = inr ps) s.
Proof.
  revert acc s. induction hs as [|h hs IH]; intros acc s; cbn [extract_profiles].
  - wp_step. split; [reflexivity | split; [apply extends_refl | eauto]].
  - wp_step. eapply wp_weaken; [apply extract_entry_events|].
    intros s1 r (Hr & He & o & ->).
    eapply wp_weaken; [apply IH|].
    intros s2 r2 (Hr2 & He2 & Hps). cbn beta in *.
    split; [congruence | split; [eapply extends_trans; eauto | exact Hps]].
Qed.

(** The guarded body of a profile. *)
Lemma attempt_events (p : Profile) (s : state W H) :
  wp (attempt rnd cfg p)
    (fun s' _ =>
       extends (attempt_event rnd cfg p (totalSent (results s))) s s') s.
Proof.
  unfold attempt, btn_selectors. cbn [find_msg_btn].
  wp_walk; ext_leaf.
Qed.

End Phases.

(* ================================================================== *)
(** * Invariants of the loops and of a run *)

Section Loops.

Context {W H : Type} {drv : Driver W H}.
Variable rnd : nat -> Q.
Variable cfg : RunRequest.

Lemma attempt_event_profile (p : Profile) (n0 : Z) (ev : event H) :
  attempt_event rnd cfg p n0 ev -> profile_event rnd cfg p n0 ev.
Proof. destruct ev; cbn; auto. tauto. Qed.

(** The events of one profile, in order: it enters, the gate delay is
    slept, the guarded body runs, and the trailing delay is slept unless
    the body was left by [continue]. *)
Lemma process_profile_shape (p : Profile) (s : state W H) :
  exists evs tail,
    trace (fst (process_profile rnd cfg p s))
    = trace s
      ++ EvEnter p
         :: EvSleep (inject_Z (delay_min cfg)) (inject_Z (delay_max cfg))
              (uniform (inject_Z (delay_min cfg)) (inject_Z (delay_max cfg))
                 (rnd (draws s)))
         :: evs ++ tail /\
    Forall (attempt_event rnd cfg p (totalSent (results s))) evs /\
    (tail = [] \/
     exists k,
       tail = [EvSleep (inject_Z (delay_min cfg + 2))
                 (inject_Z (delay_max cfg + 3))
                 (uniform (inject_Z (delay_min cfg + 2))
                    (inject_Z (delay_max cfg + 3)) (rnd k))]).
Proof.
  rewrite process_profile_unfold.
  pose proof (attempt_events rnd cfg p (gated rnd cfg p s)) as Ha.
  unfold wp in Ha.
  destruct (attempt rnd cfg p (gated rnd cfg p s)) as [s1 r].
  cbn [fst snd] in Ha. destruct Ha as (evs & E & F).
  change (results (gated rnd cfg p s)) with (results s) in F.
  assert (Eg : trace (gated rnd cfg p s)
               = trace s ++ [EvEnter p;
                             EvSleep (inject_Z (delay_min cfg))
                               (inject_Z (delay_max cfg))
                               (uniform (inject_Z (delay_min cfg))
                                  (inject_Z (delay_max cfg)) (rnd (draws s)))]).
  { unfold gated, observe, _random_delay. cbn [fst trace draws].
    now rewrite <- app_assoc. }
  rewrite Eg in E.
  destruct r as [e|[|]]; cbn [_random_delay record_error fst trace draws].
  - exists evs. eexists. split; [|split; [exact F | right; eexists; reflexivity]].
    rewrite E, <- !app_assoc. reflexivity.
  - exists evs, []. split; [|split; [exact F | left; reflexivity]].
    rewrite E, <- !app_assoc, app_nil_r. reflexivity.
  - exists evs. eexists. split; [|split; [exact F | right; eexists; reflexivity]].
    rewrite E, <- !app_assoc. reflexivity.
Qed.

(** The events of one profile: it enters, then come the events of its
    processing. *)
Lemma process_profile_events (p : Profile) (s : state W H) :
  exists evs,
    trace (fst (process_profile rnd cfg p s)) = trace s ++ EvEnter p :: evs /\
    Forall (profile_event rnd cfg p (totalSent (results s))) evs.
Proof.
  destruct (process_profile_shape p s) as (evs & tail & E & F & Ht).
  eexists. split; [exact E|].
  constructor.
  { cbn. split; [right; left; split; reflexivity | apply drawn_now]. }
  apply Forall_app. split.
  - eapply Forall_impl; [|exact F]. apply attempt_event_profile.
  - destruct Ht as [->|(k & ->)]; constructor; [|constructor].
    cbn. split; [right; right; split; reflexivity | apply drawn_now].
Qed.


Lemma for_keywords_quota (ks : list string) (s : state W H) :
  (max_messages cfg <= totalSent (results s))%Z ->
  for_keywords rnd cfg ks s = (s, inr tt).
Proof.
  intros Hq. destruct ks as [|k ks]; [reflexivity|].
  cbn [for_keywords]. unfold bind, get_results.
  destruct (Z.geb_spec (totalSent (results s)) (max_messages cfg));
    [reflexivity | lia].
Qed.

(** A property of the state that outlives the phases of a run. *)
Variable Inv : state W H -> Prop.

Hypothesis Inv_silent :
  forall s s', Inv s -> results s' = results s ->
               extends (search_event rnd) s s' -> Inv s'.

Hypothesis Inv_profile :
  forall p s s',
    Inv s -> (totalSent (results s) < max_messages cfg)%Z ->
    outcome cfg p (results s) (results s') ->
    (exists evs,
        trace s' = trace s ++ EvEnter p :: evs /\
        Forall (profile_event rnd cfg p (totalSent (results s))) evs) ->
    Inv s'.

Lemma for_profiles_inv (ps : list Profile) (s : state W H) :
  Inv s -> Inv (fst (for_profiles rnd cfg ps s)).
Proof.
  revert s. induction ps as [|p ps IH]; intros s HI; [exact HI|].
  cbn [for_profiles]. unfold bind at 1, get_results.
  destruct (Z.geb_spec (totalSent (results s)) (max_messages cfg)) as [Hge|Hlt];
    [exact HI|].
  unfold bind.
  destruct (process_profile_outcome rnd cfg p s) as [Hr Ho].
  pose proof (process_profile_events p s) as He.
  destruct (process_profile rnd cfg p s) as [s1 r]. cbn [fst snd] in *. subst r.
  apply IH. eapply Inv_profile; eauto.
Qed.

Lemma for_keywords_inv (ks : list string) (s : state W H) :
  Inv s -> wp (for_keywords rnd cfg ks) (fun s' _ => Inv s') s.
Proof.
  revert s. induction ks as [|k ks IH]; intros s HI; cbn [for_keywords].
  - wp_step. exact HI.
  - wp_walk; try exact HI;
      try (apply (Inv_silent s); [exact HI | reflexivity | ext_leaf]).
    eapply wp_weaken; [apply (extract_profiles_events rnd)|].
    intros s1 r (Hr & He & ps & ->).
    assert (HI1 : Inv s1).
    { apply (Inv_silent s); [exact HI | exact Hr |].
      eapply extends_trans; [|exact He]. ext_leaf. }
    wp_step.
    pose proof (for_profiles_inv ps s1 HI1) as HI2.
    pose proof (for_profiles_returns rnd cfg ps s1) as Hret.
    unfold wp. destruct (for_profiles rnd cfg ps s1) as [s2 r2].
    cbn [fst snd] in *. subst r2. apply IH. exact HI2.
Qed.

Hypothesis Inv_start :
  forall s, results s = empty_results ->
            Forall (login_event rnd) (trace s) -> Inv s.

(** The property holds when a run ends, whether it returns or raises. *)
Lemma run_inv (w : W) :
  Inv (fst (_run_automation rnd cfg (initial_state w))).
Proof.
  change (wp (_run_automation rnd cfg) (fun s' _ => Inv s') (initial_state w)).
  unfold _run_automation. wp_walk.
  eapply wp_weaken; [apply (login_events rnd)|].
  intros s1 r (Hr & evs & E & F). cbn [results trace initial_state app] in *.
  destruct r as [e|[]].
  - apply Inv_start; [exact Hr | now rewrite E].
  - wp_walk.
    1-2: (apply Inv_start; [exact Hr|]); cbn [trace]; rewrite E;
        (apply Forall_app; split; [exact F | repeat constructor]).
    assert (HI1 : Inv s1) by (apply Inv_start; [exact Hr | now rewrite E]).
    eapply wp_weaken; [apply (for_keywords_inv _ _ HI1)|].
    intros s2 r2 HI2. destruct r2 as [e|[]]; [exact HI2|].
    wp_walk; (apply (Inv_silent s2); [exact HI2 | reflexivity | ext_leaf]).
Qed.

End Loops.

(* ================================================================== *)
(** * Properties of a whole run *)

Section RunFacts.

Context {W H : Type} {drv : Driver W H}.
Variable rnd : nat -> Q.
Variable cfg : RunRequest.

Lemma entered_app (t1 t2 : list (event H)) :
  entered (t1 ++ t2) = entered t1 ++ entered t2.
Proof.
  induction t1 as [|ev t1 IH]; [reflexivity|].
  destruct ev; cbn [app entered]; rewrite IH; reflexivity.
Qed.

Lemma entered_none (ok : event H -> Prop) (t : list (event H)) :
  (forall p, ~ ok (EvEnter p)) -> Forall ok t -> entered t = [].
Proof.
  intros Hno F. induction F as [|ev t Hev F IH]; [reflexivity|].
  destruct ev; cbn [entered]; try exact IH. now elim (Hno p).
Qed.

Lemma search_not_enter (p : Profile) : ~ search_event rnd (@EvEnter H p).
Proof. exact (fun f => f). Qed.

Lemma login_not_enter (p : Profile) : ~ login_event rnd (@EvEnter H p).
Proof. exact (fun f => f). Qed.

Lemma profile_not_enter (q : Profile) (n : Z) (p : Profile) :
  ~ profile_event rnd cfg q n (@EvEnter H p).
Proof. exact (fun f => f). Qed.

(** One record more, for the profile, whatever the outcome. *)
Lemma outcome_recorded (p : Profile) (r r' : Results) :
  outcome cfg p r r' -> Permutation (recorded r') (recorded r ++ [p]).
Proof.
  intros [m _ _ ->| _ ->|why _ ->|e ->]; unfold recorded;
    cbn [incr_total add_would_send add_sent add_skipped add_error
         sent would_send skipped errors];
    rewrite ?map_app; cbn [map ws_profile sk_profile er_profile];
    rewrite <- !app_assoc; cbn [app];
    repeat apply Permutation_app_head;
    rewrite ?app_assoc; apply Permutation_cons_append.
Qed.

Lemma outcome_count (p : Profile) (r r' : Results) :
  outcome cfg p r r' -> recorded_count r' = S (recorded_count r).
Proof.
  intros [m _ _ ->| _ ->|why _ ->|e ->]; unfold recorded_count;
    cbn [incr_total add_would_send add_sent add_skipped add_error
         sent would_send skipped errors];
    rewrite ?length_app; cbn [length]; lia.
Qed.

(** ** The records and the profiles that entered *)

Lemma ledger_inv (w : W) :
  Permutation
    (entered (trace (fst (_run_automation rnd cfg (initial_state w)))))
    (recorded (results (fst (_run_automation rnd cfg (initial_state w))))).
Proof.
  apply (run_inv rnd cfg
           (fun s => Permutation (entered (trace s)) (recorded (results s)))).
  - intros s s' HI Hr (evs & E & F). rewrite E, Hr, entered_app.
    rewrite (entered_none _ evs (@search_not_enter) F). now rewrite app_nil_r.
  - intros p s s' HI _ Ho (evs & E & F). rewrite E, entered_app.
    cbn [entered].
    rewrite (entered_none _ evs (profile_not_enter p _) F).
    rewrite (outcome_recorded p _ _ Ho).
    now apply Permutation_app_tail.
  - intros s Hr F. rewrite Hr.
    now rewrite (entered_none _ (trace s) (@login_not_enter) F).
Qed.

(** ** The quota *)

Lemma forall_weaken (ok ok' : event H -> Prop) (t : list (event H)) :
  (forall ev, ok ev -> ok' ev) -> Forall ok t -> Forall ok' t.
Proof. intros Hi F. eapply Forall_impl; eauto. Qed.


(** ** The bounds of the sleeps *)

Lemma sleeps_run (w : W) :
  Forall (sleep_fine rnd cfg)
    (trace (fst (_run_automation rnd cfg (initial_state w)))).
Proof.
  apply (run_inv rnd cfg (fun s => Forall (sleep_fine rnd cfg) (trace s))).
  - intros s s' HI _ (evs & E & F). rewrite E. apply Forall_app.
    split; [exact HI|].
    apply (forall_weaken (search_event rnd)); [|exact F].
    intros [] Hev; cbn in *; auto. tauto.
  - intros p s s' HI _ _ (evs & E & F). rewrite E. apply Forall_app.
    split; [exact HI|]. constructor; [exact I|].
    apply (forall_weaken (profile_event rnd cfg p (totalSent (results s))));
      [|exact F].
    intros [] Hev; cbn in *; auto.
  - intros s _ F.
    apply (forall_weaken (login_event rnd)); [|exact F].
    intros [] Hev; cbn in *; auto. tauto.
Qed.

(** ** The two modes *)

Lemma mode_run (w : W) :
  mode_inv cfg (fst (_run_automation rnd cfg (initial_state w))).
Proof.
  apply (run_inv rnd cfg (mode_inv cfg)).
  - intros s s' [Hdry Hreal] Hr (evs & E & F). unfold mode_inv.
    rewrite Hr, E. split; [|exact Hreal].
    intros Hd. destruct (Hdry Hd) as [Hs Ht]. split; [exact Hs|].
    apply Forall_app. split; [exact Ht|].
    apply (forall_weaken (search_event rnd)); [|exact F].
    intros [] Hev; cbn in *; auto.
  - intros p s s' [Hdry Hreal] _ Ho (evs & E & F). unfold mode_inv. split.
    + intros Hd. destruct (Hdry Hd) as [Hs Ht]. split.
      * destruct Ho as [m _ _ ->| Hn ->|why _ ->|e ->];
          cbn [incr_total add_would_send add_sent add_skipped add_error sent];
          try exact Hs. congruence.
      * rewrite E. apply Forall_app. split; [exact Ht|].
        constructor; [exact I|].
        apply (forall_weaken
                 (profile_event rnd cfg p (totalSent (results s))));
          [|exact F].
        intros [] Hev; cbn in *; auto; congruence.
    + intros Hd. specialize (Hreal Hd).
      destruct Ho as [m Hn _ ->| _ ->|why _ ->|e ->];
        cbn [incr_total add_would_send add_sent add_skipped add_error
             would_send];
        try exact Hreal. congruence.
  - intros s Hr F. unfold mode_inv. rewrite Hr. cbn [sent would_send empty_results].
    split; [|reflexivity]. intros _. split; [reflexivity|].
    apply (forall_weaken (login_event rnd)); [|exact F].
    intros [] Hev; cbn in *; auto.
Qed.

End RunFacts.

(* ================================================================== *)
(** * The run of any request *)

Section CheckedFacts.

Context {W H : Type} {drv : Driver W H}.
Variable rnd : nat -> Q.
Variable cfg : RunRequest.

Lemma int_random_delay_converts (a b : Z) (s : state W H) :
  converts (b - a) && converts a = true ->
  int_random_delay rnd a b s
  = _random_delay rnd (inject_Z a) (inject_Z b) s.
Proof. intros E. unfold int_random_delay. now rewrite E. Qed.

Lemma int_random_delay_overflow (a b : Z) (s : state W H) :
  converts (b - a) && converts a = false ->
  int_random_delay rnd a b s
  = (Build_state (world s) (S (draws s)) (trace s) (results s),
     inl OverflowError).
Proof. intros E. unfold int_random_delay. now rewrite E. Qed.

Lemma bind_ext {A B : Type} (c : M W H A) (f g : A -> M W H B)
  (s : state W H) :
  (forall a s', f a s' = g a s') -> bind c f s = bind c g s.
Proof. intros E. unfold bind. destruct (c s) as [s' [e|a]]; auto. Qed.

(** One profile, by the answer of its guarded body. *)
Lemma checked_process_profile_unfold (p : Profile) (s : state W H) :
  checked_process_profile rnd cfg p s =
  if gate_delay_converts cfg
  then
    match attempt rnd cfg p (gated rnd cfg p s) with
    | (s1, inl e) =>
        int_random_delay rnd (delay_min cfg + 2) (delay_max cfg + 3)
          (record_error p e s1)
    | (s1, inr Continue) => (s1, inr tt)
    | (s1, inr FallThrough) =>
        int_random_delay rnd (delay_min cfg + 2) (delay_max cfg + 3) s1
    end
  else (Build_state (world s) (S (draws s)) (trace s ++ [EvEnter p])
          (results s),
        inl OverflowError).
Proof.
  unfold checked_process_profile. unfold bind at 1, observe.
  unfold bind at 1.
  destruct (gate_delay_converts cfg) eqn:E; unfold gate_delay_converts in E.
  - rewrite (int_random_delay_converts _ _ _ E).
    unfold gated, observe, bind, try_except, _random_delay, modify_results, ret.
    cbn [fst snd world draws trace results].
    destruct (attempt rnd cfg p _) as [s1 [e|[|]]]; reflexivity.
  - rewrite (int_random_delay_overflow _ _ _ E). reflexivity.
Qed.

Section Converting.

Hypothesis Hconv : delays_convert cfg = true.

Lemma gate_converts : gate_delay_converts cfg = true.
Proof. unfold delays_convert in Hconv. now apply andb_prop in Hconv. Qed.

Lemma trailing_converts : trailing_delay_converts cfg = true.
Proof. unfold delays_convert in Hconv. now apply andb_prop in Hconv. Qed.

(** On a request whose bounds convert, the run of any request is the run
    of [process_profile], [for_profiles], [for_keywords] and
    [_run_automation]. *)
Lemma checked_process_profile_eq (p : Profile) (s : state W H) :
  checked_process_profile rnd cfg p s = process_profile rnd cfg p s.
Proof.
  rewrite checked_process_profile_unfold, process_profile_unfold, gate_converts.
  destruct (attempt rnd cfg p (gated rnd cfg p s)) as [s1 [e|[|]]];
    try reflexivity; apply int_random_delay_converts, trailing_converts.
Qed.

Lemma checked_for_profiles_eq (ps : list Profile) (s : state W H) :
  checked_for_profiles rnd cfg ps s = for_profiles rnd cfg ps s.
Proof.
  revert s. induction ps as [|p ps IH]; intros s; [reflexivity|].
  cbn [checked_for_profiles for_profiles].
  apply bind_ext. intros r s1.
  destruct (totalSent r >=? max_messages cfg)%Z; [reflexivity|].
  unfold bind. rewrite checked_process_profile_eq.
  destruct (process_profile rnd cfg p s1) as [s2 [e|[]]]; [reflexivity|].
  apply IH.
Qed.

Lemma checked_for_keywords_eq (ks : list string) (s : state W H) :
  checked_for_keywords rnd cfg ks s = for_keywords rnd cfg ks s.
Proof.
  revert s. induction ks as [|k ks IH]; intros s; [reflexivity|].
  cbn [checked_for_keywords for_keywords].
  apply bind_ext. intros r s1.
  destruct (totalSent r >=? max_messages cfg)%Z; [reflexivity|].
  do 5 (apply bind_ext; intros ? ?).
  unfold bind. rewrite checked_for_profiles_eq.
  destruct (for_profiles rnd cfg _ _) as [s2 [e|[]]]; [reflexivity|].
  apply IH.
Qed.

Lemma checked_run_automation_eq (s : state W H) :
  checked_run_automation rnd cfg s = _run_automation rnd cfg s.
Proof.
  unfold checked_run_automation, _run_automation.
  do 4 (apply bind_ext; intros ? ?).
  unfold bind at 1. unfold bind at 3.
  now rewrite checked_for_keywords_eq.
Qed.

End Converting.

(** ** The place of each sleep *)

Lemma paced_app (b2 b1 : option (event H)) (t1 t2 : list (event H)) :
  paced cfg b2 b1 (t1 ++ t2) <->
  paced cfg b2 b1 t1 /\
  paced cfg (fst (context_after (b2, b1) t1))
    (snd (context_after (b2, b1) t1)) t2.
Proof.
  unfold context_after. revert b2 b1.
  induction t1 as [|ev t1 IH]; intros b2 b1;
    cbn [app paced fold_left fst snd].
  - tauto.
  - rewrite IH. tauto.
Qed.

Lemma self_paced_nil : self_paced cfg (@nil (event H)).
Proof. intros b2 b1. exact I. Qed.

Lemma self_paced_app (t1 t2 : list (event H)) :
  self_paced cfg t1 -> self_paced cfg t2 -> self_paced cfg (t1 ++ t2).
Proof. intros H1 H2 b2 b1. apply paced_app. split; [apply H1 | apply H2]. Qed.

Lemma self_paced_prefix (t1 t2 : list (event H)) :
  self_paced cfg (t1 ++ t2) -> self_paced cfg t1.
Proof. intros H12 b2 b1. exact (proj1 (proj1 (paced_app _ _ _ _) (H12 b2 b1))). Qed.

Lemma self_paced_quiet (t : list (event H)) :
  Forall no_sleep t -> self_paced cfg t.
Proof.
  intros F. induction F as [|ev t Hev _ IH]; intros b2 b1; [exact I|].
  cbn [paced]. split; [|apply IH].
  destruct ev; try exact I. destruct Hev.
Qed.

Lemma keeps_pace_refl (s : state W H) : keeps_pace cfg s s.
Proof.
  exists []. split; [now rewrite app_nil_r | apply self_paced_nil].
Qed.

Lemma keeps_pace_trans (s1 s2 s3 : state W H) :
  keeps_pace cfg s1 s2 -> keeps_pace cfg s2 s3 -> keeps_pace cfg s1 s3.
Proof.
  intros (e1 & E1 & F1) (e2 & E2 & F2). exists (e1 ++ e2). split.
  - now rewrite E2, E1, app_assoc.
  - now apply self_paced_app.
Qed.

Lemma keeps_pace_quiet (s s' : state W H) :
  extends no_sleep s s' -> keeps_pace cfg s s'.
Proof.
  intros (evs & E & F). exists evs. split; [exact E|].
  now apply self_paced_quiet.
Qed.

End CheckedFacts.

(** The leaf of a walk: the events met have their sleeps in place. *)
Ltac pace_events :=
  intros ? ?; cbn [app paced]; unfold site_bounds, gate_bounds, trailing_bounds;
  intuition auto.

Ltac pace_leaf :=
  unfold keeps_pace; cbn [trace]; rewrite <- ?app_assoc;
  eexists; split;
  [ first [ reflexivity | symmetry; apply app_nil_r ] | pace_events ].

Section PacedPhases.

Context {W H : Type} {drv : Driver W H}.
Variable rnd : nat -> Q.
Variable cfg : RunRequest.

Lemma login_paced (s : state W H) :
  wp (login rnd cfg) (fun s' _ => keeps_pace cfg s s') s.
Proof. unfold login. wp_walk; pace_leaf. Qed.

(** Reading a listing sleeps nowhere. *)
Lemma extract_entry_quiet (h : H) (s : state W H) :
  wp (extract_entry h)
    (fun s' r => extends no_sleep s s' /\ exists o, r = inr o) s.
Proof.
  unfold extract_entry. wp_walk; (split; [ext_leaf | eauto]).
Qed.

Lemma extract_profiles_quiet (hs : list H) (acc : list Profile)
  (s : state W H) :
  wp (extract_profiles hs acc)
    (fun s' r => extends no_sleep s s' /\ exists ps, r = inr ps) s.
Proof.
  revert acc s. induction hs as [|h hs IH]; intros acc s; cbn [extract_profiles].
  - wp_step. split; [apply extends_refl | eauto].
  - wp_step. eapply wp_weaken; [apply extract_entry_quiet|].
    intros s1 r (He & o & ->).
    eapply wp_weaken; [apply IH|].
    intros s2 r2 (He2 & Hps). cbn beta in *.
    split; [eapply extends_trans; eauto | exact Hps].
Qed.

(** The guarded body of a profile: its sleeps are in place, and so is the
    trailing sleep when it follows. *)
Lemma attempt_paced (p : Profile) (s : state W H) :
  wp (attempt rnd cfg p)
    (fun s' _ =>
       exists evs,
         trace s' = trace s ++ evs /\
         forall d,
           self_paced cfg
             (evs ++ [EvSleep (inject_Z (delay_min cfg + 2))
                        (inject_Z (delay_max cfg + 3)) d])) s.
Proof.
  unfold attempt, btn_selectors. cbn [find_msg_btn].
  wp_walk; cbn [trace]; rewrite <- ?app_assoc; eexists;
    (split; [reflexivity | intros d; pace_events]).
Qed.

Lemma checked_process_profile_paced (p : Profile) (s : state W H) :
  keeps_pace cfg s (fst (checked_process_profile rnd cfg p s)).
Proof.
  rewrite checked_process_profile_unfold.
  destruct (gate_delay_converts cfg).
  2: { cbn [fst]. pace_leaf. }
  pose proof (attempt_paced p (gated rnd cfg p s)) as Ha. unfold wp in Ha.
  destruct (attempt rnd cfg p (gated rnd cfg p s)) as [s1 r].
  cbn [fst snd] in Ha. destruct Ha as (evs & E & F).
  assert (Eg : trace (gated rnd cfg p s)
               = trace s ++ [EvEnter p;
                             EvSleep (inject_Z (delay_min cfg))
                               (inject_Z (delay_max cfg))
                               (uniform (inject_Z (delay_min cfg))
                                  (inject_Z (delay_max cfg)) (rnd (draws s)))]).
  { unfold gated, observe, _random_delay. cbn [fst trace draws].
    now rewrite <- app_assoc. }
  rewrite Eg in E.
  assert (Hhead : forall tail,
             self_paced cfg (evs ++ tail) ->
             self_paced cfg
               ([EvEnter p;
                 EvSleep (inject_Z (delay_min cfg)) (inject_Z (delay_max cfg))
                   (uniform (inject_Z (delay_min cfg))
                      (inject_Z (delay_max cfg)) (rnd (draws s)))]
                ++ evs ++ tail)).
  { intros tail Ht b2 b1. cbn [app paced]. split; [exact I|].
    split; [split; reflexivity | apply Ht]. }
  assert (Hdelay : forall s2,
             trace s2 = trace s1 ->
             keeps_pace cfg s
               (fst (int_random_delay rnd (delay_min cfg + 2)
                       (delay_max cfg + 3) s2))).
  { intros s2 E2. unfold int_random_delay.
    destruct (converts _ && converts _); cbn [_random_delay fst trace];
      rewrite E2, E.
    - eexists. split; [rewrite <- !app_assoc; reflexivity|].
      apply Hhead, F.
    - eexists. split; [rewrite <- !app_assoc; reflexivity|].
      rewrite <- (app_nil_r evs). apply Hhead.
      rewrite app_nil_r. eapply self_paced_prefix, (F 0%Q). }
  destruct r as [e|[|]].
  - apply Hdelay. reflexivity.
  - cbn [fst]. eexists. split; [rewrite E, <- !app_assoc; reflexivity|].
    rewrite <- (app_nil_r evs). apply Hhead.
    rewrite app_nil_r. eapply self_paced_prefix, (F 0%Q).
  - apply Hdelay. reflexivity.
Qed.

Lemma checked_for_profiles_paced (ps : list Profile) (s : state W H) :
  keeps_pace cfg s (fst (checked_for_profiles rnd cfg ps s)).
Proof.
  revert s. induction ps as [|p ps IH]; intros s; [apply keeps_pace_refl|].
  cbn [checked_for_profiles]. unfold bind at 1, get_results.
  destruct (totalSent (results s) >=? max_messages cfg)%Z;
    [apply keeps_pace_refl|].
  unfold bind.
  pose proof (checked_process_profile_paced p s) as Hp.
  destruct (checked_process_profile rnd cfg p s) as [s1 [e|[]]];
    cbn [fst] in *; [exact Hp|].
  eapply keeps_pace_trans; [exact Hp | apply IH].
Qed.

Lemma checked_for_keywords_paced (ks : list string) (s : state W H) :
  wp (checked_for_keywords rnd cfg ks) (fun s' _ => keeps_pace cfg s s') s.
Proof.
  revert s. induction ks as [|k ks IH]; intros s; cbn [checked_for_keywords].
  - wp_step. apply keeps_pace_refl.
  - wp_walk; try pace_leaf.
    eapply wp_weaken; [apply extract_profiles_quiet|].
    intros s1 r (He & ps & ->).
    assert (Hs1 : keeps_pace cfg s s1).
    { eapply keeps_pace_trans; [|apply keeps_pace_quiet; exact He].
      pace_leaf. }
    wp_step.
    pose proof (checked_for_profiles_paced ps s1) as Hp.
    unfold wp at 1.
    destruct (checked_for_profiles rnd cfg ps s1) as [s2 [e|[]]];
      cbn [fst snd] in *.
    + eapply keeps_pace_trans; eauto.
    + eapply wp_weaken; [apply IH|].
      intros s3 r3 H3. eapply keeps_pace_trans; [|exact H3].
      eapply keeps_pace_trans; eauto.
Qed.

Lemma checked_run_paced (s : state W H) :
  wp (checked_run_automation rnd cfg) (fun s' _ => keeps_pace cfg s s') s.
Proof.
  unfold checked_run_automation. wp_walk.
  eapply wp_weaken; [apply login_paced|].
  intros s1 r H1. cbn [trace] in H1.
  assert (H1' : keeps_pace cfg s s1).
  { destruct H1 as (evs & E & F). exists evs. split; assumption. }
  clear H1. destruct r as [e|[]]; [exact H1'|].
  wp_walk.
  1-2: (eapply keeps_pace_trans; [exact H1' | pace_leaf]).
  eapply wp_weaken; [apply checked_for_keywords_paced|].
  intros s2 r2 H2.
  assert (H2' : keeps_pace cfg s s2) by (eapply keeps_pace_trans; eauto).
  destruct r2 as [e|[]]; [exact H2'|].
  wp_walk; (eapply keeps_pace_trans; [exact H2' | pace_leaf]).
Qed.

End PacedPhases.

(* ================================================================== *)
(** * Invariants of the run of any request *)

Section CheckedLoops.

Context {W H : Type} {drv : Driver W H}.
Variable rnd : nat -> Q.
Variable cfg : RunRequest.

(** One profile: either the delay of line 153 raised, and the profile
    only entered; or the guarded body ran, the profile has its record, and
    the events are those of its processing (the trailing delay is missing
    from them when it raised). *)
Lemma checked_process_profile_cases (p : Profile) (s : state W H) :
  (gate_delay_converts cfg = false /\
   snd (checked_process_profile rnd cfg p s) = inl OverflowError /\
   results (fst (checked_process_profile rnd cfg p s)) = results s /\
   trace (fst (checked_process_profile rnd cfg p s))
   = trace s ++ [EvEnter p]) \/
  (gate_delay_converts cfg = true /\
   outcome cfg p (results s)
     (results (fst (checked_process_profile rnd cfg p s))) /\
   exists evs,
     trace (fst (checked_process_profile rnd cfg p s))
     = trace s ++ EvEnter p :: evs /\
     Forall (profile_event rnd cfg p (totalSent (results s))) evs).
Proof.
  rewrite checked_process_profile_unfold.
  destruct (gate_delay_converts cfg);
    [right; split; [reflexivity|] | left; repeat split].
  pose proof (attempt_results rnd cfg p (gated rnd cfg p s)) as Hr.
  pose proof (attempt_events rnd cfg p (gated rnd cfg p s)) as He.
  unfold wp in Hr, He.
  destruct (attempt rnd cfg p (gated rnd cfg p s)) as [s1 r].
  cbn [fst snd] in Hr, He. destruct He as (evs & E & F).
  change (results (gated rnd cfg p s)) with (results s) in Hr, F.
  assert (Eg : trace (gated rnd cfg p s)
               = trace s ++ [EvEnter p;
                             EvSleep (inject_Z (delay_min cfg))
                               (inject_Z (delay_max cfg))
                               (uniform (inject_Z (delay_min cfg))
                                  (inject_Z (delay_max cfg)) (rnd (draws s)))]).
  { unfold gated, observe, _random_delay. cbn [fst trace draws].
    now rewrite <- app_assoc. }
  rewrite Eg in E.
  assert (Fp : Forall (profile_event rnd cfg p (totalSent (results s))) evs).
  { eapply Forall_impl; [|exact F]. apply attempt_event_profile. }
  assert (Hgate : profile_event (H := H) rnd cfg p (totalSent (results s))
                    (EvSleep (inject_Z (delay_min cfg))
                       (inject_Z (delay_max cfg))
                       (uniform (inject_Z (delay_min cfg))
                          (inject_Z (delay_max cfg)) (rnd (draws s))))).
  { cbn. split; [right; left; split; reflexivity | apply drawn_now]. }
  assert (Hdelay : forall (s2 : state W H) r2,
             trace s2 = trace s1 ->
             outcome cfg p (results s) r2 -> results s2 = r2 ->
             outcome cfg p (results s)
               (results (fst (int_random_delay rnd (delay_min cfg + 2)
                                (delay_max cfg + 3) s2))) /\
             exists evs0,
               trace (fst (int_random_delay rnd (delay_min cfg + 2)
                             (delay_max cfg + 3) s2))
               = trace s ++ EvEnter p :: evs0 /\
               Forall (profile_event rnd cfg p (totalSent (results s))) evs0).
  { intros s2 r2 E2 Ho Er. unfold int_random_delay.
    destruct (converts _ && converts _);
      cbn [_random_delay fst trace results]; rewrite E2, E, Er;
      (split; [exact Ho|]); eexists;
      (split; [rewrite <- !app_assoc; reflexivity|]).
    - constructor; [exact Hgate|]. apply Forall_app. split; [exact Fp|].
      constructor; [|constructor].
      cbn. split; [right; right; split; reflexivity | apply drawn_now].
    - constructor; [exact Hgate | exact Fp]. }
  destruct r as [e|[|]].
  - apply (Hdelay _ (add_error {| er_profile := p; error := str_of_exn e |}
                       (results s))).
    + reflexivity.
    + now apply OutErrored with e.
    + cbn [record_error results]. now rewrite Hr.
  - cbn [fst]. split.
    + destruct Hr as [(m & Hd & Hm & Er)|(why & Hw & Er)].
      * now apply OutWouldSend with m.
      * now apply OutSkipped with why.
    + eexists. split; [rewrite E, <- !app_assoc; reflexivity|].
      constructor; [exact Hgate | exact Fp].
  - destruct Hr as [Hd Er].
    apply (Hdelay _ (incr_total (add_sent p (results s)))).
    + reflexivity.
    + now apply OutSent.
    + exact Er.
Qed.

(** What one profile and the profile loop answer: they return, or raise
    the [OverflowError] of a delay whose bounds do not convert. *)
Lemma checked_process_profile_answer (p : Profile) (s : state W H) :
  snd (checked_process_profile rnd cfg p s) = inr tt \/
  (snd (checked_process_profile rnd cfg p s) = inl OverflowError /\
   delays_convert cfg = false).
Proof.
  rewrite checked_process_profile_unfold. unfold delays_convert.
  destruct (gate_delay_converts cfg); [|right; split; reflexivity].
  assert (Hdelay : forall s2 : state W H,
             snd (int_random_delay rnd (delay_min cfg + 2)
                    (delay_max cfg + 3) s2) = inr tt \/
             (snd (int_random_delay rnd (delay_min cfg + 2)
                     (delay_max cfg + 3) s2) = inl OverflowError /\
              true && trailing_delay_converts cfg = false)).
  { intros s2. unfold int_random_delay, trailing_delay_converts.
    destruct (converts _ && converts _);
      [left; reflexivity | right; split; reflexivity]. }
  destruct (attempt rnd cfg p (gated rnd cfg p s)) as [s1 [e|[|]]];
    [apply Hdelay | left; reflexivity | apply Hdelay].
Qed.

Lemma checked_for_profiles_answer (ps : list Profile) (s : state W H) :
  snd (checked_for_profiles rnd cfg ps s) = inr tt \/
  (snd (checked_for_profiles rnd cfg ps s) = inl OverflowError /\
   delays_convert cfg = false).
Proof.
  revert s. induction ps as [|p ps IH]; intros s; [left; reflexivity|].
  cbn [checked_for_profiles]. unfold bind, get_results.
  destruct (totalSent (results s) >=? max_messages cfg)%Z; [left; reflexivity|].
  pose proof (checked_process_profile_answer p s) as Hp.
  destruct (checked_process_profile rnd cfg p s) as [s1 [e|[]]];
    cbn [snd] in *; [exact Hp | apply IH].
Qed.

Lemma checked_for_profiles_next (p : Profile) (ps : list Profile)
  (s : state W H) :
  (totalSent (results s) < max_messages cfg)%Z ->
  snd (checked_process_profile rnd cfg p s) = inr tt ->
  checked_for_profiles rnd cfg (p :: ps) s
  = checked_for_profiles rnd cfg ps
      (fst (checked_process_profile rnd cfg p s)).
Proof.
  intros Hlt Hr. cbn [checked_for_profiles]. unfold bind at 1, get_results.
  destruct (Z.geb_spec (totalSent (results s)) (max_messages cfg)); [lia|].
  unfold bind.
  destruct (checked_process_profile rnd cfg p s) as [s1 r].
  cbn [fst snd] in *. now subst r.
Qed.

(** A property [Inv] of the state that outlives the phases of a run, and
    the property [Short] of the state in which the delay of line 153
    raised. *)
Variable Inv : state W H -> Prop.
Variable Short : state W H -> Prop.

Hypothesis Inv_silent :
  forall s s', Inv s -> results s' = results s ->
               extends (search_event rnd) s s' -> Inv s'.

Hypothesis Inv_profile :
  forall p s s',
    Inv s -> (totalSent (results s) < max_messages cfg)%Z ->
    outcome cfg p (results s) (results s') ->
    (exists evs,
        trace s' = trace s ++ EvEnter p :: evs /\
        Forall (profile_event rnd cfg p (totalSent (results s))) evs) ->
    Inv s'.

Hypothesis Short_enter :
  forall p s s',
    Inv s -> results s' = results s -> trace s' = trace s ++ [EvEnter p] ->
    Short s'.

Lemma kept_returned {A : Type} (s : state W H) (a : A) :
  kept cfg Inv Short s (inr a) -> Inv s.
Proof. intros [HI|(Hr & _)]; [exact HI | discriminate Hr]. Qed.

Lemma checked_for_profiles_kept (ps : list Profile) (s : state W H) :
  Inv s ->
  kept cfg Inv Short (fst (checked_for_profiles rnd cfg ps s))
    (snd (checked_for_profiles rnd cfg ps s)).
Proof.
  revert s. induction ps as [|p ps IH]; intros s HI; [left; exact HI|].
  cbn [checked_for_profiles]. unfold bind, get_results.
  destruct (Z.geb_spec (totalSent (results s)) (max_messages cfg)) as [Hge|Hlt];
    [left; exact HI|].
  assert (H1 : kept cfg Inv Short
                 (fst (checked_process_profile rnd cfg p s))
                 (snd (checked_process_profile rnd cfg p s))).
  { destruct (checked_process_profile_cases p s)
      as [(Hg & Hs & Hr & Ht)|(Hg & Ho & He)].
    - right. split; [exact Hs|]. split; [exact Hg|].
      eapply Short_enter; eauto.
    - left. eapply Inv_profile; eauto. }
  destruct (checked_process_profile rnd cfg p s) as [s1 [e|[]]];
    cbn [fst snd] in *; [exact H1 | apply IH, (kept_returned _ _ H1)].
Qed.

Lemma checked_for_keywords_kept (ks : list string) (s : state W H) :
  Inv s ->
  wp (checked_for_keywords rnd cfg ks) (fun s' r => kept cfg Inv Short s' r) s.
Proof.
  revert s. induction ks as [|k ks IH]; intros s HI;
    cbn [checked_for_keywords].
  - wp_step. left. exact HI.
  - wp_walk; try (left; exact HI);
      try (left; apply (Inv_silent s); [exact HI | reflexivity | ext_leaf]).
    eapply wp_weaken; [apply (extract_profiles_events rnd)|].
    intros s1 r (Hr & He & ps & ->).
    assert (HI1 : Inv s1).
    { apply (Inv_silent s); [exact HI | exact Hr |].
      eapply extends_trans; [|exact He]. ext_leaf. }
    wp_step.
    pose proof (checked_for_profiles_kept ps s1 HI1) as HI2.
    unfold wp at 1.
    destruct (checked_for_profiles rnd cfg ps s1) as [s2 [e|[]]];
      cbn [fst snd] in *.
    + destruct HI2 as [HI2|(Hr2 & Hg & Hs)]; [left; exact HI2|].
      right. repeat split; [congruence | exact Hg | exact Hs].
    + apply IH, (kept_returned _ _ HI2).
Qed.

Hypothesis Inv_start :
  forall s, results s = empty_results ->
            Forall (login_event rnd) (trace s) -> Inv s.

(** When a run ends, whether it returns or raises. *)
Lemma checked_run_kept (w : W) :
  kept cfg Inv Short
    (fst (checked_run_automation rnd cfg (initial_state w)))
    (snd (checked_run_automation rnd cfg (initial_state w))).
Proof.
  change (wp (checked_run_automation rnd cfg)
            (fun s' r => kept cfg Inv Short s' r) (initial_state w)).
  unfold checked_run_automation. wp_walk.
  eapply wp_weaken; [apply (login_events rnd)|].
  intros s1 r (Hr & evs & E & F). cbn [results trace initial_state app] in *.
  destruct r as [e|[]].
  - left. apply Inv_start; [exact Hr | now rewrite E].
  - wp_walk.
    1-2: left; (apply Inv_start; [exact Hr|]); cbn [trace]; rewrite E;
        (apply Forall_app; split; [exact F | repeat constructor]).
    assert (HI1 : Inv s1) by (apply Inv_start; [exact Hr | now rewrite E]).
    eapply wp_weaken; [apply (checked_for_keywords_kept _ _ HI1)|].
    intros s2 r2 HI2. destruct r2 as [e|[]].
    + destruct HI2 as [HI2|(Hr2 & Hg & Hs)]; [left; exact HI2|].
      right. repeat split; [congruence | exact Hg | exact Hs].
    + apply kept_returned in HI2.
      wp_walk;
        (left; apply (Inv_silent s2); [exact HI2 | reflexivity | ext_leaf]).
Qed.

End CheckedLoops.

Section CheckedInvariant.

Context {W H : Type} {drv : Driver W H}.
Variable rnd : nat -> Q.
Variable cfg : RunRequest.
Variable Inv : state W H -> Prop.

Hypothesis Inv_silent :
  forall s s', Inv s -> results s' = results s ->
               extends (search_event rnd) s s' -> Inv s'.

Hypothesis Inv_profile :
  forall p s s',
    Inv s -> (totalSent (results s) < max_messages cfg)%Z ->
    outcome cfg p (results s) (results s') ->
    (exists evs,
        trace s' = trace s ++ EvEnter p :: evs /\
        Forall (profile_event rnd cfg p (totalSent (results s))) evs) ->
    Inv s'.

Hypothesis Inv_enter :
  forall p s s',
    Inv s -> results s' = results s -> trace s' = trace s ++ [EvEnter p] ->
    Inv s'.

(** A property that the profile that only entered keeps, too. *)
Lemma checked_for_keywords_inv (ks : list string) (s : state W H) :
  Inv s -> wp (checked_for_keywords rnd cfg ks) (fun s' _ => Inv s') s.
Proof.
  intros HI.
  eapply wp_weaken;
    [apply (checked_for_keywords_kept rnd cfg Inv Inv Inv_silent Inv_profile
              Inv_enter ks s HI)|].
  intros s' r [HI'|(_ & _ & HI')]; exact HI'.
Qed.

Hypothesis Inv_start :
  forall s, results s = empty_results ->
            Forall (login_event rnd) (trace s) -> Inv s.

Lemma checked_run_inv (w : W) :
  Inv (fst (checked_run_automation rnd cfg (initial_state w))).
Proof.
  destruct (checked_run_kept rnd cfg Inv Inv Inv_silent Inv_profile
              Inv_enter Inv_start w) as [HI|(_ & _ & HI)]; exact HI.
Qed.

End CheckedInvariant.

Section CheckedRunFacts.

Context {W H : Type} {drv : Driver W H}.
Variable rnd : nat -> Q.
Variable cfg : RunRequest.

(** The counter counts the records of [would_send] and [sent]. *)
Lemma checked_count_run (w : W) :
  let s' := fst (checked_run_automation rnd cfg (initial_state w)) in
  totalSent (results s')
  = Z.of_nat (length (would_send (results s')) + length (sent (results s'))).
Proof.
  apply (checked_run_inv rnd cfg
           (fun s => totalSent (results s)
                     = Z.of_nat (length (would_send (results s))
                                 + length (sent (results s))))).
  - intros s s' HI Hr _. now rewrite Hr.
  - intros p s s' HI _ Ho _.
    destruct Ho as [m _ _ ->| _ ->|why _ ->|e ->];
      cbn [incr_total add_would_send add_sent add_skipped add_error
           sent would_send totalSent];
      rewrite ?length_app; cbn [length]; lia.
  - intros p s s' HI Hr _. now rewrite Hr.
  - intros s Hr _. now rewrite Hr.
Qed.

(** The two modes. *)
Lemma checked_mode_run (w : W) :
  mode_inv cfg (fst (checked_run_automation rnd cfg (initial_state w))).
Proof.
  apply (checked_run_inv rnd cfg (mode_inv cfg)).
  - intros s s' [Hdry Hreal] Hr (evs & E & F). unfold mode_inv.
    rewrite Hr, E. split; [|exact Hreal].
    intros Hd. destruct (Hdry Hd) as [Hs Ht]. split; [exact Hs|].
    apply Forall_app. split; [exact Ht|].
    apply (forall_weaken (search_event rnd)); [|exact F].
    intros [] Hev; cbn in *; auto.
  - intros p s s' [Hdry Hreal] _ Ho (evs & E & F). unfold mode_inv. split.
    + intros Hd. destruct (Hdry Hd) as [Hs Ht]. split.
      * destruct Ho as [m _ _ ->| Hn ->|why _ ->|e ->];
          cbn [incr_total add_would_send add_sent add_skipped add_error sent];
          try exact Hs. congruence.
      * rewrite E. apply Forall_app. split; [exact Ht|].
        constructor; [exact I|].
        apply (forall_weaken
                 (profile_event rnd cfg p (totalSent (results s))));
          [|exact F].
        intros [] Hev; cbn in *; auto; congruence.
    + intros Hd. specialize (Hreal Hd).
      destruct Ho as [m Hn _ ->| _ ->|why _ ->|e ->];
        cbn [incr_total add_would_send add_sent add_skipped add_error
             would_send];
        try exact Hreal. congruence.
  - intros p s s' [Hdry Hreal] Hr E. unfold mode_inv. rewrite Hr, E.
    split; [|exact Hreal].
    intros Hd. destruct (Hdry Hd) as [Hs Ht]. split; [exact Hs|].
    apply Forall_app. split; [exact Ht | repeat constructor].
  - intros s Hr F. unfold mode_inv. rewrite Hr.
    cbn [sent would_send empty_results].
    split; [|reflexivity]. intros _. split; [reflexivity|].
    apply (forall_weaken (login_event rnd)); [|exact F].
    intros [] Hev; cbn in *; auto.
Qed.

End CheckedRunFacts.

(* ================================================================== *)
(** * The send quota *)




(* ================================================================== *)
(** * One outcome for each profile *)

(** The profiles are listed again for each keyword and nothing compares
    them with the records made: on a site that lists the same two people
    for both keywords, each of them is sent two messages and recorded twice
    in [sent].  On a site whose listing leads twice to the same page, once
    without a name, the address is recorded in [sent] and in [errors].  And
    when the bounds of the request are beyond the range of floats, the
    first profile enters and gets no record at all: the delay of line 153
    ends the run. *)
Lemma one_outcome_counterexample :
  map url
    (sent (results (fst (Edge.checked_run Fake.site_connected
                           Fake.draw_zero (Fake.request 10 false)))))
  = [ url Fake.maria_profile; url Fake.joao_profile;
      url Fake.maria_profile; url Fake.joao_profile ] /\
  (map url
     (sent (results (fst (Edge.checked_run Edge.site_same_address
                            Fake.draw_zero
                            (default_request "me@example.org" "secret")))))
   = [ url Fake.maria_profile ] /\
   map (fun r => url (er_profile r))
     (errors (results (fst (Edge.checked_run Edge.site_same_address
                              Fake.draw_zero
                              (default_request "me@example.org" "secret")))))
   = [ url Fake.maria_profile ]) /\
  entered (trace (fst (Edge.checked_run Fake.site_connected
                         Fake.draw_zero Edge.huge_request)))
  = [ Fake.maria_profile ] /\
  recorded (results (fst (Edge.checked_run Fake.site_connected
                            Fake.draw_zero Edge.huge_request)))
  = [] /\
  snd (Edge.checked_run Fake.site_connected Fake.draw_zero
         Edge.huge_request)
  = inl OverflowError.
Proof. vm_compute. repeat split. Qed.

(** C2, amended: each time a profile enters, its processing adds one
    record for it to exactly one of the four lists, and nothing else to any
    of them, unless the delay of line 153 raises [OverflowError], which it
    does exactly when the bounds of the request do not convert to floats:
    then the profile gets no record.  When a run ends, the profiles
    recorded in the four lists are, with their multiplicities, the profiles
    that entered; or that delay ended the run, and they are the profiles
    that entered but one.  A profile is counted each time it enters: the
    lists are not kept apart by [url]. *)
Theorem each_encounter_one_outcome {W H : Type} {drv : Driver W H}
  (rnd : nat -> Q) (cfg : RunRequest) :
  (forall p (s : state W H),
      let r := checked_process_profile rnd cfg p s in
      (gate_delay_converts cfg = true /\
       outcome cfg p (results s) (results (fst r)) /\
       recorded_count (results (fst r)) = S (recorded_count (results s))) \/
      (gate_delay_converts cfg = false /\
       snd r = inl OverflowError /\
       results (fst r) = results s)) /\
  (forall w : W,
      let r := checked_run_automation rnd cfg (initial_state w) in
      (Permutation (entered (trace (fst r))) (recorded (results (fst r))) /\
       length (entered (trace (fst r))) = recorded_count (results (fst r))) \/
      (gate_delay_converts cfg = false /\
       snd r = inl OverflowError /\
       exists p,
         Permutation (entered (trace (fst r)))
           (recorded (results (fst r)) ++ [p]))).
Proof.
  split.
  - intros p s r. subst r.
    destruct (checked_process_profile_cases rnd cfg p s)
      as [(Hg & Hs & Hr & _)|(Hg & Ho & _)].
    + right. repeat split; assumption.
    + left. repeat split; [exact Hg | exact Ho |].
      exact (outcome_count cfg p _ _ Ho).
  - intros w r. subst r.
    destruct (checked_run_kept rnd cfg
                (fun s => Permutation (entered (trace s)) (recorded (results s)))
                (fun s => exists p,
                     Permutation (entered (trace s))
                       (recorded (results s) ++ [p]))) with (w := w)
      as [Hp|(Hr & Hg & Hs)].
    + intros s s' HI Hr (evs & E & F). rewrite E, Hr, entered_app.
      rewrite (entered_none _ evs (@search_not_enter _ rnd) F).
      now rewrite app_nil_r.
    + intros p s s' HI _ Ho (evs & E & F). rewrite E, entered_app.
      cbn [entered].
      rewrite (entered_none _ evs (profile_not_enter rnd cfg p _) F).
      rewrite (outcome_recorded cfg p _ _ Ho).
      now apply Permutation_app_tail.
    + intros p s s' HI Hr E. exists p. rewrite E, Hr, entered_app.
      cbn [entered]. now apply Permutation_app_tail.
    + intros s Hr F. rewrite Hr.
      now rewrite (entered_none _ (trace s) (@login_not_enter _ rnd) F).
    + left. split; [exact Hp|].
      rewrite (Permutation_length Hp). unfold recorded, recorded_count.
      rewrite !length_app, !length_map. lia.
    + right. repeat split; assumption.
Qed.

Lemma each_encounter_one_outcome_witness :
  Permutation
    (entered (trace (fst (Edge.checked_run Fake.site_connected
                            Fake.draw_zero (Fake.request 10 false)))))
    (recorded (results (fst (Edge.checked_run Fake.site_connected
                               Fake.draw_zero (Fake.request 10 false))))).
Proof.
  destruct (proj2 (each_encounter_one_outcome
                     (drv := Fake.driver Fake.site_connected) Fake.draw_zero
                     (Fake.request 10 false)) "about:blank"%string)
    as [[Hp _]|(Hg & _)].
  - exact Hp.
  - discriminate Hg.
Defined.

(* ================================================================== *)
(** * Pacing *)

(** With the default bounds 3 and 7, the sleep after the login lasts 2
    seconds when the draw is 0: it is below [delay_min]. *)
Lemma pacing_counterexample :
  In (EvSleep 2 4 2)
    (trace (fst (Fake.run Fake.site_connected Fake.draw_zero
                   (Fake.request 10 false)))) /\
  (2 < inject_Z (delay_min (Fake.request 10 false)))%Q.
Proof.
  split; [|reflexivity].
  vm_compute. repeat (first [left; reflexivity | right]).
Qed.

(** C8, amended: in every run, the two bounds a sleep is asked with are
    those of its place, which the two events before it tell.  Right after a
    profile entered (line 153) they are [delay_min] and [delay_max]; after
    the load that follows the click on the login form (line 106), 2 and 4;
    after the load that follows a navigation (lines 125 and 158), 2 and 3;
    after a click or a key press on an element (lines 189 and 211), 1 and
    2; after the fill of an element (line 200), 0.8 and 1.5.  The bounds
    [delay_min + 2] and [delay_max + 3] (line 218) come after the last
    event of the guarded body of a profile: the count of a send, or the
    navigation, load, query, click, fill or key press at which, or after
    which, the body failed.  No sleep comes anywhere else. *)
Theorem pacing_by_place {W H : Type} {drv : Driver W H} (rnd : nat -> Q)
  (cfg : RunRequest) (w : W) (t1 t2 : list (event H)) (lo hi d : Q) :
  trace (fst (checked_run_automation rnd cfg (initial_state w)))
  = t1 ++ EvSleep lo hi d :: t2 ->
  site_bounds cfg (fst (context_after (None, None) t1))
    (snd (context_after (None, None) t1)) lo hi.
Proof.
  intros E.
  pose proof (checked_run_paced rnd cfg (initial_state w)) as Hp.
  unfold wp in Hp. destruct Hp as (evs & Ee & F).
  cbn [initial_state trace app] in Ee. rewrite Ee in E.
  specialize (F None None). rewrite E in F.
  apply paced_app in F. destruct F as [_ F]. exact (proj1 F).
Qed.

Lemma pacing_by_place_witness :
  site_bounds (H := Fake.handle) (Fake.request 10 false)
    (Some (EvPageClick submit_selector)) (Some EvWaitLoad) 2 4.
Proof.
  apply (pacing_by_place (drv := Fake.driver Fake.site_connected)
           Fake.draw_zero (Fake.request 10 false) "about:blank"%string
           [ EvLaunch; EvNewContext; EvNewPage; EvGoto login_url;
             EvPageFill "#username" "me@example.org";
             EvPageFill "#password" "secret";
             EvPageClick submit_selector; EvWaitLoad ]
           (skipn 9
              (trace (fst (Edge.checked_run Fake.site_connected
                             Fake.draw_zero (Fake.request 10 false)))))
           2 4 2).
  vm_compute. reflexivity.
Defined.

(* ================================================================== *)
(** * Message composition *)

(** A name without a token composes no message: [name.split()[0]] raises.
    And the second replacement also acts on what the first one inserted:
    for the first name [{cargo}] the message holds the title, where the
    substitution of both placeholders at once keeps the first name. *)
Lemma build_message_counterexample :
  _build_message "Ola {nome}" EmptyString "Dev" = inl IndexError /\
  _build_message (Template.render [Template.Nome]) "{cargo} Silva" "Dev"
  = inr "Dev"%string /\
  Template.fill "{cargo}" "Dev" [Template.Nome] = "{cargo}"%string.
Proof. repeat split. Qed.

(** C5, amended: for every template and title, and every name that has a
    first whitespace-delimited token, the message is the template in which
    every occurrence of [{nome}] was replaced by that token and then every
    occurrence of [{cargo}] of the result by the title, or by the non-empty
    literal [profissional] when the title is empty.  For a template whose
    opening braces all belong to the two placeholders and a first name
    without opening brace, this is the substitution of both placeholders at
    once.  The first token of [Maria Clara Souza] is [Maria], and the title
    [Engenheira de Dados] is substituted as it is. *)
Theorem build_message_substitutes (template name title first : string) :
  first_token_of name first ->
  _build_message template name title
  = inr (PyStr.replace "{cargo}" (cargo_text title)
           (PyStr.replace "{nome}" first template)) /\
  (forall segs,
      template = Template.render segs ->
      forallb Template.plain segs = true ->
      Template.no_brace first = true ->
      _build_message template name title
      = inr (Template.fill first (cargo_text title) segs)) /\
  cargo_text title <> EmptyString /\
  (title <> EmptyString -> cargo_text title = title) /\
  cargo_text EmptyString = "profissional"%string /\
  first_token_of "Maria Clara Souza" "Maria" /\
  cargo_text "Engenheira de Dados" = "Engenheira de Dados"%string.
Proof.
  intros Hf.
  pose proof (BuildMessage.build_message_token template name title first Hf)
    as Hb.
  split; [exact Hb|]. split.
  - intros segs -> Hp Hn. rewrite Hb.
    rewrite BuildMessage.replace_nome_render by exact Hp.
    now rewrite BuildMessage.replace_cargo_fill.
  - repeat split.
    + apply BuildMessage.cargo_text_nonempty.
    + apply BuildMessage.cargo_text_title.
    + apply BuildMessage.maria_first_token.
Qed.

Lemma build_message_substitutes_witness :
  _build_message "Ola {nome}, {cargo}!" "Maria Clara Souza" EmptyString
  = inr "Ola Maria, profissional!"%string.
Proof.
  exact (proj1 (build_message_substitutes "Ola {nome}, {cargo}!"
                  "Maria Clara Souza" EmptyString "Maria"
                  BuildMessage.maria_first_token)).
Defined.

(* ================================================================== *)
(** * Failures of one profile *)

Section Containment.

Context {W H : Type} {drv : Driver W H}.
Variable rnd : nat -> Q.
Variable cfg : RunRequest.

(** A body left by [continue] is not followed by the trailing delay. *)
Lemma continue_no_trailing (p : Profile) (s s1 : state W H) :
  attempt rnd cfg p (gated rnd cfg p s) = (s1, inr Continue) ->
  process_profile rnd cfg p s = (s1, inr tt).
Proof. intros E. now rewrite process_profile_unfold, E. Qed.

Lemma for_profiles_next (p : Profile) (ps : list Profile) (s : state W H) :
  (totalSent (results s) < max_messages cfg)%Z ->
  for_profiles rnd cfg (p :: ps) s
  = for_profiles rnd cfg ps (fst (process_profile rnd cfg p s)).
Proof.
  intros Hlt. cbn [for_profiles]. unfold bind at 1, get_results.
  destruct (Z.geb_spec (totalSent (results s)) (max_messages cfg)); [lia|].
  unfold bind. destruct (process_profile_outcome rnd cfg p s) as [Hr _].
  destruct (process_profile rnd cfg p s) as [s1 r]. cbn [fst snd] in *.
  now subst r.
Qed.

Lemma attempt_raise_results (p : Profile) (s s1 : state W H) (e : exn) :
  attempt rnd cfg p s = (s1, inl e) -> results s1 = results s.
Proof.
  intros E. pose proof (attempt_results rnd cfg p s) as Ha.
  unfold wp in Ha. now rewrite E in Ha.
Qed.

End Containment.

(** The two delays of a profile are outside the [try].  With bounds whose
    difference is beyond the range of floats at line 218, the profile whose
    page does not load is recorded in [errors], then the trailing delay
    raises: the profile loop ends there and the next profile never enters.
    With bounds beyond the range at line 153, the delay before the [try]
    raises and the profile that entered gets no record. *)
Lemma delay_failure_counterexample :
  snd (checked_for_profiles (drv := Fake.driver Fake.site_strangers)
         Fake.draw_zero Edge.wide_request
         [Fake.joao_profile; Fake.maria_profile] (initial_state Fake.feed))
  = inl OverflowError /\
  map er_profile
    (errors (results (fst (checked_for_profiles
                             (drv := Fake.driver Fake.site_strangers)
                             Fake.draw_zero Edge.wide_request
                             [Fake.joao_profile; Fake.maria_profile]
                             (initial_state Fake.feed)))))
  = [ Fake.joao_profile ] /\
  entered (trace (fst (checked_for_profiles
                         (drv := Fake.driver Fake.site_strangers)
                         Fake.draw_zero Edge.wide_request
                         [Fake.joao_profile; Fake.maria_profile]
                         (initial_state Fake.feed))))
  = [ Fake.joao_profile ] /\
  checked_process_profile (drv := Fake.driver Fake.site_strangers)
    Fake.draw_zero Edge.huge_request Fake.joao_profile
    (initial_state Fake.feed)
  = (Build_state Fake.feed 1 [EvEnter Fake.joao_profile] empty_results,
     inl OverflowError).
Proof. vm_compute. repeat split. Qed.

(** C4, amended: when the guarded body of a profile raises [e], the
    exception is caught there: the profile gets one record in [errors]
    carrying [str(e)] and nothing else was recorded for it; then the
    trailing delay is slept and the processing returns normally, unless
    the bounds of that delay do not convert to floats, in which case it
    raises [OverflowError].  The processing of a profile and the profile
    loop return normally or raise the [OverflowError] of a delay, which
    they can only for a request whose delay bounds do not convert; and
    after a profile whose processing returned, the loop goes on with the
    next profile from the state it left. *)
Theorem guarded_failure_contained {W H : Type} {drv : Driver W H}
  (rnd : nat -> Q) (cfg : RunRequest) :
  (forall p (s s1 : state W H) e,
      gate_delay_converts cfg = true ->
      attempt rnd cfg p (gated rnd cfg p s) = (s1, inl e) ->
      results (fst (checked_process_profile rnd cfg p s))
      = add_error {| er_profile := p; error := str_of_exn e |} (results s) /\
      (trailing_delay_converts cfg = true ->
       checked_process_profile rnd cfg p s
       = (fst (_random_delay rnd (inject_Z (delay_min cfg + 2))
                 (inject_Z (delay_max cfg + 3)) (record_error p e s1)),
          inr tt)) /\
      (trailing_delay_converts cfg = false ->
       snd (checked_process_profile rnd cfg p s) = inl OverflowError)) /\
  (forall q (s0 : state W H),
      snd (checked_process_profile rnd cfg q s0) = inr tt \/
      (snd (checked_process_profile rnd cfg q s0) = inl OverflowError /\
       delays_convert cfg = false)) /\
  (forall ps (s0 : state W H),
      snd (checked_for_profiles rnd cfg ps s0) = inr tt \/
      (snd (checked_for_profiles rnd cfg ps s0) = inl OverflowError /\
       delays_convert cfg = false)) /\
  (forall p ps (s : state W H),
      (totalSent (results s) < max_messages cfg)%Z ->
      snd (checked_process_profile rnd cfg p s) = inr tt ->
      checked_for_profiles rnd cfg (p :: ps) s
      = checked_for_profiles rnd cfg ps
          (fst (checked_process_profile rnd cfg p s))).
Proof.
  split; [|split; [|split]].
  - intros p s s1 e Hg E.
    rewrite checked_process_profile_unfold, Hg, E.
    pose proof (attempt_raise_results rnd cfg p _ _ _ E) as Hr.
    change (results (gated rnd cfg p s)) with (results s) in Hr.
    unfold int_random_delay. fold (trailing_delay_converts cfg).
    destruct (trailing_delay_converts cfg);
      (split; [cbn [_random_delay record_error fst results]; now rewrite Hr|]);
      split; intros Ht; first [reflexivity | discriminate Ht].
  - intros q s0. apply checked_process_profile_answer.
  - intros ps s0. apply checked_for_profiles_answer.
  - intros p ps s. apply checked_for_profiles_next.
Qed.

Lemma guarded_failure_contained_witness :
  errors (results (fst (checked_process_profile
                          (drv := Fake.driver Fake.site_strangers)
                          Fake.draw_zero (Fake.request 10 false)
                          Fake.joao_profile
                          (initial_state (H := Fake.handle) Fake.feed))))
  = [ {| er_profile := Fake.joao_profile; error := "net::ERR_FAILED" |} ].
Proof.
  pose proof (proj1 (guarded_failure_contained
                       (drv := Fake.driver Fake.site_strangers)
                       Fake.draw_zero (Fake.request 10 false))
                Fake.joao_profile
                (initial_state (H := Fake.handle) Fake.feed)
                (fst (attempt (drv := Fake.driver Fake.site_strangers)
                        Fake.draw_zero (Fake.request 10 false)
                        Fake.joao_profile
                        (gated Fake.draw_zero (Fake.request 10 false)
                           Fake.joao_profile
                           (initial_state (H := Fake.handle) Fake.feed))))
                (DriverError "net::ERR_FAILED")) as Hc.
  destruct Hc as (Hr & _); [reflexivity | vm_compute; reflexivity|].
  rewrite Hr. reflexivity.
Defined.

(* ================================================================== *)
(** * Authentication *)

Section Authentication.

Context {W H : Type} {drv : Driver W H}.
Variable rnd : nat -> Q.
Variable cfg : RunRequest.

Lemma wp_any {A : Type} (c : M W H A) (Q : state W H -> exn + A -> Prop)
  (s : state W H) :
  (forall s' r, Q s' r) -> wp c Q s.
Proof. intros HQ. apply HQ. Qed.

(** A login that goes through leaves these events, and no record. *)
Lemma login_through (s s1 : state W H) :
  login rnd cfg s = (s1, inr tt) ->
  trace s1 = trace s ++ login_trace cfg (rnd (draws s)) /\
  results s1 = results s.
Proof.
  intros E.
  assert (Hw : wp (login rnd cfg)
                 (fun s' r =>
                    r = inr tt ->
                    trace s' = trace s ++ login_trace cfg (rnd (draws s)) /\
                    results s' = results s) s).
  { unfold login. wp_walk; intros Hr; try discriminate Hr.
    cbn [trace results]. rewrite <- !app_assoc. split; reflexivity. }
  exact (wp_run _ _ _ _ _ Hw E eq_refl).
Qed.

End Authentication.

(** C6: when the login went through and the address then shown holds
    neither [feed] nor [mynetwork], the run releases the browser and fails:
    it raises the login failure (or what releasing the browser raised).  Its
    events are those of the login and the release, so the only navigation
    is the one to the login page, no profile entered, and no record was
    made. *)
Theorem login_failure_aborts {W H : Type} {drv : Driver W H}
  (rnd : nat -> Q) (cfg : RunRequest) (s0 s1 : state W H) :
  login rnd cfg (reset s0) = (s1, inr tt) ->
  logged_in (page_url (world s1)) = false ->
  fst (_run_automation rnd cfg s0) = closed s1 /\
  (exists e, snd (_run_automation rnd cfg s0) = inl e /\
             (snd (browser_close (world s1)) = inr tt -> e = LoginFailed)) /\
  trace (closed s1)
  = trace s0 ++ login_trace cfg (rnd (draws s0)) ++ [EvClose] /\
  entered (trace (closed s1)) = entered (trace s0) /\
  results (closed s1) = empty_results.
Proof.
  intros El Hu. destruct (login_through rnd cfg _ _ El) as [Ht Hr].
  cbn [reset trace results draws] in Ht, Hr.
  assert (Hrun : _run_automation rnd cfg s0
                 = (closed s1,
                    match snd (browser_close (world s1)) with
                    | inl e => inl e
                    | inr _ => inl LoginFailed
                    end)).
  { unfold _run_automation, bind, modify_results.
    change (Build_state (world s0) (draws s0) (trace s0) empty_results)
      with (reset s0).
    rewrite El. unfold get_url. rewrite Hu. cbn [negb].
    unfold call, raise, closed. cbn [fst snd].
    destruct (snd (browser_close (world s1))) as [e|[]]; reflexivity. }
  rewrite Hrun. cbn [fst snd]. repeat split.
  - destruct (snd (browser_close (world s1))) as [e|[]].
    + exists e. split; [reflexivity | discriminate].
    + exists LoginFailed. split; reflexivity.
  - cbn [closed trace]. now rewrite Ht, <- app_assoc.
  - cbn [closed trace]. rewrite Ht, !entered_app. cbn. now rewrite !app_nil_r.
  - cbn [closed results]. exact Hr.
Qed.

Lemma login_failure_aborts_witness :
  snd (Fake.run Fake.site_challenge Fake.draw_half (Fake.request 10 false))
  = inl LoginFailed.
Proof.
  pose proof (login_failure_aborts (drv := Fake.driver Fake.site_challenge)
                Fake.draw_half (Fake.request 10 false)
                (initial_state "about:blank"%string)
                (fst (login (drv := Fake.driver Fake.site_challenge)
                        Fake.draw_half (Fake.request 10 false)
                        (reset (initial_state "about:blank"%string)))))
    as Hc.
  destruct Hc as (_ & (e & He & Hl) & _);
    [vm_compute; reflexivity | vm_compute; reflexivity |].
  unfold Fake.run. rewrite He. f_equal. apply Hl. reflexivity.
Defined.

(* ================================================================== *)
(** * Extraction of the profiles *)

Section Extraction.

Context {W H : Type} {drv : Driver W H}.

Lemma truthy_contains (href : string) :
  PyStr.truthy href && PyStr.contains "/in/" href = PyStr.contains "/in/" href.
Proof. destruct href; reflexivity. Qed.

(** An entry never raises and makes no record, faults included. *)
Lemma extract_entry_total (h : H) (s : state W H) :
  (exists o, snd (extract_entry h s) = inr o) /\
  results (fst (extract_entry h s)) = results s.
Proof.
  pose proof (extract_entry_events (fun _ => 0%Q) h s) as Hw. unfold wp in Hw.
  destruct Hw as (Hr & _ & Ho). split; assumption.
Qed.

(** What an entry read without a fault yields. *)
Lemma extract_entry_reads (h : H) (s : state W H) (v : entry_view) :
  reads h (world s) v ->
  snd (extract_entry h s)
  = inr match v_name_el v, v_link_el v, v_href v with
        | Some _, Some _, Some href =>
            if PyStr.contains "/in/" href then Some (view_profile v href)
            else None
        | _, _, _ => None
        end.
Proof.
  intros (w1 & w2 & w3 & E1 & E2 & E3 & Hrest).
  unfold extract_entry, try_except, bind, call. cbn [fst snd world].
  rewrite E1. cbn [fst snd world]. rewrite E2. cbn [fst snd world].
  rewrite E3. cbn [fst snd world].
  destruct (v_name_el v) as [name_el|]; [|reflexivity].
  destruct (v_link_el v) as [link_el|]; [|reflexivity].
  destruct Hrest as (w4 & w5 & w6 & E4 & E5 & E6).
  cbn [fst snd world]. rewrite E4. cbn [fst snd world].
  unfold lift. rewrite PyStrFacts.split_char_first. cbn [fst snd world].
  unfold view_profile.
  destruct (v_title_el v) as [title_el|].
  - cbn [fst snd world]. rewrite E5. cbn [fst snd world ret].
    rewrite E6. cbn [fst snd world].
    destruct (v_href v) as [href|]; [|reflexivity].
    rewrite truthy_contains.
    destruct (PyStr.contains "/in/" href); [|reflexivity].
    rewrite PyStrFacts.split_char_first. reflexivity.
  - subst w5. cbn [fst snd world ret]. rewrite E6. cbn [fst snd world].
    destruct (v_href v) as [href|]; [|reflexivity].
    rewrite truthy_contains.
    destruct (PyStr.contains "/in/" href); [|reflexivity].
    rewrite PyStrFacts.split_char_first. reflexivity.
Qed.

End Extraction.

(** Both elements of the entry are there and its address holds [/in/],
    but reading the text of the name raises: the entry yields no profile. *)
Lemma extraction_fault_counterexample :
  snd (Fake.sub_query Fake.site_detached (Fake.HEntry 0) name_selector
         Fake.feed)
  = inr (Some (Fake.HName 0)) /\
  snd (Fake.get_attribute Fake.site_detached (Fake.HName 0) "href" Fake.feed)
  = inr (Some "https://www.linkedin.com/in/ana"%string) /\
  PyStr.contains "/in/" "https://www.linkedin.com/in/ana" = true /\
  snd (extract_entry (drv := Fake.driver Fake.site_detached) (Fake.HEntry 0)
         (initial_state Fake.feed))
  = inr None.
Proof. repeat split. Qed.

(** C7, amended: for every entry of a listing that is read without a fault
    of the browser, a profile is produced exactly when the name element and
    the link element are both there and the [href] of the link holds
    [/in/]; its [url] is the [href] before its first question mark, its
    [name] the first line of the trimmed text of the name element, trimmed,
    and its [title] the trimmed text of the subtitle, or the empty string
    without a subtitle element.  Any entry, read with or without a fault,
    is handled without an exception and without a record in [skipped] or
    [errors]. *)
Theorem extraction_rule {W H : Type} {drv : Driver W H} (h : H)
  (s : state W H) (v : entry_view) :
  reads h (world s) v ->
  (forall p,
      snd (extract_entry h s) = inr (Some p) <->
      exists name_el link_el href,
        v_name_el v = Some name_el /\ v_link_el v = Some link_el /\
        v_href v = Some href /\ PyStr.contains "/in/" href = true /\
        p = view_profile v href) /\
  (forall h' (s' : state W H),
      (exists o, snd (extract_entry h' s') = inr o) /\
      results (fst (extract_entry h' s')) = results s').
Proof.
  intros Hv. split; [|intros h' s'; apply extract_entry_total].
  intros p. rewrite (extract_entry_reads h s v Hv). split.
  - destruct (v_name_el v) as [ne|]; [|discriminate].
    destruct (v_link_el v) as [le|]; [|discriminate].
    destruct (v_href v) as [href|]; [|discriminate].
    destruct (PyStr.contains "/in/" href) eqn:Ec; [|discriminate].
    intros E. inversion E. exists ne, le, href. auto.
  - intros (ne & le & href & -> & -> & -> & Ec & ->). now rewrite Ec.
Qed.

Lemma extraction_rule_witness :
  snd (extract_entry (drv := Fake.driver Fake.site_connected) (Fake.HEntry 0)
         (initial_state Fake.feed))
  = inr (Some Fake.maria_profile).
Proof.
  pose proof (extraction_rule (drv := Fake.driver Fake.site_connected)
                (Fake.HEntry 0) (initial_state Fake.feed)
                {| v_name_el := Some (Fake.HName 0);
                   v_title_el := Some (Fake.HTitle 0);
                   v_link_el := Some (Fake.HName 0);
                   v_raw_name := "Maria Clara Souza";
                   v_raw_title := "Engenheira de Dados";
                   v_href := Some "https://www.linkedin.com/in/maria?trk=search"%string
                |}) as Hc.
  destruct Hc as [Hiff _].
  - exists Fake.feed, Fake.feed, Fake.feed. repeat split.
    exists Fake.feed, Fake.feed, Fake.feed. repeat split.
  - apply Hiff.
    exists (Fake.HName 0), (Fake.HName 0),
      "https://www.linkedin.com/in/maria?trk=search"%string.
    repeat split.
Defined.

(* ================================================================== *)
(** * The two modes *)

(** A dry run records nothing in [sent] and clicks, fills and presses
    nothing on a page element; a real run records nothing in
    [would_send].  This holds when the run ends, however it ends. *)
Lemma modes_apart {W H : Type} {drv : Driver W H} (rnd : nat -> Q)
  (cfg : RunRequest) (w : W) :
  let s' := fst (_run_automation rnd cfg (initial_state w)) in
  (dry_run cfg = true ->
   sent (results s') = [] /\ Forall no_interaction (trace s')) /\
  (dry_run cfg = false -> would_send (results s') = []).
Proof. exact (mode_run rnd cfg w). Qed.

Section DryRun.

Context {W H : Type} {drv : Driver W H}.
Variable rnd : nat -> Q.
Variable cfg : RunRequest.

Lemma bind_ok {A B : Type} (c : M W H A) (f : A -> M W H B)
  (s s' : state W H) (a : A) :
  c s = (s', inr a) -> bind c f s = f a s'.
Proof. intros E. unfold bind. now rewrite E. Qed.

Lemma call_eq {A : Type} (ev : event H) (op : W -> W * (exn + A))
  (s : state W H) (w' : W) (r : exn + A) :
  op (world s) = (w', r) ->
  call ev op s
  = (Build_state w' (draws s) (trace s ++ [ev]) (results s), r).
Proof. intros E. unfold call. now rewrite E. Qed.

Lemma find_msg_btn_finds (sels : list string) (o : option H) (s : state W H)
  (b : H) (w' : W) :
  finds sels (world s) b w' ->
  exists s', find_msg_btn sels o s = (s', inr (Some b)) /\
             world s' = w' /\ results s' = results s.
Proof.
  revert o s. induction sels as [|sel rest IH]; intros o s Hf; [destruct Hf|].
  cbn [find_msg_btn finds] in *.
  destruct Hf as [E|(w1 & E & Hf)];
    (erewrite bind_ok by (apply call_eq; exact E)).
  - eexists. split; [reflexivity | split; reflexivity].
  - apply (IH None (Build_state w1 (draws s)
                      (trace s ++ [EvQuery sel]) (results s)) Hf).
Qed.

(** X18: in a dry run, a profile whose page loads, on which one of the
    button selectors finds an element, and whose message composes, is
    recorded in [would_send] with this message and counted; the body leaves
    by [continue]. *)
Lemma dry_run_records_located (p : Profile) (s : state W H) (w1 w2 w3 : W)
  (b : H) (m : string) :
  dry_run cfg = true ->
  page_goto (url p) (world s) = (w1, inr tt) ->
  page_wait_for_load_state w1 = (w2, inr tt) ->
  finds btn_selectors w2 b w3 ->
  _build_message (message_template cfg) (name p) (title p) = inr m ->
  snd (attempt rnd cfg p s) = inr Continue /\
  results (fst (attempt rnd cfg p s))
  = incr_total (add_would_send {| ws_profile := p; message_preview := m |}
                  (results s)).
Proof.
  intros Hd Eg Ew Hf Hm.
  unfold attempt.
  erewrite bind_ok by (apply call_eq; exact Eg).
  erewrite bind_ok by (apply call_eq; exact Ew).
  erewrite (bind_ok (_random_delay rnd 2 3)) by reflexivity.
  match goal with
  | |- context [bind (find_msg_btn btn_selectors None) _ ?s0] =>
      destruct (find_msg_btn_finds btn_selectors None s0 b w3 Hf)
        as (s1 & Ef & _ & Hres)
  end.
  rewrite (bind_ok _ _ _ _ _ Ef). cbn [results] in Hres.
  rewrite Hm, Hd. unfold incr_totalSent, lift.
  unfold bind, modify_results, get_results, observe, ret.
  cbn [fst snd results]. now rewrite Hres.
Qed.

End DryRun.

(** C3 at a failing input: a dry run over a listing whose only result has
    an empty name text.  The message button of the profile is found, yet
    the profile is recorded in [errors] with the detail of the
    [IndexError] of [name.split()[0]], not in [would_send], and the
    counter stays at 0. *)
Lemma dry_run_nameless_errored :
  let s' := fst (Fake.run Fake.site_nameless Fake.draw_zero
                   (Fake.request 10 true)) in
  snd (Fake.query Fake.site_nameless (hd EmptyString btn_selectors)
         (url Fake.nameless_profile))
  = inr (Some Fake.HButton) /\
  entered (trace s') = [Fake.nameless_profile; Fake.nameless_profile] /\
  would_send (results s') = [] /\
  errors (results s')
  = [ {| er_profile := Fake.nameless_profile;
         error := "list index out of range" |};
      {| er_profile := Fake.nameless_profile;
         error := "list index out of range" |} ] /\
  totalSent (results s') = 0%Z.
Proof. vm_compute. repeat split. Qed.

(* ================================================================== *)
(** * The trailing delay *)

(** C9 at a failing input: a dry run with the default bounds 3 and 7 and a
    quota of 2 over two connections.  Both profiles enter and are recorded
    in [would_send]; the two gate delays are slept, and no delay with the
    bounds 5 and 10 is: the [continue] after the record jumps over it. *)
Lemma continue_skips_trailing_delay :
  let s' := fst (Fake.run Fake.site_connected Fake.draw_zero
                   (Fake.request 2 true)) in
  entered (trace s') = [Fake.maria_profile; Fake.joao_profile] /\
  map ws_profile (would_send (results s'))
  = [Fake.maria_profile; Fake.joao_profile] /\
  sleeps_between 3 7 (trace s') = [3%Q; 3%Q] /\
  sleeps_between 5 10 (trace s') = [].
Proof. vm_compute. repeat split. Qed.

(** The sibling path: a profile whose processing raises is followed by the
    trailing delay. *)
Lemma error_keeps_trailing_delay :
  let s' := fst (process_profile (drv := Fake.driver Fake.site_strangers)
                   Fake.draw_zero (Fake.request 10 false) Fake.joao_profile
                   (initial_state Fake.feed)) in
  sleeps_between 5 10 (trace s') = [5%Q].
Proof. vm_compute. reflexivity. Qed.

(* ================================================================== *)
(** * The response *)

(** C10: a run that returns a response returns one whose [success] is
    true, whatever was recorded: the response is built from the final
    [results] with the constant [True]. *)
Theorem run_success {W H : Type} {drv : Driver W H} (rnd : nat -> Q)
  (cfg : RunRequest) (s s' : state W H) (resp : RunResponse) :
  _run_automation rnd cfg s = (s', inr resp) ->
  success resp = true /\ resp = response cfg (results s').
Proof.
  intros E.
  assert (Hw : wp (_run_automation rnd cfg)
                 (fun s2 r =>
                    forall x, r = inr x ->
                              success x = true /\
                              x = response cfg (results s2)) s).
  { unfold _run_automation. wp_walk.
    apply wp_any. intros s1 [e|[]]; [intros x Hx; discriminate Hx|].
    wp_walk; try (intros x Hx; discriminate Hx).
    - apply wp_any. intros s2 [e|[]]; [intros x Hx; discriminate Hx|].
      wp_walk; try (intros x Hx; discriminate Hx).
      intros x Hx. inversion Hx. split; reflexivity. }
  exact (wp_run _ _ _ _ _ Hw E resp eq_refl).
Qed.

Lemma run_success_witness :
  exists resp,
    snd (Fake.run Fake.site_strangers Fake.draw_zero (Fake.request 10 false))
    = inr resp /\
    success resp = true /\
    sum_totalSent (summary resp) = 0%Z /\
    resp_sent resp = [] /\ resp_would_send resp = [] /\
    length (resp_skipped resp) = 2 /\ length (resp_errors resp) = 2.
Proof.
  eexists. split; [vm_compute; reflexivity|].
  split; [|vm_compute; repeat split].
  refine (proj1 (run_success (drv := Fake.driver Fake.site_strangers)
                   Fake.draw_zero (Fake.request 10 false)
                   (initial_state "about:blank"%string)
                   (fst (Fake.run Fake.site_strangers Fake.draw_zero
                           (Fake.request 10 false))) _ _)).
  vm_compute. reflexivity.
Defined.

(* ================================================================== *)
(** * Examples *)

Example replace_all_occurrences :
  PyStr.replace "{nome}" "Ana" "Ola {nome}, {nome}!" = "Ola Ana, Ana!"%string.
Proof. reflexivity. Qed.

Example replace_leftmost :
  PyStr.replace "aa" "b" "aaaaa" = "bba"%string.
Proof. reflexivity. Qed.

Example split_ws_tokens :
  PyStr.split_ws "  Maria Clara   Souza " = ["Maria"; "Clara"; "Souza"]%string.
Proof. reflexivity. Qed.

Example split_char_parts :
  PyStr.split_char "?" "a?b?c" = ["a"; "b"; "c"]%string.
Proof. reflexivity. Qed.

Example strip_both_ends : PyStr.strip "  ab c  " = "ab c"%string.
Proof. reflexivity. Qed.

Example search_url_escapes :
  search_url "data engineer"
  = ("https://www.linkedin.com/search/results/people/"
     ++ "?keywords=data%20engineer&origin=GLOBAL_SEARCH_HEADER")%string.
Proof. reflexivity. Qed.

(** The scenario of the specification: a quota of 2, candidates beyond it,
    a dry run. *)
Example quota_two_dry_run :
  let s' := fst (Fake.run Fake.site_connected Fake.draw_zero
                   (Fake.request 2 true)) in
  length (would_send (results s')) = 2 /\ sent (results s') = [] /\
  length (entered (trace s')) = 2.
Proof. vm_compute. repeat split. Qed.

(* ================================================================== *)
(** * More on the strings: the search address, trimming, blank names *)

Module MoreStrings.
Import PyStr PyStrFacts.
Local Open Scope string_scope.

Lemma all_chars_app (P : ascii -> bool) (a b : string) :
  all_chars P (a ++ b) = all_chars P a && all_chars P b.
Proof.
  induction a as [|c a IH]; cbn [append all_chars]; [reflexivity|].
  now rewrite IH, andb_assoc.
Qed.

Lemma length_app (a b : string) :
  String.length (a ++ b) = String.length a + String.length b.
Proof. induction a as [|c a IH]; cbn; [reflexivity | now rewrite IH]. Qed.

(** ** [keyword.replace(' ', '%20')] *)

Lemma escape_step (c : ascii) (s : string) :
  replace " " "%20" (String c s)
  = if Ascii.eqb c " "%char then "%20" ++ replace " " "%20" s
    else String c (replace " " "%20" s).
Proof.
  unfold replace. cbn [replace_from prefix String.length Nat.sub].
  destruct (ascii_dec " " c) as [<-|n].
  - cbn. now destruct s.
  - destruct (Ascii.eqb_spec c " "%char) as [->|_]; [now elim n | reflexivity].
Qed.

Lemma escape_empty : replace " " "%20" EmptyString = EmptyString.
Proof. reflexivity. Qed.

Lemma escape_no_space (s : string) :
  all_chars (is_not " "%char) (replace " " "%20" s) = true.
Proof.
  induction s as [|c s IH]; [reflexivity|]. rewrite escape_step.
  destruct (Ascii.eqb c " "%char) eqn:E.
  - cbn [append all_chars]. now rewrite IH.
  - cbn [all_chars]. unfold is_not at 1. now rewrite E, IH.
Qed.

Lemma escape_length (s : string) :
  String.length (replace " " "%20" s) = String.length s + 2 * spaces s.
Proof.
  induction s as [|c s IH]; [reflexivity|]. rewrite escape_step.
  cbn [spaces String.length]. destruct (Ascii.eqb c " "%char).
  - cbn [append String.length]. rewrite IH. lia.
  - cbn [String.length]. rewrite IH. lia.
Qed.

Lemma escape_nothing (s : string) :
  spaces s = 0 -> replace " " "%20" s = s.
Proof.
  induction s as [|c s IH]; [reflexivity|]. rewrite escape_step.
  cbn [spaces]. destruct (Ascii.eqb c " "%char); [discriminate|].
  intros Hs. now rewrite IH.
Qed.

(** A pattern without space and percent sign begins the escaped text when
    it begins the text. *)
Lemma prefix_escape (p s : string) :
  all_chars (is_not " "%char) p = true ->
  all_chars (is_not "%"%char) p = true ->
  prefix p (replace " " "%20" s) = prefix p s.
Proof.
  revert p. induction s as [|c s IH]; intros p Hs Hp; [reflexivity|].
  rewrite escape_step. destruct p as [|a p]; [now destruct (Ascii.eqb c " ")|].
  cbn [all_chars] in Hs, Hp.
  apply andb_true_iff in Hs as [Ha Hs]. apply andb_true_iff in Hp as [Hb Hp].
  unfold is_not in Ha, Hb. apply negb_true_iff in Ha, Hb.
  apply Ascii.eqb_neq in Ha, Hb.
  destruct (Ascii.eqb_spec c " "%char) as [->|Hc].
  - cbn [append prefix].
    destruct (ascii_dec a "%") as [E|_]; [now elim Hb|].
    destruct (ascii_dec a " ") as [E|_]; [now elim Ha | reflexivity].
  - cbn [prefix]. destruct (ascii_dec a c); [now apply IH | reflexivity].
Qed.

Lemma unescape_escape (s : string) :
  contains "%20" s = false ->
  replace "%20" " " (replace " " "%20" s) = s.
Proof.
  induction s as [|c s IH]; [reflexivity|].
  cbn [contains]. intros Hc. apply orb_false_iff in Hc as [Hp Hc].
  rewrite escape_step. destruct (Ascii.eqb_spec c " "%char) as [->|Hn].
  - unfold replace at 1. rewrite replace_from_occurrence.
    fold (replace "%20" " " (replace " " "%20" s)). now rewrite IH.
  - unfold replace at 1. cbn [replace_from].
    assert (Hq : prefix "%20" (String c (replace " " "%20" s)) = false).
    { cbn [prefix] in Hp |- *. destruct (ascii_dec "%" c); [|reflexivity].
      now rewrite (prefix_escape "20" s). }
    rewrite Hq. fold (replace "%20" " " (replace " " "%20" s)). now rewrite IH.
Qed.

(** ** Trimming *)

Lemma lstrip_head_clean (s : string) : head_clean (lstrip s) = true.
Proof.
  induction s as [|c s IH]; [reflexivity|]. cbn [lstrip].
  destruct (is_space c) eqn:E; [exact IH|]. cbn. now rewrite E.
Qed.

Lemma rstrip_head_clean (s : string) :
  head_clean s = true -> head_clean (rstrip s) = true.
Proof.
  destruct s as [|c s]; [reflexivity|]. cbn [head_clean rstrip]. intros Hc.
  destruct (rstrip s); [|exact Hc].
  destruct (is_space c) eqn:E; [discriminate Hc|]. cbn. now rewrite E.
Qed.

Lemma rstrip_last_clean (s : string) : last_clean (rstrip s) = true.
Proof.
  induction s as [|c s IH]; [reflexivity|]. cbn [rstrip].
  destruct (rstrip s) as [|d r].
  - destruct (is_space c) eqn:E; [reflexivity|]. cbn. now rewrite E.
  - exact IH.
Qed.

Lemma strip_trimmed (s : string) : trimmed (strip s) = true.
Proof.
  unfold trimmed, strip.
  now rewrite rstrip_head_clean, rstrip_last_clean by apply lstrip_head_clean.
Qed.

Lemma lstrip_keeps (P : ascii -> bool) (s : string) :
  all_chars P s = true -> all_chars P (lstrip s) = true.
Proof.
  induction s as [|c s IH]; [reflexivity|]. cbn [lstrip all_chars].
  intros Hs. apply andb_true_iff in Hs as [Hc Hs].
  destruct (is_space c); [auto|]. cbn [all_chars]. now rewrite Hc, Hs.
Qed.

Lemma rstrip_keeps (P : ascii -> bool) (s : string) :
  all_chars P s = true -> all_chars P (rstrip s) = true.
Proof.
  induction s as [|c s IH]; [reflexivity|]. cbn [rstrip all_chars].
  intros Hs. apply andb_true_iff in Hs as [Hc Hs]. specialize (IH Hs).
  destruct (rstrip s) as [|d r].
  - destruct (is_space c); [reflexivity|]. cbn. now rewrite Hc.
  - cbn [all_chars] in *. now rewrite Hc, IH.
Qed.

Lemma strip_keeps (P : ascii -> bool) (s : string) :
  all_chars P s = true -> all_chars P (strip s) = true.
Proof. intros Hs. apply rstrip_keeps, lstrip_keeps, Hs. Qed.

(** ** Names with and without a token *)

Lemma split_ws_token (s : string) :
  all_chars is_space s = false -> exists tok rest, split_ws s = tok :: rest.
Proof.
  unfold split_ws. induction s as [|c s IH]; [discriminate|].
  cbn [all_chars split_ws_from]. destruct (is_space c); [exact IH|].
  intros _. eauto.
Qed.

End MoreStrings.

(* ================================================================== *)
(** * Further properties: the search address *)

(** X1: the address of a search holds no space, whatever the keyword: each
    space of the keyword is written [%20], which makes the address two
    characters longer for each space, and nothing else is added. *)
Theorem search_url_has_no_space (keyword : string) :
  all_chars (is_not " "%char) (search_url keyword) = true /\
  String.length (search_url keyword)
  = String.length (search_url EmptyString) + String.length keyword
    + 2 * spaces keyword.
Proof.
  unfold search_url. split.
  - rewrite !MoreStrings.all_chars_app, MoreStrings.escape_no_space.
    reflexivity.
  - rewrite !MoreStrings.length_app, MoreStrings.escape_length.
    cbn [PyStr.replace PyStr.replace_from String.length]. lia.
Qed.

(** X2: the keyword can be read back from the address when it holds no
    [%20] itself: the query of the address is the keyword with its spaces
    escaped, and turning each [%20] of it into a space gives the keyword. *)
Theorem search_url_keeps_keyword (keyword : string) :
  PyStr.contains "%20" keyword = false ->
  exists query,
    search_url keyword
    = ("https://www.linkedin.com/search/results/people/?keywords="
       ++ query ++ "&origin=GLOBAL_SEARCH_HEADER")%string /\
    PyStr.replace "%20" " " query = keyword.
Proof.
  intros Hk. exists (PyStr.replace " " "%20" keyword). split.
  - reflexivity.
  - now apply MoreStrings.unescape_escape.
Qed.

Lemma search_url_keeps_keyword_witness :
  exists query,
    search_url "data engineer"
    = ("https://www.linkedin.com/search/results/people/?keywords="
       ++ query ++ "&origin=GLOBAL_SEARCH_HEADER")%string /\
    PyStr.replace "%20" " " query = "data engineer"%string.
Proof. apply (search_url_keeps_keyword "data engineer"). reflexivity. Defined.

(* ================================================================== *)
(** * Further properties: message composition *)

(** X3: composition fails exactly on the names made of whitespace only,
    the empty name among them, and then with the [IndexError] of
    [name.split()[0]], whatever the template and the title; every other
    name has a first token and yields a message. *)
Theorem build_message_raises_on_blank (template name title : string) :
  if all_chars PyStr.is_space name
  then _build_message template name title = inl IndexError
  else exists first,
      first_token_of name first /\
      _build_message template name title
      = inr (PyStr.replace "{cargo}" (cargo_text title)
               (PyStr.replace "{nome}" first template)).
Proof.
  destruct (all_chars PyStr.is_space name) eqn:Hb.
  - now apply BuildMessage.build_message_blank.
  - destruct (MoreStrings.split_ws_token name Hb) as (tok & rest & E).
    assert (Hf : first_token_of name tok).
    { apply PyStrFacts.first_token_split. now rewrite E. }
    exists tok. split; [exact Hf|].
    now apply BuildMessage.build_message_token.
Qed.

(** X4: with the default template of [RunRequest], the message of a name
    whose first token holds no opening brace is the fixed text around the
    first name and the title (or [profissional]); the bracketed note
    [seu motivo aqui] of the template is part of the message. *)
Theorem default_template_message (name title first : string) :
  first_token_of name first ->
  Template.no_brace first = true ->
  _build_message default_message_template name title
  = inr ("Ola " ++ first ++ ", tudo bem?"
         ++ String "010"%char (String "010"%char
         ("Vi seu perfil e fiquei interessado no seu trabalho como "
          ++ cargo_text title ++ "."
          ++ String "010"%char
          ("Gostaria de trocar uma ideia sobre [seu motivo aqui]."
           ++ String "010"%char (String "010"%char
              "Podemos conversar?")))))%string.
Proof.
  intros Hf Hn.
  rewrite (BuildMessage.build_message_token _ _ _ _ Hf).
  change default_message_template
    with (Template.render
            [Template.Lit "Ola "; Template.Nome;
             Template.Lit (", tudo bem?"
               ++ String "010"%char (String "010"%char
                  "Vi seu perfil e fiquei interessado no seu trabalho como "));
             Template.Cargo;
             Template.Lit ("."
               ++ String "010"%char
               ("Gostaria de trocar uma ideia sobre [seu motivo aqui]."
                ++ String "010"%char (String "010"%char
                   "Podemos conversar?")))]%string).
  rewrite BuildMessage.replace_nome_render by reflexivity.
  rewrite BuildMessage.replace_cargo_fill by (reflexivity || exact Hn).
  reflexivity.
Qed.

Lemma default_template_message_witness :
  _build_message default_message_template "Maria Clara Souza" EmptyString
  = inr ("Ola Maria, tudo bem?"
         ++ String "010"%char (String "010"%char
         ("Vi seu perfil e fiquei interessado no seu trabalho como "
          ++ "profissional."
          ++ String "010"%char
          ("Gostaria de trocar uma ideia sobre [seu motivo aqui]."
           ++ String "010"%char (String "010"%char
              "Podemos conversar?")))))%string.
Proof.
  exact (default_template_message "Maria Clara Souza" EmptyString "Maria"
           BuildMessage.maria_first_token eq_refl).
Defined.

(* ================================================================== *)
(** * Further properties: extraction *)

Section CleanProfiles.

Context {W H : Type} {drv : Driver W H}.

Lemma extract_entry_clean (h : H) (s : state W H) :
  wp (extract_entry h)
    (fun s' r =>
       results s' = results s /\
       exists o, r = inr o /\ forall p, o = Some p -> clean_profile p) s.
Proof.
  unfold extract_entry.
  wp_walk;
    (split; [reflexivity|]; eexists; split; [reflexivity|]);
    intros p Hp; try discriminate Hp;
    injection Hp as <-;
    repeat match goal with
           | E : index0 (PyStr.split_char _ _) = inr _ |- _ =>
               rewrite PyStrFacts.split_char_first in E; injection E as <-
           end;
    unfold clean_profile; cbn [url name title];
    (repeat split;
     first [ apply PyStrFacts.before_no_sep
           | apply MoreStrings.strip_keeps, PyStrFacts.before_no_sep
           | apply MoreStrings.strip_trimmed
           | reflexivity ]).
Qed.

Lemma extract_profiles_clean (hs : list H) (acc : list Profile)
  (s : state W H) :
  Forall clean_profile acc ->
  wp (extract_profiles hs acc)
    (fun s' r =>
       results s' = results s /\
       exists ps, r = inr ps /\ Forall clean_profile ps /\
                  length ps <= length acc + length hs) s.
Proof.
  revert acc s. induction hs as [|h hs IH]; intros acc s Hacc;
    cbn [extract_profiles].
  - wp_step. split; [reflexivity|]. exists acc. cbn [length].
    repeat split; [exact Hacc | lia].
  - wp_step. eapply wp_weaken; [apply extract_entry_clean|].
    intros s1 r (Hr & o & -> & Ho). cbn beta iota.
    eapply wp_weaken.
    + apply IH. destruct o as [p|]; [|exact Hacc].
      apply Forall_app. split; [exact Hacc|]. constructor; [|constructor].
      now apply Ho.
    + intros s2 r2 (Hr2 & ps & -> & Hps & Hlen).
      split; [congruence|]. exists ps. repeat split; [exact Hps|].
      cbn [length]. destruct o; rewrite ?length_app in Hlen; cbn in Hlen; lia.
Qed.

End CleanProfiles.

(** X5: reading a listing never raises and records nothing, whatever the
    browser does; it yields at most one profile for each result, and every
    profile it yields has an address without question mark, a name on one
    line, and neither the name nor the title begins or ends with
    whitespace. *)
Theorem extracted_profiles_are_clean {W H : Type} {drv : Driver W H}
  (handles : list H) (s : state W H) :
  exists profiles,
    snd (extract_profiles handles [] s) = inr profiles /\
    Forall clean_profile profiles /\
    length profiles <= length handles /\
    results (fst (extract_profiles handles [] s)) = results s.
Proof.
  pose proof (extract_profiles_clean handles [] s (Forall_nil _)) as Hw.
  unfold wp in Hw. destruct Hw as (Hr & ps & E & Hc & Hl).
  exists ps. repeat split; assumption.
Qed.

(* ================================================================== *)
(** * Further properties: the order of the button selectors *)

Section SelectorOrder.

Context {W H : Type} {drv : Driver W H}.

Lemma find_msg_btn_misses (sels : list string) (o : option H)
  (s : state W H) (w' : W) :
  misses sels (world s) w' ->
  find_msg_btn sels o s
  = (Build_state w' (draws s) (trace s ++ map EvQuery sels) (results s),
     inr (match sels with [] => o | _ => None end)).
Proof.
  revert o s. induction sels as [|sel rest IH]; intros o s Hm.
  - cbn in *. subst w'. rewrite app_nil_r. now destruct s.
  - cbn [misses] in Hm. destruct Hm as (w1 & E & Hm).
    cbn [find_msg_btn]. erewrite bind_ok by (apply call_eq; exact E).
    cbn beta iota.
    rewrite (IH None (Build_state w1 (draws s) (trace s ++ [EvQuery sel])
                        (results s)) Hm).
    cbn [draws trace results map].
    rewrite <- app_assoc. cbn [app]. now destruct rest.
Qed.

End SelectorOrder.

(** X6: the selectors of the message button are tried in order and the
    first that finds an element wins: when the selectors [before] find
    nothing and [sel] finds [b], the search returns [b] after querying
    [before] and [sel] only; the selectors [after] are not tried, whatever
    they would find.  When no selector finds anything, all are tried and
    the search returns nothing. *)
Theorem first_button_selector_wins {W H : Type} {drv : Driver W H}
  (before after : list string) (sel : string) (s : state W H) (w1 w2 : W)
  (b : H) :
  misses before (world s) w1 ->
  page_query_selector sel w1 = (w2, inr (Some b)) ->
  find_msg_btn (before ++ sel :: after) None s
  = (Build_state w2 (draws s)
       (trace s ++ map EvQuery (before ++ [sel])) (results s),
     inr (Some b)) /\
  (forall (s0 : state W H) w',
      misses (before ++ sel :: after) (world s0) w' ->
      find_msg_btn (before ++ sel :: after) None s0
      = (Build_state w' (draws s0)
           (trace s0 ++ map EvQuery (before ++ sel :: after)) (results s0),
         inr None)).
Proof.
  intros Hm E. split.
  - clear - Hm E. revert s Hm.
    induction before as [|x before IH]; intros s Hm.
    + cbn in Hm. subst w1. cbn [app find_msg_btn map].
      erewrite bind_ok by (apply call_eq; exact E). reflexivity.
    + cbn [misses] in Hm. destruct Hm as (w0 & E0 & Hm).
      cbn [app find_msg_btn map].
      erewrite bind_ok by (apply call_eq; exact E0).
      cbn beta iota.
      rewrite (IH (Build_state w0 (draws s) (trace s ++ [EvQuery x])
                     (results s)) Hm).
      cbn [draws trace results].
      rewrite <- app_assoc. reflexivity.
  - intros s0 w' Hm0. rewrite (find_msg_btn_misses _ None s0 w' Hm0).
    now destruct before.
Qed.

Lemma first_button_selector_wins_witness :
  find_msg_btn (drv := Scripted.english_driver Fake.site_connected)
    btn_selectors None (initial_state Fake.feed)
  = (Build_state Fake.feed 0
       (map EvQuery [nth 0 btn_selectors EmptyString;
                     nth 1 btn_selectors EmptyString])
       empty_results,
     inr (Some Fake.HButton)).
Proof.
  refine (proj1 (first_button_selector_wins
                   (drv := Scripted.english_driver Fake.site_connected)
                   [nth 0 btn_selectors EmptyString]
                   [nth 2 btn_selectors EmptyString]
                   (nth 1 btn_selectors EmptyString)
                   (initial_state Fake.feed) Fake.feed Fake.feed
                   Fake.HButton _ _)).
  - exists Fake.feed. split; reflexivity.
  - reflexivity.
Defined.

(* ================================================================== *)
(** * Further properties: what is done to a profile page *)

Section Protocol.

Context {W H : Type} {drv : Driver W H}.
Variable rnd : nat -> Q.
Variable cfg : RunRequest.


End Protocol.


(* ================================================================== *)
(** * Further properties: when the trailing delay is slept *)


(* ================================================================== *)
(** * Further properties: the response and the two modes *)

Section Counting.

Context {W H : Type} {drv : Driver W H}.
Variable rnd : nat -> Q.
Variable cfg : RunRequest.

(** The counter counts the records of [would_send] and [sent], whatever
    the quota. *)
Lemma count_run (w : W) :
  let s' := fst (_run_automation rnd cfg (initial_state w)) in
  totalSent (results s')
  = Z.of_nat (length (would_send (results s')) + length (sent (results s'))).
Proof.
  apply (run_inv rnd cfg
           (fun s => totalSent (results s)
                     = Z.of_nat (length (would_send (results s))
                                 + length (sent (results s))))).
  - intros s s' HI Hr _. now rewrite Hr.
  - intros p s s' HI _ Ho _.
    destruct Ho as [m _ _ ->| _ ->|why _ ->|e ->];
      cbn [incr_total add_would_send add_sent add_skipped add_error
           sent would_send totalSent];
      rewrite ?length_app; cbn [length]; lia.
  - intros s Hr _. now rewrite Hr.
Qed.

(** A run that returns, returns the response built from its records. *)
Lemma run_returns_response (s s' : state W H) (resp : RunResponse) :
  _run_automation rnd cfg s = (s', inr resp) ->
  resp = response cfg (results s').
Proof.
  intros E.
  assert (Hw : wp (_run_automation rnd cfg)
                 (fun s2 r =>
                    forall x, r = inr x -> x = response cfg (results s2)) s).
  { unfold _run_automation. wp_walk.
    apply wp_any. intros s1 [e|[]]; [intros x Hx; discriminate Hx|].
    wp_walk; try (intros x Hx; discriminate Hx).
    apply wp_any. intros s2 [e|[]]; [intros x Hx; discriminate Hx|].
    wp_walk; try (intros x Hx; discriminate Hx).
    intros x Hx. now inversion Hx. }
  exact (wp_run _ _ _ _ _ Hw E resp eq_refl).
Qed.

End Counting.

(** X9: the summary of a response agrees with its lists: [totalSent] is
    the number of entries of [would_send] and [sent] together,
    [totalSkipped] and [totalErrors] are the lengths of [skipped] and
    [errors]; the mode label and the flag [dry_run] are those of the
    request, and one of [would_send] and [sent] is empty according to
    it. *)
Theorem summary_agrees_with_lists {W H : Type} {drv : Driver W H}
  (rnd : nat -> Q) (cfg : RunRequest) (w : W) (s' : state W H)
  (resp : RunResponse) :
  _run_automation rnd cfg (initial_state w) = (s', inr resp) ->
  sum_totalSent (summary resp)
  = Z.of_nat (length (resp_would_send resp) + length (resp_sent resp)) /\
  totalSkipped (summary resp) = length (resp_skipped resp) /\
  totalErrors (summary resp) = length (resp_errors resp) /\
  resp_dry_run resp = dry_run cfg /\
  mode (summary resp)
  = (if dry_run cfg then "dry_run (simulacao)"
     else "real (mensagens enviadas)")%string /\
  (if dry_run cfg then resp_sent resp = [] else resp_would_send resp = []).
Proof.
  intros E. pose proof (run_returns_response rnd cfg _ _ _ E) as ->.
  pose proof (count_run rnd cfg w) as Hc.
  pose proof (mode_run rnd cfg w) as [Hdry Hreal].
  rewrite E in Hc, Hdry, Hreal. cbn [fst] in Hc, Hdry, Hreal.
  cbn [response summary sum_totalSent totalSkipped totalErrors resp_dry_run
       mode resp_would_send resp_sent resp_skipped resp_errors].
  repeat split; [exact Hc|].
  destruct (dry_run cfg); [now apply Hdry | now apply Hreal].
Qed.

Lemma summary_agrees_with_lists_witness :
  exists resp,
    snd (Fake.run Fake.site_connected Fake.draw_zero (Fake.request 3 false))
    = inr resp /\
    sum_totalSent (summary resp) = 3%Z /\
    length (resp_sent resp) = 3 /\ resp_would_send resp = [].
Proof.
  eexists. split; [vm_compute; reflexivity|].
  pose proof (summary_agrees_with_lists
                (drv := Fake.driver Fake.site_connected)
                Fake.draw_zero (Fake.request 3 false) "about:blank"%string
                (fst (Fake.run Fake.site_connected Fake.draw_zero
                        (Fake.request 3 false))) _
                ltac:(vm_compute; reflexivity)) as Hs.
  destruct Hs as (Ht & _ & _ & _ & _ & Hw).
  split; [rewrite Ht; reflexivity | split; [reflexivity | exact Hw]].
Defined.

Section PageActions.

Context {W H : Type} {drv : Driver W H}.
Variable rnd : nat -> Q.
Variable cfg : RunRequest.

Lemma page_actions_app (t1 t2 : list (event H)) :
  page_actions (t1 ++ t2) = page_actions t1 ++ page_actions t2.
Proof.
  induction t1 as [|ev t1 IH]; [reflexivity|].
  destruct ev; cbn [app page_actions]; rewrite IH; reflexivity.
Qed.

Lemma page_actions_none (ok : event H -> Prop) (t : list (event H)) :
  (forall ev, ok ev -> no_page_action ev) -> Forall ok t ->
  page_actions t = [].
Proof.
  intros Hno F. induction F as [|ev t Hev F IH]; [reflexivity|].
  apply Hno in Hev. destruct ev; cbn [page_actions]; try exact IH;
    destruct Hev.
Qed.

Lemma search_no_page_action (ev : event H) :
  search_event rnd ev -> no_page_action ev.
Proof. destruct ev; cbn; auto. Qed.

Lemma profile_no_page_action (p : Profile) (n : Z) (ev : event H) :
  profile_event rnd cfg p n ev -> no_page_action ev.
Proof. destruct ev; cbn; auto. Qed.

(** The login acts on the page through the form only, in the order of
    the form. *)
Lemma login_page_actions (s : state W H) :
  wp (login rnd cfg)
    (fun s' _ =>
       exists evs,
         trace s' = trace s ++ evs /\
         exists rest, page_actions evs ++ rest = login_form cfg) s.
Proof.
  unfold login.
  wp_walk; cbn [trace]; rewrite <- ?app_assoc; eexists;
    (split; [reflexivity | cbn [app page_actions]; eexists; reflexivity]).
Qed.

(** So does a whole run, of any request. *)
Lemma run_page_actions (w : W) :
  exists rest,
    page_actions
      (trace (fst (checked_run_automation rnd cfg (initial_state w))))
    ++ rest
    = login_form cfg.
Proof.
  change (wp (checked_run_automation rnd cfg)
            (fun s' _ =>
               exists rest, page_actions (trace s') ++ rest = login_form cfg)
            (initial_state w)).
  unfold checked_run_automation. wp_walk.
  eapply wp_weaken; [apply login_page_actions|].
  intros s1 r (evs & E & rest & Hp). cbn [trace initial_state app] in E.
  assert (Hclose : forall s2 : state W H,
             page_actions (trace s2) = page_actions evs ->
             exists rest0,
               page_actions (trace s2 ++ [EvClose]) ++ rest0
               = login_form cfg).
  { intros s2 E2. exists rest.
    rewrite page_actions_app, E2. cbn [page_actions].
    now rewrite app_nil_r. }
  destruct r as [e|[]]; [exists rest; now rewrite E|].
  wp_walk.
  1-2: (cbn [trace]; apply Hclose; now rewrite E).
  eapply wp_weaken;
    [apply (checked_for_keywords_inv rnd cfg
              (fun s => page_actions (trace s) = page_actions evs))|].
  - intros s s' HI _ (evs' & E' & F). rewrite E', page_actions_app, HI.
    rewrite (page_actions_none _ evs' search_no_page_action F).
    apply app_nil_r.
  - intros p s s' HI _ _ (evs' & E' & F). rewrite E', page_actions_app, HI.
    cbn [page_actions].
    rewrite (page_actions_none _ evs' (profile_no_page_action p _) F).
    apply app_nil_r.
  - intros p s s' HI _ E'. rewrite E', page_actions_app, HI.
    apply app_nil_r.
  - now rewrite E.
  - intros s2 r2 HI2. destruct r2 as [e|[]];
      [exists rest; now rewrite HI2|].
    wp_walk; cbn [trace]; apply Hclose; exact HI2.
Qed.

End PageActions.

(** X10: a dry run sends nothing: when it ends, however it ends, [sent] is
    empty, no element was clicked, filled or given a key press, the only
    fills and clicks on the page are those of the login form (the two
    fields, then the submission), and [totalSent] is the number of entries
    of [would_send]. *)
Theorem dry_run_touches_no_element {W H : Type} {drv : Driver W H}
  (rnd : nat -> Q) (cfg : RunRequest) (w : W) :
  dry_run cfg = true ->
  let s' := fst (checked_run_automation rnd cfg (initial_state w)) in
  sent (results s') = [] /\
  interactions (trace s') = [] /\
  (exists rest, page_actions (trace s') ++ rest = login_form cfg) /\
  totalSent (results s') = Z.of_nat (length (would_send (results s'))).
Proof.
  intros Hd s'. pose proof (checked_count_run rnd cfg w) as Hc.
  destruct (checked_mode_run rnd cfg w) as [Hdry _].
  destruct (Hdry Hd) as [Hs Ht]. fold s' in Hc, Hs, Ht.
  split; [exact Hs|]. split; [|split].
  - clear - Ht. induction Ht as [|ev t Hev _ IH]; [reflexivity|].
    destruct ev; cbn [interactions]; try exact IH; destruct Hev.
  - apply run_page_actions.
  - rewrite Hc, Hs. cbn [length]. f_equal. lia.
Qed.

Lemma dry_run_touches_no_element_witness :
  let s' := fst (Edge.checked_run Fake.site_connected Fake.draw_zero
                   (Fake.request 10 true)) in
  sent (results s') = [] /\
  interactions (trace s') = [] /\
  (exists rest,
      page_actions (trace s') ++ rest = login_form (Fake.request 10 true)) /\
  totalSent (results s') = Z.of_nat (length (would_send (results s'))).
Proof.
  exact (dry_run_touches_no_element (drv := Fake.driver Fake.site_connected)
           Fake.draw_zero (Fake.request 10 true) "about:blank"%string
           eq_refl).
Defined.



(** A profile of a dry run whose button is found and whose message
    composes: the connected site, the first result. *)
Lemma dry_run_records_located_witness :
  results (fst (attempt (drv := Fake.driver Fake.site_connected)
                  Fake.draw_zero (Fake.request 10 true) Fake.maria_profile
                  (initial_state Fake.feed)))
  = incr_total
      (add_would_send
         {| ws_profile := Fake.maria_profile;
            message_preview :=
              PyStr.replace "{cargo}" "Engenheira de Dados"
                (PyStr.replace "{nome}" "Maria" Fake.default_template) |}
         empty_results).
Proof.
  refine (proj2 (dry_run_records_located
                   (drv := Fake.driver Fake.site_connected)
                   Fake.draw_zero (Fake.request 10 true) Fake.maria_profile
                   (initial_state Fake.feed)
                   (url Fake.maria_profile) (url Fake.maria_profile)
                   (url Fake.maria_profile) Fake.HButton _
                   eq_refl eq_refl eq_refl _ eq_refl)).
  left. reflexivity.
Defined.

(* ================================================================== *)
(** * Further properties: durations that are not negative *)

Lemma uniform_between (lo hi u : Q) :
  (0 <= u)%Q -> (u <= 1)%Q ->
  ((lo <= uniform lo hi u)%Q /\ (uniform lo hi u <= hi)%Q) \/
  ((hi <= uniform lo hi u)%Q /\ (uniform lo hi u <= lo)%Q).
Proof.
  intros H0 H1. unfold uniform.
  destruct (Qlt_le_dec hi lo) as [Hlt|Hle].
  - right. split; nra.
  - left. split; nra.
Qed.

(** X13: with bounds that are not negative, no sleep of a run is asked
    with a negative duration. *)
Theorem sleeps_are_not_negative {W H : Type} {drv : Driver W H}
  (rnd : nat -> Q) (cfg : RunRequest) (w : W) (lo hi d : Q) :
  (forall k, (0 <= rnd k)%Q /\ (rnd k <= 1)%Q) ->
  (0 <= delay_min cfg)%Z -> (0 <= delay_max cfg)%Z ->
  In (EvSleep lo hi d)
    (trace (fst (_run_automation rnd cfg (initial_state w)))) ->
  (0 <= d)%Q.
Proof.
  intros Hrnd Hmin Hmax Hin.
  pose proof (sleeps_run rnd cfg w) as F. rewrite Forall_forall in F.
  destruct (F _ Hin) as [Hb (k & ->)].
  destruct (Hrnd k) as [H0 H1].
  assert (Hlo : (0 <= lo)%Q /\ (0 <= hi)%Q).
  { destruct Hb as [Hf|[[-> ->]|[-> ->]]].
    - destruct Hf; split; discriminate.
    - split; (rewrite <- (Zle_Qle 0)); assumption.
    - split; (rewrite <- (Zle_Qle 0)); lia. }
  destruct Hlo as [Hlo Hhi].
  destruct (uniform_between lo hi (rnd k) H0 H1) as [[Ha _]|[Ha _]].
  - now apply Qle_trans with lo.
  - now apply Qle_trans with hi.
Qed.

Lemma sleeps_are_not_negative_witness : (0 <= 7)%Q /\ True.
Proof.
  split; [|exact I].
  apply (sleeps_are_not_negative
           (drv := Fake.driver Fake.site_connected)
           Fake.draw_zero Scripted.swapped_request "about:blank"%string
           7 3 7).
  - intros k. split; discriminate.
  - discriminate.
  - discriminate.
  - vm_compute. repeat (first [left; reflexivity | right]).
Defined.

(* ================================================================== *)
(** * Further properties: runs without a search, and searches that fail *)

Section AfterLogin.

Context {W H : Type} {drv : Driver W H}.
Variable rnd : nat -> Q.
Variable cfg : RunRequest.

(** Once logged in, the run is the keyword loop, the release of the
    browser and the response. *)
Lemma run_after_login (s0 s1 : state W H) :
  login rnd cfg (reset s0) = (s1, inr tt) ->
  logged_in (page_url (world s1)) = true ->
  _run_automation rnd cfg s0
  = match for_keywords rnd cfg (keywords cfg) s1 with
    | (s2, inl e) => (s2, inl e)
    | (s2, inr _) =>
        (closed s2,
         match snd (browser_close (world s2)) with
         | inl e => inl e
         | inr _ => inr (response cfg (results s2))
         end)
    end.
Proof.
  intros El Hu.
  unfold _run_automation, bind at 1, modify_results.
  change (Build_state (world s0) (draws s0) (trace s0) empty_results)
    with (reset s0).
  unfold bind at 1. rewrite El. unfold bind at 1, get_url. rewrite Hu.
  cbn [negb]. unfold bind at 1, ret at 1. unfold bind at 1.
  destruct (for_keywords rnd cfg (keywords cfg) s1) as [s2 [e|[]]];
    [reflexivity|].
  unfold bind, call, get_results, ret, closed. cbn [fst snd results].
  destruct (snd (browser_close (world s2))) as [e|[]]; reflexivity.
Qed.

Lemma for_keywords_goto_fault (k : string) (ks : list string)
  (s : state W H) (w' : W) (e : exn) :
  (totalSent (results s) < max_messages cfg)%Z ->
  page_goto (search_url k) (world s) = (w', inl e) ->
  for_keywords rnd cfg (k :: ks) s
  = (Build_state w' (draws s) (trace s ++ [EvGoto (search_url k)])
       (results s),
     inl e).
Proof.
  intros Hlt E. cbn [for_keywords]. unfold bind at 1, get_results.
  destruct (Z.geb_spec (totalSent (results s)) (max_messages cfg)); [lia|].
  unfold bind at 1. now rewrite (call_eq _ _ _ _ _ E).
Qed.

End AfterLogin.

(** X14: a request that leaves nothing to do (no keyword, or a quota of 0
    or less) still logs in: after the login the browser is released at
    once, no search is made, and the response, with [success] true, has
    four empty lists and counters at 0. *)
Theorem nothing_to_do_still_logs_in {W H : Type} {drv : Driver W H}
  (rnd : nat -> Q) (cfg : RunRequest) (s0 s1 : state W H) :
  login rnd cfg (reset s0) = (s1, inr tt) ->
  logged_in (page_url (world s1)) = true ->
  keywords cfg = [] \/ (max_messages cfg <= 0)%Z ->
  snd (browser_close (world s1)) = inr tt ->
  _run_automation rnd cfg s0 = (closed s1, inr (response cfg empty_results)) /\
  trace (closed s1)
  = trace s0 ++ login_trace cfg (rnd (draws s0)) ++ [EvClose].
Proof.
  intros El Hu Hn Hc.
  destruct (login_through rnd cfg _ _ El) as [Ht Hr].
  cbn [reset trace results draws] in Ht, Hr.
  assert (Ek : for_keywords rnd cfg (keywords cfg) s1 = (s1, inr tt)).
  { destruct Hn as [->|Hq]; [reflexivity|].
    apply for_keywords_quota. rewrite Hr. exact Hq. }
  split.
  - rewrite (run_after_login rnd cfg _ _ El Hu), Ek, Hc, Hr. reflexivity.
  - cbn [closed trace]. now rewrite Ht, <- app_assoc.
Qed.

Lemma nothing_to_do_still_logs_in_witness :
  snd (Fake.run Fake.site_connected Fake.draw_zero (Fake.request 0 false))
  = inr (response (Fake.request 0 false) empty_results).
Proof.
  pose proof (nothing_to_do_still_logs_in
                (drv := Fake.driver Fake.site_connected)
                Fake.draw_zero (Fake.request 0 false)
                (initial_state "about:blank"%string)
                (fst (login (drv := Fake.driver Fake.site_connected)
                        Fake.draw_zero (Fake.request 0 false)
                        (reset (initial_state "about:blank"%string)))))
    as Hn.
  destruct Hn as [Hrun _].
  - vm_compute. reflexivity.
  - reflexivity.
  - right. discriminate.
  - reflexivity.
  - unfold Fake.run. now rewrite Hrun.
Defined.

(** X15: a fault of the search phase is not contained: when the keyword
    loop raises, the run raises the same exception from the same state, so
    [browser.close()] is not called and the records made so far are not
    returned.  This is what happens when the page of a search does not
    load. *)
Theorem search_fault_aborts_run {W H : Type} {drv : Driver W H}
  (rnd : nat -> Q) (cfg : RunRequest) (s0 s1 s2 : state W H) (e : exn) :
  login rnd cfg (reset s0) = (s1, inr tt) ->
  logged_in (page_url (world s1)) = true ->
  for_keywords rnd cfg (keywords cfg) s1 = (s2, inl e) ->
  _run_automation rnd cfg s0 = (s2, inl e) /\
  (forall k ks (s : state W H) w' e',
      (totalSent (results s) < max_messages cfg)%Z ->
      page_goto (search_url k) (world s) = (w', inl e') ->
      for_keywords rnd cfg (k :: ks) s
      = (Build_state w' (draws s) (trace s ++ [EvGoto (search_url k)])
           (results s),
         inl e')).
Proof.
  intros El Hu Ek. split.
  - now rewrite (run_after_login rnd cfg _ _ El Hu), Ek.
  - intros k ks s w' e'. apply for_keywords_goto_fault.
Qed.

Lemma search_fault_aborts_run_witness :
  snd (Fake.run Scripted.site_search_down Fake.draw_zero
         (default_request "me@example.org" "secret"))
  = inl (DriverError "net::ERR_FAILED") /\
  existsb (fun ev => match ev with EvClose => true | _ => false end)
    (trace (fst (Fake.run Scripted.site_search_down Fake.draw_zero
                   (default_request "me@example.org" "secret"))))
  = false.
Proof.
  pose proof (search_fault_aborts_run
                (drv := Fake.driver Scripted.site_search_down)
                Fake.draw_zero (default_request "me@example.org" "secret")
                (initial_state "about:blank"%string)
                (fst (login (drv := Fake.driver Scripted.site_search_down)
                        Fake.draw_zero
                        (default_request "me@example.org" "secret")
                        (reset (initial_state "about:blank"%string))))
                (fst (Fake.run Scripted.site_search_down Fake.draw_zero
                        (default_request "me@example.org" "secret")))
                (DriverError "net::ERR_FAILED")) as Hs.
  destruct Hs as [Hrun _].
  - vm_compute. reflexivity.
  - reflexivity.
  - vm_compute. reflexivity.
  - unfold Fake.run. rewrite Hrun. split; [reflexivity|].
    vm_compute. reflexivity.
Defined.

(* ================================================================== *)
(** * Further properties: the request handler *)

Section Handler.

Context {W H : Type} {drv : Driver W H}.
Variable rnd : nat -> Q.
Variable cfg : RunRequest.

(** A login that leads elsewhere: the browser is released and the run
    raises. *)
Lemma run_login_failed (s0 s1 : state W H) :
  login rnd cfg (reset s0) = (s1, inr tt) ->
  logged_in (page_url (world s1)) = false ->
  _run_automation rnd cfg s0
  = (closed s1,
     match snd (browser_close (world s1)) with
     | inl e => inl e
     | inr _ => inl LoginFailed
     end).
Proof.
  intros El Hu. unfold _run_automation, bind, modify_results.
  change (Build_state (world s0) (draws s0) (trace s0) empty_results)
    with (reset s0).
  rewrite El. unfold get_url. rewrite Hu. cbn [negb].
  unfold call, raise, closed. cbn [fst snd].
  destruct (snd (browser_close (world s1))) as [e|[]]; reflexivity.
Qed.

End Handler.

(** X17: with the right key, a login that does not lead to the feed or
    the network page is answered 500 with the detail
    [Login falhou. Verifique credenciais ou CAPTCHA.], after the browser
    was released. *)
Theorem failed_login_is_answered_500 {W H : Type} {drv : Driver W H}
  (rnd : nat -> Q) (env : option string) (body : RunRequest)
  (x_api_key : string) (s0 s1 : state W H) :
  String.eqb x_api_key (API_KEY env) = true ->
  login rnd body (reset s0) = (s1, inr tt) ->
  logged_in (page_url (world s1)) = false ->
  snd (browser_close (world s1)) = inr tt ->
  run rnd env body x_api_key s0
  = (closed s1,
     HTTPException 500 "Login falhou. Verifique credenciais ou CAPTCHA.").
Proof.
  intros Hk El Hu Hc. unfold run. rewrite Hk. cbn [negb].
  now rewrite (run_login_failed rnd body _ _ El Hu), Hc.
Qed.

Lemma failed_login_is_answered_500_witness :
  snd (run (drv := Fake.driver Fake.site_challenge) Fake.draw_zero None
         (default_request "me@example.org" "wrong") "troque-esta-chave"
         (initial_state "about:blank"%string))
  = HTTPException 500 "Login falhou. Verifique credenciais ou CAPTCHA.".
Proof.
  rewrite (failed_login_is_answered_500
             (drv := Fake.driver Fake.site_challenge) Fake.draw_zero None
             (default_request "me@example.org" "wrong") "troque-esta-chave"
             (initial_state "about:blank"%string)
             (fst (login (drv := Fake.driver Fake.site_challenge)
                     Fake.draw_zero
                     (default_request "me@example.org" "wrong")
                     (reset (initial_state "about:blank"%string))))
             eq_refl ltac:(vm_compute; reflexivity) eq_refl eq_refl).
  reflexivity.
Defined.
